(** * Merging the CLUE repurposing compound tables

    A shallow embedding of
    [metadata/moa/scripts/nbconverted/0.merge-repurposing-compounds.py]
    and the properties of the consolidated and the long table it writes.

    The script is a straight line of dataframe operations.  A dataframe is
    embedded as its list of column labels and its list of rows; the row
    label (the index) is the position of the row, which is what
    [reset_index(drop=True)] leaves.  Python exceptions are values of
    [exn], and every step that can raise returns a [result]. *)

From stdpp Require Import base decidable option list countable gmap strings.
From Stdlib Require Import ZArith Ascii Lia.

Local Open Scope string_scope.
Local Open Scope list_scope.

(** ** Cells and frames *)

(** The files are decoded as ISO-8859-1, one character per byte, so a text
    cell is a [string] of 8-bit characters.  A missing entry is [NaN]; the
    row labels that [reset_index()] turns into a column are integers. *)
Inductive cell : Type :=
  | NaN
  | Str (s : string)
  | Int (n : Z).

#[global] Instance cell_eq_dec : EqDecision cell.
Proof. solve_decision. Defined.

Definition cell_to_sum (c : cell) : unit + (string + Z) :=
  match c with
  | NaN => inl tt
  | Str s => inr (inl s)
  | Int n => inr (inr n)
  end.

Definition cell_of_sum (x : unit + (string + Z)) : cell :=
  match x with
  | inl _ => NaN
  | inr (inl s) => Str s
  | inr (inr n) => Int n
  end.

#[global] Instance cell_countable : Countable cell.
Proof.
  refine (inj_countable' cell_to_sum cell_of_sum _).
  intros []; reflexivity.
Defined.

Record DataFrame : Type := mkFrame {
  columns : list string;
  data : list (list cell)
}.

(** Every row has one cell per column. *)
Definition rectangular (df : DataFrame) : Prop :=
  Forall (fun row => length row = length (columns df)) (data df).

(** ** Exceptions *)

Inductive exn : Type :=
  | AssertionError
  | AttributeError
  | KeyError
  | ValueError
  | TypeError
  | IndexError.

Inductive result (A : Type) : Type :=
  | Ok (a : A)
  | Raise (e : exn).

Arguments Ok {A} a.
Arguments Raise {A} e.

#[global] Instance result_ret : MRet result := fun A a => Ok a.

#[global] Instance result_bind : MBind result := fun A B k m =>
  match m with
  | Ok a => k a
  | Raise e => Raise e
  end.

Definition py_assert (b : bool) : result unit :=
  if b then Ok tt else Raise AssertionError.

Definition lift {A : Type} (e : exn) (o : option A) : result A :=
  match o with
  | Some a => Ok a
  | None => Raise e
  end.

(** ** Python lists and strings *)

(** [l.index(x)]: the first position of [x], if any. *)
Fixpoint index_of (x : string) (l : list string) : option nat :=
  match l with
  | [] => None
  | y :: l' => if decide (x = y) then Some 0 else S <$> index_of x l'
  end.

(** [l.pop(i)]: the element at [i] and the list without it. *)
Definition pop {A : Type} (i : nat) (l : list A) : option (A * list A) :=
  x ← l !! i; Some (x, delete i l).

(** [s.split(sep)] for a one-character separator: the pieces between the
    occurrences of [sep], empty pieces included. *)
Fixpoint split (sep : ascii) (s : string) : list string :=
  match s with
  | EmptyString => [EmptyString]
  | String c rest =>
      if decide (c = sep) then EmptyString :: split sep rest
      else match split sep rest with
           | [] => [String c EmptyString]
           | piece :: pieces => String c piece :: pieces
           end
  end.

(** [s[:n]] *)
Definition take_prefix (n : nat) (s : string) : string := String.substring 0 n s.

(** [s.startswith(p)] *)
Definition startswith (p s : string) : bool := String.prefix p s.

(** ** Column access *)

(** The cell at position [k] of a row. *)
Definition key_at (k : nat) (row : list cell) : cell := default NaN (row !! k).

(** [df.c] and [df[c]]: the values of column [c], top to bottom. *)
Definition get_column (c : string) (df : DataFrame) : option (list cell) :=
  p ← index_of c (columns df);
  Some ((fun row => key_at p row) <$> data df).

(** [df.c = values] for an existing column. *)
Definition set_column (c : string) (values : list cell) (df : DataFrame) : option DataFrame :=
  p ← index_of c (columns df);
  Some (mkFrame (columns df)
          (zip_with (fun row v => <[p := v]> row) (data df) values)).

(** [df.assign(c=values)]: overwrite the column when the label exists,
    append it otherwise. *)
Definition assign (c : string) (values : list cell) (df : DataFrame) : DataFrame :=
  match index_of c (columns df) with
  | Some p =>
      mkFrame (columns df) (zip_with (fun row v => <[p := v]> row) (data df) values)
  | None =>
      mkFrame (columns df ++ [c]) (zip_with (fun row v => row ++ [v]) (data df) values)
  end.

(** Every position that carries label [c]. *)
Fixpoint positions (c : string) (cols : list string) : list nat :=
  match cols with
  | [] => []
  | y :: cols' =>
      (if decide (c = y) then [0] else []) ++ (S <$> positions c cols')
  end.

(** [df.loc[:, labels]]: for each requested label, the columns that carry
    it; a label the frame does not have is a [KeyError]. *)
Definition loc_columns (labels : list string) (df : DataFrame) : result DataFrame :=
  if forallb (fun c => bool_decide (positions c (columns df) <> [])) labels then
    let picks := labels ≫= (fun c => positions c (columns df)) in
    Ok (mkFrame (labels ≫= (fun c => (fun _ => c) <$> positions c (columns df)))
                ((fun row => (fun p => key_at p row) <$> picks) <$> data df))
  else Raise KeyError.

(** ** Series operations *)

(** [set(series)], up to equality of cells.  That is what a Python set is
    for texts and numbers; for missing entries see [no_difference]. *)
Definition py_set (values : list cell) : gset cell := list_to_set values.

(** A column that holds a text is an object column; one that holds none is
    a numeric column. *)
Definition holds_text (values : list cell) : bool :=
  existsb (fun v => match v with Str _ => true | _ => false end) values.

(** [len(set(a).difference(set(b))) == 0].  A set finds an element again
    when it is the same object or an equal one, and [nan] equals nothing.
    The missing entries of an object column are one and the same [nan]
    object, found again by identity; those of a numeric column are read out
    as a new object each, which no set holds, so a numeric column with a
    missing entry always leaves a difference. *)
Definition no_difference (a b : list cell) : bool :=
  bool_decide (size (py_set a ∖ py_set b) = 0)
  && (holds_text a || bool_decide (NaN ∉ a)).

(** [series.fillna(v)] *)
Definition fillna (v : cell) (values : list cell) : list cell :=
  (fun c => match c with NaN => v | _ => c end) <$> values.

(** One element of [series.str.split(sep)].  The frame built from the
    pieces needs a list for every row: a missing entry has none (the script
    fills them first for that reason), and a number has no [str] methods. *)
Definition str_split (sep : ascii) (c : cell) : result (list string) :=
  match c with
  | Str s => Ok (split sep s)
  | NaN => Raise TypeError
  | Int _ => Raise AttributeError
  end.

(** ** Merges *)

(** A label shared by both sides (join key apart) gets the side's suffix. *)
Definition add_suffix (suffix : string) (other : list string) (c : string) : string :=
  if decide (c ∈ other) then c +:+ suffix else c.

Definition merged_columns (lcols rcols : list string) : list string :=
  (add_suffix "_x" rcols <$> lcols) ++ (add_suffix "_y" lcols <$> rcols).

(** [left.merge(right, on=key, how="inner")]: for each left row, in order,
    one output row per right row with the same key; the key column is kept
    once, where the left frame has it.  Missing keys match each other. *)
Definition merge_inner (key : string) (left right : DataFrame) : result DataFrame :=
  lk ← lift KeyError (index_of key (columns left));
  rk ← lift KeyError (index_of key (columns right));
  Ok (mkFrame
        (merged_columns (columns left) (delete rk (columns right)))
        (data left ≫= fun l =>
           (fun r => l ++ delete rk r)
             <$> filter (fun r => key_at rk r = key_at lk l) (data right))).

(** [left.merge(right, on=key, how="left")]: as the inner merge, and a left
    row without a match is kept once, padded with missing values. *)
Definition merge_left (key : string) (left right : DataFrame) : result DataFrame :=
  lk ← lift KeyError (index_of key (columns left));
  rk ← lift KeyError (index_of key (columns right));
  let rcols := delete rk (columns right) in
  Ok (mkFrame
        (merged_columns (columns left) rcols)
        (data left ≫= fun l =>
           match filter (fun r => key_at rk r = key_at lk l) (data right) with
           | [] => [l ++ replicate (length rcols) NaN]
           | matches => (fun r => l ++ delete rk r) <$> matches
           end)).

(** [left.merge(right, left_index=True, right_on=key, how="left")]: the row
    label of the left frame is matched against column [key] of the right
    frame, and every column of the right frame is appended.  The result
    carries the join key under the label [key]: in the key column of the
    right frame when that column keeps its label, and in a new first column
    when the left frame has a column [key] of its own, so that both got a
    suffix. *)
Definition merge_left_index (key : string) (left right : DataFrame) : result DataFrame :=
  rk ← lift KeyError (index_of key (columns right));
  let clash := bool_decide (key ∈ columns left) in
  Ok (mkFrame
        ((if clash then [key] else []) ++ merged_columns (columns left) (columns right))
        (mjoin
           (imap
              (fun i l =>
                 let front := if clash then [Int (Z.of_nat i)] else [] in
                 match filter (fun r => key_at rk r = Int (Z.of_nat i)) (data right) with
                 | [] =>
                     let padding := replicate (length (columns right)) NaN in
                     [front ++ l ++ (if clash then padding
                                     else <[rk := Int (Z.of_nat i)]> padding)]
                 | matches => (fun r => front ++ l ++ r) <$> matches
                 end)
              (data left)))).

(** ** The script *)

Definition output_file : string := "repurposing_info".
Definition split_col_index : string := output_file +:+ "_index".
Definition placeholder : string := "replace_with_na".

(** Lines 60-62: the two assertions on the compound names. *)
Definition check_pert_iname (drug_df sample_df : DataFrame) : result unit :=
  d ← lift AttributeError (get_column "pert_iname" drug_df);
  s ← lift AttributeError (get_column "pert_iname" sample_df);
  py_assert (no_difference d s);;
  s' ← lift AttributeError (get_column "pert_iname" sample_df);
  d' ← lift AttributeError (get_column "pert_iname" drug_df);
  py_assert (no_difference s' d').

(** Lines 70-72: [combined_df] as first assigned. *)
Definition joined_df (drug_df sample_df : DataFrame) : result DataFrame :=
  merge_inner "pert_iname" drug_df sample_df.

(** Lines 75-76: [col_order] with [broad_id] popped and put in front. *)
Definition col_order (cols : list string) : result (list string) :=
  i ← lift ValueError (index_of "broad_id" cols);
  '(label, rest) ← lift IndexError (pop i cols);
  Ok (label :: rest).

(** [str(x)] of what the first lambda of line 79 returns: a string, or
    [None] when the conversion gives no key. *)
Definition py_str (x : option string) : string :=
  match x with
  | Some s => s
  | None => "None"
  end.

Section Conversion.

(** [rdkit.Chem.inchi.InchiToInchiKey]: the key of an InChI string, [None] on
    error. *)
Variable InchiToInchiKey : string -> option string.

(** Line 79: [lambda x: inchi.InchiToInchiKey(x) if x.startswith("InChI") else x] *)
Definition to_inchikey (x : cell) : result (option string) :=
  match x with
  | Str s => if startswith "InChI" s then Ok (InchiToInchiKey s) else Ok (Some s)
  | _ => Raise AttributeError
  end.

(** Line 80: [lambda x: str(x)[:14]] *)
Definition first14 (x : option string) : cell := Str (take_prefix 14 (py_str x)).

(** The string the new column is cut from: the converted key of an InChI
    string, the text of the cell itself otherwise. *)
Definition source_string (s : string) : string :=
  if startswith "InChI" s then py_str (InchiToInchiKey s) else s.

(** Lines 78-80: the values of the new column. *)
Definition InChIKey14 (x : cell) : result cell :=
  key ← to_inchikey x;
  Ok (first14 key).

(** Lines 75-81: [combined_df] as written to [repurposing_info.tsv]. *)
Definition reorder_and_assign (joined : DataFrame) : result DataFrame :=
  order ← col_order (columns joined);
  ordered ← loc_columns order joined;
  keys ← lift AttributeError (get_column "InChIKey" joined);
  keys14 ← mapM InChIKey14 keys;
  Ok (assign "InChIKey14" keys14 ordered).

Definition combined_df (drug_df sample_df : DataFrame) : result DataFrame :=
  check_pert_iname drug_df sample_df;;
  joined ← joined_df drug_df sample_df;
  reorder_and_assign joined.

End Conversion.

(** Lines 104-105, one column: [df.c = df.c.fillna("replace_with_na")] *)
Definition fill_missing (c : string) (df : DataFrame) : result DataFrame :=
  values ← lift AttributeError (get_column c df);
  lift AttributeError (set_column c (fillna (Str placeholder) values) df).

Definition filled_df (combined : DataFrame) : result DataFrame :=
  df ← fill_missing "moa" combined;
  fill_missing "target" df.

(** Lines 118-123 and 132-138: the pieces of column [c], one row each, with
    the label of the row they come from and their rank in it. *)
Definition stacked (pieces : list (list string)) : list (list cell) :=
  mjoin (imap (fun i row =>
                  imap (fun j v => [Int (Z.of_nat i); Int (Z.of_nat j); Str v]) row)
               pieces).

Definition split_df (c value_name : string) (filled : DataFrame) : result DataFrame :=
  values ← lift AttributeError (get_column c filled);
  pieces ← mapM (str_split "|") values;
  Ok (mkFrame [split_col_index; "_"; value_name] (stacked pieces)).

Definition moa_split_df : DataFrame -> result DataFrame := split_df "moa" "moa_unique".
Definition target_split_df : DataFrame -> result DataFrame := split_df "target" "target_unique".

(** Lines 147-160: [long_combined_df] as first assigned. *)
Definition long_merged_df (filled : DataFrame) : result DataFrame :=
  moa_split ← moa_split_df filled;
  target_split ← target_split_df filled;
  moa_pairs ← loc_columns [split_col_index; "moa_unique"] moa_split;
  with_moa ← merge_left_index split_col_index filled moa_pairs;
  target_pairs ← loc_columns [split_col_index; "target_unique"] target_split;
  merge_left split_col_index with_moa target_pairs.

(** Lines 163-170, one column: [df.loc[df.c == "replace_with_na", c] = np.nan] *)
Definition restore_cell (v : cell) : cell :=
  if decide (v = Str placeholder) then NaN else v.

Definition restore_missing (c : string) (df : DataFrame) : result DataFrame :=
  values ← lift AttributeError (get_column c df);
  lift KeyError (set_column c (restore_cell <$> values) df).

Definition restored_df (long : DataFrame) : result DataFrame :=
  df1 ← restore_missing "moa" long;
  df2 ← restore_missing "moa_unique" df1;
  df3 ← restore_missing "target" df2;
  restore_missing "target_unique" df3.

(** Lines 104-170: [long_combined_df] as written to
    [repurposing_info_long.tsv]. *)
Definition long_combined_df (combined : DataFrame) : result DataFrame :=
  filled ← filled_df combined;
  long ← long_merged_df filled;
  restored_df long.

(** The whole run: the files written so far, and how the run ended. *)
Definition script (InchiToInchiKey : string -> option string)
    (drug_df sample_df : DataFrame) : list (string * DataFrame) * result unit :=
  match combined_df InchiToInchiKey drug_df sample_df with
  | Raise e => ([], Raise e)
  | Ok combined =>
      let files := [(output_file +:+ ".tsv", combined)] in
      match long_combined_df combined with
      | Raise e => (files, Raise e)
      | Ok long => (files ++ [("repurposing_info_long.tsv", long)], Ok tt)
      end
  end.

(** The cell of [row] under label [c] of frame [df], as [get_column] reads
    it. *)
Definition field (df : DataFrame) (c : string) (row : list cell) : cell :=
  match index_of c (columns df) with
  | Some p => key_at p row
  | None => NaN
  end.

(** [row] without its cell under label [c]. *)
Definition without (df : DataFrame) (c : string) (row : list cell) : list cell :=
  match index_of c (columns df) with
  | Some p => delete p row
  | None => row
  end.

(** ** The long table, row by row *)

(** What [fillna("replace_with_na")] makes of a cell. *)
Definition fill_cell (v : cell) : cell :=
  match v with
  | NaN => Str placeholder
  | _ => v
  end.

(** The pieces of a text cell. *)
Definition pieces_of (v : cell) : list string :=
  match v with
  | Str s => split "|" s
  | _ => []
  end.

(** The rows that one row of the combined table, with label [i], gives in
    the long table: one for each piece of [moa] and each piece of
    [target]. *)
Definition exploded (i : nat) (row : list cell) (moas targets : list string)
    : list (list cell) :=
  m ← moas; t ← targets; [row ++ [Int (Z.of_nat i); Str m; Str t]].

(** The two columns of a split frame that the merges read: the label of
    the row a piece comes from, and the piece. *)
Definition tagged (pieces : list (list string)) : list (list cell) :=
  mjoin (imap (fun i row => (fun v => [Int (Z.of_nat i); Str v]) <$> row) pieces).

(** Rewriting the cell at position [p] of a row, as the assignments to one
    column do row by row. *)
Definition update_at (p : nat) (f : cell -> cell) (row : list cell) : list cell :=
  <[p := f (key_at p row)]> row.

(** The rows of the written long table that come from row [i] of the
    combined table, whose [moa] and [target] cells are at positions [pm]
    and [pt]. *)
Definition long_rows (pm pt : nat) (i : nat) (row : list cell) : list (list cell) :=
  m ← pieces_of (fill_cell (key_at pm row));
  t ← pieces_of (fill_cell (key_at pt row));
  [update_at pt restore_cell (update_at pm restore_cell row)
     ++ [Int (Z.of_nat i); restore_cell (Str m); restore_cell (Str t)]].

(** What the first merge of lines 147-153 makes of the labels of the
    combined table.  A table without a column [repurposing_info_index]
    keeps its labels, and the key column of the split frame keeps its own.
    A table with such a column gets the key in a new first column, its own
    column is renamed with the suffix [_x] and the key column of the split
    frame with [_y]. *)
Definition key_labels (cols : list string) : list string :=
  if bool_decide (split_col_index ∈ cols) then [split_col_index] else [].

Definition key_cells (cols : list string) (i : nat) : list cell :=
  if bool_decide (split_col_index ∈ cols) then [Int (Z.of_nat i)] else [].

Definition renamed (cols : list string) : list string :=
  (fun c => if decide (c = split_col_index) then c +:+ "_x" else c) <$> cols.

Definition key_tag (cols : list string) : string :=
  if bool_decide (split_col_index ∈ cols) then split_col_index +:+ "_y"
  else split_col_index.

(** The labels of the long table made from a combined table with labels
    [cols]. *)
Definition long_labels (cols : list string) : list string :=
  key_labels cols ++ renamed cols ++ [key_tag cols; "moa_unique"; "target_unique"].

(** A cell of a text column: a string or a missing entry. *)
Definition text_or_missing (v : cell) : Prop :=
  match v with
  | Int _ => False
  | _ => True
  end.


(** The frame of a step that did not raise. *)
Definition frame_of (r : result DataFrame) : DataFrame :=
  match r with
  | Ok df => df
  | Raise _ => mkFrame [] []
  end.

(** ** Counting and joining pieces *)

(** [s.count(sep)] for a one-character [sep]. *)
Fixpoint count_sep (sep : ascii) (s : string) : nat :=
  match s with
  | EmptyString => 0
  | String c rest => (if decide (c = sep) then 1 else 0) + count_sep sep rest
  end.

(** [sep.join(pieces)] for a one-character [sep]. *)
Fixpoint join (sep : ascii) (pieces : list string) : string :=
  match pieces with
  | [] => EmptyString
  | piece :: rest =>
      match rest with
      | [] => piece
      | _ => piece +:+ String sep (join sep rest)
      end
  end.

(** [pieces] is [s] cut at every [sep] and nowhere else: there is at least
    one piece, no piece holds a [sep], and the pieces joined with [sep] give
    [s] back.  This says what the pieces of [s] are without saying how they
    are computed. *)
Definition cut_at (sep : ascii) (s : string) (pieces : list string) : Prop :=
  pieces <> [] /\
  Forall (fun piece => count_sep sep piece = 0) pieces /\
  join sep pieces = s.

#[global] Instance cut_at_dec (sep : ascii) (s : string) (pieces : list string) :
  Decision (cut_at sep s pieces).
Proof. unfold cut_at. apply _. Defined.

(** The number of long rows a cell stands for: one per piece of a text, one
    for a missing entry. *)
Definition n_pieces (v : cell) : nat :=
  match v with
  | Str s => S (count_sep "|" s)
  | _ => 1
  end.

(** ** Tables the script is meant for *)

(** The labels the script adds to its tables. *)
Definition added_labels : list string :=
  [split_col_index; "moa_unique"; "target_unique"; "InChIKey14"].

(** A drug table and a sample table as the CLUE files give them: distinct
    labels, [pert_iname] the only shared one, the columns the script reads
    in place and of the kind it expects, none of the labels it adds, at
    least one compound, and a name in every row. *)
Definition clue_tables (drug_df sample_df : DataFrame) : Prop :=
  NoDup (columns drug_df) /\ NoDup (columns sample_df) /\
  rectangular drug_df /\
  (forall c, c ∈ columns drug_df -> c ∈ columns sample_df -> c = "pert_iname") /\
  "moa" ∈ columns drug_df /\ "target" ∈ columns drug_df /\
  "broad_id" ∈ columns sample_df /\ "InChIKey" ∈ columns sample_df /\
  (forall c, c ∈ added_labels -> (c ∉ columns drug_df) /\ (c ∉ columns sample_df)) /\
  Forall (fun s => exists t, field sample_df "InChIKey" s = Str t) (data sample_df) /\
  Forall (fun d => text_or_missing (field drug_df "moa" d) /\
                   text_or_missing (field drug_df "target" d)) (data drug_df) /\
  data drug_df <> [] /\
  Forall (fun d => exists t, field drug_df "pert_iname" d = Str t) (data drug_df) /\
  Forall (fun s => exists t, field sample_df "pert_iname" s = Str t) (data sample_df).

(** ** A small instance

    Four compounds of the drug table and five samples of them, cut down to
    the columns the script reads.  Abacavir has no target on record, and
    one aspirin sample carries an InChI string where the others carry the
    key. *)
Module Sample.

Definition drug_df : DataFrame :=
  mkFrame ["pert_iname"; "clinical_phase"; "moa"; "target"]
    [ [Str "abacavir"; Str "Launched";
       Str "nucleoside reverse transcriptase inhibitor"; NaN];
      [Str "aspirin"; Str "Launched";
       Str "cyclooxygenase inhibitor"; Str "PTGS1|PTGS2"];
      [Str "dasatinib"; Str "Launched";
       Str "Bcr-Abl kinase inhibitor|ephrin inhibitor|KIT inhibitor";
       Str "ABL1|SRC"];
      [Str "xenon"; Str "Launched"; NaN; NaN] ].

Definition sample_df : DataFrame :=
  mkFrame ["broad_id"; "pert_iname"; "InChIKey"]
    [ [Str "BRD-K17443395-001-03-7"; Str "abacavir";
       Str "MCGSCOLBFJQGHM-SCZZXKLOSA-N"];
      [Str "BRD-K11433652-001-17-0"; Str "aspirin";
       Str "BSYNRYMUTXBXSQ-UHFFFAOYSA-N"];
      [Str "BRD-K11433652-001-18-8"; Str "aspirin";
       Str "InChI=1S/C9H8O4/c1-6(10)13-8-5-3-2-4-7(8)9(11)12/h2-5H,1H3,(H,11,12)"];
      [Str "BRD-K49328571-001-15-1"; Str "dasatinib";
       Str "ZBNZXTGUTAYRHI-UHFFFAOYSA-N"];
      [Str "BRD-K47635719-001-01-3"; Str "xenon";
       Str "FHNFHKCVQCLJFQ"] ].

(** The conversion on the one InChI string of the instance. *)
Definition InchiToInchiKey (s : string) : option string :=
  if decide (s = "InChI=1S/C9H8O4/c1-6(10)13-8-5-3-2-4-7(8)9(11)12/h2-5H,1H3,(H,11,12)")
  then Some "BSYNRYMUTXBXSQ-UHFFFAOYSA-N"
  else None.

Definition joined : DataFrame :=
  Eval vm_compute in frame_of (joined_df drug_df sample_df).

Definition combined : DataFrame :=
  Eval vm_compute in frame_of (combined_df InchiToInchiKey drug_df sample_df).

Definition filled : DataFrame :=
  Eval vm_compute in frame_of (filled_df combined).

Definition moa_split : DataFrame :=
  Eval vm_compute in frame_of (moa_split_df filled).

Definition target_split : DataFrame :=
  Eval vm_compute in frame_of (target_split_df filled).

Definition long : DataFrame :=
  Eval vm_compute in frame_of (long_combined_df combined).

End Sample.

(** ** An instance with the placeholder as data

    One compound whose mechanism of action is recorded as the very text
    the script uses for a missing value. *)
Module Collision.

Definition clash_drug_df : DataFrame :=
  mkFrame ["pert_iname"; "clinical_phase"; "moa"; "target"]
    [ [Str "BRD-A00000001"; Str "Preclinical"; Str "replace_with_na"; Str "EGFR|ERBB2"] ].

Definition clash_sample_df : DataFrame :=
  mkFrame ["broad_id"; "pert_iname"; "InChIKey"]
    [ [Str "BRD-A00000001-001-01-1"; Str "BRD-A00000001";
       Str "XLYOFNOQVPJJNP-UHFFFAOYSA-N"] ].

Definition clash_combined : DataFrame :=
  Eval vm_compute in
    frame_of (combined_df Sample.InchiToInchiKey clash_drug_df clash_sample_df).

Definition clash_filled : DataFrame :=
  Eval vm_compute in frame_of (filled_df clash_combined).

Definition clash_long_merged : DataFrame :=
  Eval vm_compute in frame_of (long_merged_df clash_filled).

Definition clash_long : DataFrame :=
  Eval vm_compute in frame_of (long_combined_df clash_combined).

End Collision.

(** ** An instance with a shared label

    Both tables carry a [broad_id] column. *)
Module Overlap.

Definition both_drug_df : DataFrame :=
  mkFrame ["pert_iname"; "broad_id"; "moa"; "target"]
    [ [Str "aspirin"; Str "BRD-K11433652"; Str "cyclooxygenase inhibitor";
       Str "PTGS1|PTGS2"] ].

Definition both_sample_df : DataFrame :=
  mkFrame ["broad_id"; "pert_iname"; "InChIKey"]
    [ [Str "BRD-K11433652-001-17-0"; Str "aspirin";
       Str "BSYNRYMUTXBXSQ-UHFFFAOYSA-N"] ].

Definition both_joined : DataFrame :=
  Eval vm_compute in frame_of (joined_df both_drug_df both_sample_df).

End Overlap.

(** ** A drug table without annotations

    The drug table cut down to the name and the clinical phase: neither
    [moa] nor [target]. *)
Module Bare.

Definition bare_drug_df : DataFrame :=
  mkFrame ["pert_iname"; "clinical_phase"] [ [Str "aspirin"; Str "Launched"] ].

Definition bare_sample_df : DataFrame :=
  mkFrame ["broad_id"; "pert_iname"; "InChIKey"]
    [ [Str "BRD-K11433652-001-17-0"; Str "aspirin";
       Str "BSYNRYMUTXBXSQ-UHFFFAOYSA-N"] ].

Definition bare_combined : DataFrame :=
  Eval vm_compute in
    frame_of (combined_df (fun _ => None) bare_drug_df bare_sample_df).

End Bare.

(** ** A table with a key column of its own

    A combined table that already has a column [repurposing_info_index],
    here holding a batch number. *)
Module Keyed.

Definition keyed_combined : DataFrame :=
  mkFrame ["broad_id"; "pert_iname"; "repurposing_info_index"; "moa"; "target";
           "InChIKey"; "InChIKey14"]
    [ [Str "BRD-K11433652-001-17-0"; Str "aspirin"; Str "batch-7";
       Str "cyclooxygenase inhibitor"; Str "PTGS1|PTGS2";
       Str "BSYNRYMUTXBXSQ-UHFFFAOYSA-N"; Str "BSYNRYMUTXBXSQ"];
      [Str "BRD-K76022557-001-02-3"; Str "abacavir"; Str "batch-9";
       Str "nucleoside reverse transcriptase inhibitor"; NaN;
       Str "MCGSCOLBFJQGHM-SCZZXKLOSA-N"; Str "MCGSCOLBFJQGHM"] ].

Definition keyed_long : DataFrame :=
  Eval vm_compute in frame_of (long_combined_df keyed_combined).

End Keyed.

(** ** Tables without names

    A drug table and a sample table of one compound each whose name is
    missing: the name columns hold no text, and the same (missing) entry on
    both sides. *)
Module Nameless.

Definition nameless_drug_df : DataFrame :=
  mkFrame ["pert_iname"; "clinical_phase"; "moa"; "target"]
    [ [NaN; Str "Launched"; Str "cyclooxygenase inhibitor"; Str "PTGS1|PTGS2"] ].

Definition nameless_sample_df : DataFrame :=
  mkFrame ["broad_id"; "pert_iname"; "InChIKey"]
    [ [Str "BRD-K11433652-001-17-0"; NaN; Str "BSYNRYMUTXBXSQ-UHFFFAOYSA-N"] ].

End Nameless.

(** * Properties *)

(** ** The [result] monad *)

Lemma bind_Ok {A B : Type} (m : result A) (k : A -> result B) (b : B) :
  m ≫= k = Ok b <-> exists a, m = Ok a /\ k a = Ok b.
Proof.
  destruct m as [a|e]; simpl; split.
  - intros H. exists a. auto.
  - intros (a' & Ha & Hk). inversion Ha. subst. exact Hk.
  - discriminate.
  - intros (a' & Ha & _). discriminate.
Qed.

Lemma bind_Raise {A B : Type} (m : result A) (k : A -> result B) (e : exn) :
  m ≫= k = Raise e <-> m = Raise e \/ exists a, m = Ok a /\ k a = Raise e.
Proof.
  destruct m as [a|e']; simpl; split.
  - intros H. right. exists a. auto.
  - intros [H | (a' & Ha & Hk)]; [discriminate |]. inversion Ha. subst. exact Hk.
  - intros H. left. congruence.
  - intros [H | (a' & Ha & _)]; [congruence | discriminate].
Qed.

Lemma lift_Ok {A : Type} (e : exn) (o : option A) (a : A) :
  lift e o = Ok a <-> o = Some a.
Proof. destruct o; simpl; split; congruence. Qed.


(** Peel the binds of a successful run, one step at a time. *)
Ltac ok_step H :=
  let a := fresh "a" in
  let Ha := fresh "Ha" in
  apply bind_Ok in H; destruct H as (a & Ha & H);
  try (apply lift_Ok in Ha).

Lemma mapM_Ok {A B : Type} (f : A -> result B) (l : list A) (k : list B) :
  mapM f l = Ok k <-> Forall2 (fun x y => f x = Ok y) l k.
Proof.
  revert k. induction l as [|x l IH]; intros k; simpl.
  - split.
    + intros H. inversion H. constructor.
    + intros H. inversion H. reflexivity.
  - split.
    + intros H. ok_step H. ok_step H. inversion H; subst.
      constructor; [assumption | apply IH; assumption].
    + intros H. inversion H as [|? y ? k' Hx Hl]; subst.
      apply bind_Ok. exists y. split; [assumption |].
      apply bind_Ok. exists k'. split; [apply IH; assumption | reflexivity].
Qed.

Lemma mapM_Raise {A B : Type} (f : A -> result B) (l : list A) (e : exn) :
  mapM f l = Raise e -> exists x, x ∈ l /\ f x = Raise e.
Proof.
  induction l as [|x l IH]; simpl; [discriminate |].
  intros H. apply bind_Raise in H. destruct H as [H | (y & Hy & H)].
  - exists x. split; [left | assumption].
  - apply bind_Raise in H. destruct H as [H | (k & Hk & H)]; [| discriminate].
    destruct (IH H) as (x' & Hin & Hx'). exists x'. split; [right; assumption | assumption].
Qed.

(** ** Positions of labels *)

Lemma index_of_Some (x : string) (l : list string) (i : nat) :
  index_of x l = Some i -> l !! i = Some x.
Proof.
  revert i. induction l as [|y l IH]; intros i; simpl; [discriminate |].
  destruct (decide (x = y)) as [->|Hne].
  - intros [= <-]. reflexivity.
  - destruct (index_of x l) as [j|]; simpl; [| discriminate].
    intros [= <-]. simpl. apply IH. reflexivity.
Qed.

Lemma index_of_None (x : string) (l : list string) :
  index_of x l = None <-> x ∉ l.
Proof.
  induction l as [|y l IH]; simpl.
  - split; [intros _; apply not_elem_of_nil | reflexivity].
  - destruct (decide (x = y)) as [->|Hne].
    + split; [discriminate | intros H; exfalso; apply H; left].
    + rewrite not_elem_of_cons. destruct (index_of x l); simpl.
      * split; [discriminate |]. intros [_ H]. apply IH in H. discriminate.
      * split; [| reflexivity]. intros _. split; [assumption | apply IH; reflexivity].
Qed.

Lemma index_of_elem (x : string) (l : list string) :
  x ∈ l -> exists i, index_of x l = Some i.
Proof.
  intros Hin. destruct (index_of x l) as [i|] eqn:E; [eauto |].
  apply index_of_None in E. contradiction.
Qed.

Lemma index_of_lt (x : string) (l : list string) (i : nat) :
  index_of x l = Some i -> i < length l.
Proof. intros H. apply index_of_Some in H. eapply lookup_lt_Some; eassumption. Qed.

Lemma index_of_app_l (x : string) (l k : list string) (i : nat) :
  index_of x l = Some i -> index_of x (l ++ k) = Some i.
Proof.
  revert i. induction l as [|y l IH]; intros i; simpl; [discriminate |].
  destruct (decide (x = y)); [auto |].
  destruct (index_of x l) as [j|]; simpl; [| discriminate].
  intros [= <-]. rewrite (IH j eq_refl). reflexivity.
Qed.

Lemma index_of_app_r (x : string) (l k : list string) :
  x ∉ l -> index_of x (l ++ k) = (fun i => length l + i) <$> index_of x k.
Proof.
  induction l as [|y l IH]; simpl; intros Hnot.
  - destruct (index_of x k); reflexivity.
  - apply not_elem_of_cons in Hnot. destruct Hnot as [Hne Hnot].
    destruct (decide (x = y)); [contradiction |].
    rewrite (IH Hnot). destruct (index_of x k); reflexivity.
Qed.

(** ** The assertions of lines 60-62 *)

Lemma difference_empty (d s : list cell) :
  size (py_set d ∖ py_set s) = 0 <-> forall v, v ∈ d -> v ∈ s.
Proof.
  unfold py_set. rewrite size_empty_iff, elem_of_equiv_empty. split.
  - intros H v Hv. destruct (decide (v ∈ s)) as [|Hn]; [assumption |].
    exfalso. apply (H v). rewrite elem_of_difference, !elem_of_list_to_set. auto.
  - intros H v. rewrite elem_of_difference, !elem_of_list_to_set.
    intros [Hd Hs]. auto.
Qed.


Lemma no_difference_subset (a b : list cell) :
  no_difference a b = true -> forall v, v ∈ a -> v ∈ b.
Proof.
  unfold no_difference. intros H. apply andb_true_iff in H. destruct H as [H _].
  apply bool_decide_eq_true in H. apply difference_empty. exact H.
Qed.


Lemma check_pert_iname_Ok (drug_df sample_df : DataFrame) :
  check_pert_iname drug_df sample_df = Ok tt ->
  exists d s,
    get_column "pert_iname" drug_df = Some d /\
    get_column "pert_iname" sample_df = Some s /\
    forall v, v ∈ d <-> v ∈ s.
Proof.
  unfold check_pert_iname.
  destruct (get_column "pert_iname" drug_df) as [d|]; simpl; [| discriminate].
  destruct (get_column "pert_iname" sample_df) as [s|]; simpl; [| discriminate].
  intros H. exists d, s. split; [reflexivity |]. split; [reflexivity |].
  destruct (no_difference d s) eqn:E1; simpl in H; [| discriminate].
  destruct (no_difference s d) eqn:E2; simpl in H; [| discriminate].
  intros v. split; [apply (no_difference_subset _ _ E1) | apply (no_difference_subset _ _ E2)].
Qed.












(** ** The inner join of lines 70-72 *)

Lemma merge_inner_rows (key : string) (left right joined : DataFrame) :
  merge_inner key left right = Ok joined ->
  forall out,
    out ∈ data joined <->
    exists l r,
      l ∈ data left /\ r ∈ data right /\
      field left key l = field right key r /\
      out = l ++ without right key r.
Proof.
  unfold merge_inner, field, without. intros H out.
  ok_step H. ok_step H. rename a into lk, a0 into rk.
  rewrite Ha, Ha0. inversion H; subst; clear H. simpl.
  rewrite list_elem_of_bind. split.
  - intros (l & Hout & Hl). apply list_elem_of_fmap in Hout.
    destruct Hout as (r & -> & Hr). apply list_elem_of_filter in Hr.
    destruct Hr as [Hkey Hr]. exists l, r. auto.
  - intros (l & r & Hl & Hr & Hkey & ->). exists l. split; [| assumption].
    apply list_elem_of_fmap. exists r. split; [reflexivity |].
    apply list_elem_of_filter. auto.
Qed.

Lemma get_column_elem (c : string) (df : DataFrame) (values : list cell) (v : cell) :
  get_column c df = Some values ->
  (v ∈ values <-> exists row, row ∈ data df /\ field df c row = v).
Proof.
  unfold get_column, field. destruct (index_of c (columns df)) as [p|]; simpl;
    [| discriminate].
  intros [= <-]. rewrite list_elem_of_fmap. split.
  - intros (row & -> & Hrow). eauto.
  - intros (row & Hrow & <-). eauto.
Qed.

(** C1. The first [combined_df] is the inner join of the two tables on
    [pert_iname]: its rows are exactly the pairs of a drug row and a sample
    row with the same name (the sample row without its own name cell), and
    once the assertions have passed every drug row and every sample row is
    part of at least one of them. *)
Theorem joined_is_inner_join (drug_df sample_df joined : DataFrame) :
  joined_df drug_df sample_df = Ok joined ->
  (forall out,
     out ∈ data joined <->
     exists d s,
       d ∈ data drug_df /\ s ∈ data sample_df /\
       field drug_df "pert_iname" d = field sample_df "pert_iname" s /\
       out = d ++ without sample_df "pert_iname" s) /\
  (check_pert_iname drug_df sample_df = Ok tt ->
   (forall d, d ∈ data drug_df ->
      exists s, s ∈ data sample_df /\
        field drug_df "pert_iname" d = field sample_df "pert_iname" s /\
        d ++ without sample_df "pert_iname" s ∈ data joined) /\
   (forall s, s ∈ data sample_df ->
      exists d, d ∈ data drug_df /\
        field drug_df "pert_iname" d = field sample_df "pert_iname" s /\
        d ++ without sample_df "pert_iname" s ∈ data joined)).
Proof.
  intros Hj. pose proof (merge_inner_rows _ _ _ _ Hj) as Hrows.
  split; [exact Hrows |].
  intros Hc. apply check_pert_iname_Ok in Hc.
  destruct Hc as (dn & sn & Hd & Hs & Hsame). split.
  - intros d Hin.
    assert (Hv : field drug_df "pert_iname" d ∈ sn).
    { apply Hsame. apply (get_column_elem _ _ _ _ Hd). eauto. }
    apply (get_column_elem _ _ _ _ Hs) in Hv. destruct Hv as (s & Hsin & Heq).
    exists s. split; [assumption |]. split; [congruence |].
    apply Hrows. exists d, s. auto.
  - intros s Hin.
    assert (Hv : field sample_df "pert_iname" s ∈ dn).
    { apply Hsame. apply (get_column_elem _ _ _ _ Hs). eauto. }
    apply (get_column_elem _ _ _ _ Hd) in Hv. destruct Hv as (d & Hdin & Heq).
    exists d. split; [assumption |]. split; [congruence |].
    apply Hrows. exists d, s. auto.
Qed.

(** ** Strings *)

Lemma length_take_prefix (n : nat) (s : string) :
  String.length (take_prefix n s) = n `min` String.length s.
Proof.
  unfold take_prefix. revert n. induction s as [|c s IH]; intros [|n]; simpl;
    try reflexivity.
  rewrite IH. reflexivity.
Qed.

Lemma take_prefix_min (n : nat) (s : string) :
  take_prefix (n `min` String.length s) s = take_prefix n s.
Proof.
  unfold take_prefix. revert n. induction s as [|c s IH]; intros [|n]; simpl;
    try reflexivity.
  rewrite IH. reflexivity.
Qed.

Lemma take_prefix_all (n : nat) (s : string) :
  take_prefix n s = s <-> String.length s <= n.
Proof.
  unfold take_prefix. revert n. induction s as [|c s IH]; intros [|n]; simpl.
  - split; [lia | reflexivity].
  - split; [lia | reflexivity].
  - split; [discriminate | lia].
  - split.
    + intros [= H]. apply IH in H. lia.
    + intros H. f_equal. apply IH. lia.
Qed.

Lemma take_prefix_is_prefix (n : nat) (s : string) :
  exists rest, s = take_prefix n s +:+ rest.
Proof.
  unfold take_prefix. revert n. induction s as [|c s IH]; intros [|n]; simpl.
  - exists "". reflexivity.
  - exists "". reflexivity.
  - exists (String c s). reflexivity.
  - destruct (IH n) as [rest Hrest]. exists rest.
    change (String c (String.substring 0 n s) +:+ rest)
      with (String c (String.substring 0 n s +:+ rest)).
    rewrite <- Hrest. reflexivity.
Qed.

Lemma length_append (s t : string) :
  String.length (s +:+ t) = String.length s + String.length t.
Proof. induction s as [|c s IH]; simpl; [reflexivity | rewrite IH; reflexivity]. Qed.

Lemma append_neq (s t : string) : t <> "" -> s +:+ t <> s.
Proof.
  intros Ht H. apply (f_equal String.length) in H. rewrite length_append in H.
  destruct t; [contradiction | simpl in H; lia].
Qed.

(** ** Reading and writing columns *)

Lemma length_get_column (c : string) (df : DataFrame) (values : list cell) :
  get_column c df = Some values -> length values = length (data df).
Proof.
  unfold get_column. destruct (index_of c (columns df)); simpl; [| discriminate].
  intros [= <-]. apply length_fmap.
Qed.

Lemma key_at_insert (p : nat) (v : cell) (row : list cell) :
  p < length row -> key_at p (<[p := v]> row) = v.
Proof. intros H. unfold key_at. rewrite list_lookup_insert_eq; [reflexivity | assumption]. Qed.

Lemma key_at_insert_ne (p q : nat) (v : cell) (row : list cell) :
  p <> q -> key_at q (<[p := v]> row) = key_at q row.
Proof. intros H. unfold key_at. rewrite list_lookup_insert_ne; [reflexivity | assumption]. Qed.

Lemma fmap_zip_with_Forall_r {A B C : Type} (f : A -> B -> C) (g : C -> B)
    (l : list A) (k : list B) :
  length l = length k ->
  Forall (fun x => forall y, g (f x y) = y) l ->
  g <$> zip_with f l k = k.
Proof.
  revert k. induction l as [|x l IH]; intros [|y k]; simpl; try discriminate;
    [reflexivity |].
  intros [= Hlen] Hall. inversion Hall; subst. f_equal; [auto | apply IH; assumption].
Qed.

Lemma get_column_assign (c : string) (values : list cell) (df : DataFrame) :
  rectangular df -> length values = length (data df) ->
  get_column c (assign c values df) = Some values.
Proof.
  unfold rectangular, assign, get_column. intros Hrect Hlen.
  destruct (index_of c (columns df)) as [p|] eqn:Hp; simpl.
  - rewrite Hp. simpl. f_equal. apply fmap_zip_with_Forall_r; [congruence |].
    eapply Forall_impl; [exact Hrect |]. simpl. intros row Hrow v.
    apply key_at_insert. rewrite Hrow. eapply index_of_lt. exact Hp.
  - apply index_of_None in Hp. rewrite (index_of_app_r _ _ _ Hp). simpl.
    destruct (decide (c = c)); [| contradiction]. simpl. f_equal.
    apply fmap_zip_with_Forall_r; [congruence |].
    eapply Forall_impl; [exact Hrect |]. simpl. intros row Hrow v.
    unfold key_at. rewrite Nat.add_0_r, <- Hrow.
    rewrite lookup_app_r, Nat.sub_diag by lia. reflexivity.
Qed.

Lemma loc_columns_rectangular (labels : list string) (df out : DataFrame) :
  loc_columns labels df = Ok out -> rectangular out.
Proof.
  unfold loc_columns, rectangular. case_match; [| discriminate].
  intros [= <-]. simpl. apply Forall_fmap, Forall_forall. intros row _. simpl.
  rewrite length_fmap. clear. induction labels as [|c labels IH]; [reflexivity |].
  rewrite !bind_cons, !length_app, IH, length_fmap. reflexivity.
Qed.

Lemma loc_columns_length (labels : list string) (df out : DataFrame) :
  loc_columns labels df = Ok out -> length (data out) = length (data df).
Proof.
  unfold loc_columns. case_match; [| discriminate].
  intros [= <-]. simpl. apply length_fmap.
Qed.

(** ** The derived identifier of lines 77-81 *)

Lemma reorder_and_assign_keys conv (joined combined : DataFrame) :
  reorder_and_assign conv joined = Ok combined ->
  exists keys keys14,
    get_column "InChIKey" joined = Some keys /\
    get_column "InChIKey14" combined = Some keys14 /\
    length keys14 = length (data joined) /\
    Forall2 (fun x k => InChIKey14 conv x = Ok k) keys keys14.
Proof.
  unfold reorder_and_assign. intros H.
  ok_step H. ok_step H. ok_step H. ok_step H. inversion H; subst; clear H.
  rename a0 into ordered, a1 into keys, a2 into keys14.
  apply mapM_Ok in Ha2. exists keys, keys14.
  assert (Hlen : length keys14 = length (data joined)).
  { rewrite <- (Forall2_length _ _ _ Ha2). eapply length_get_column. eassumption. }
  split; [assumption |]. split; [| split; assumption].
  apply get_column_assign.
  - eapply loc_columns_rectangular. eassumption.
  - rewrite (loc_columns_length _ _ _ Ha0). assumption.
Qed.

Lemma InChIKey14_Ok conv (x k : cell) :
  InChIKey14 conv x = Ok k ->
  exists s, x = Str s /\ k = Str (take_prefix 14 (source_string conv s)).
Proof.
  unfold InChIKey14, to_inchikey, source_string, first14.
  destruct x as [|s|n]; simpl; try discriminate.
  intros H. exists s. split; [reflexivity |].
  destruct (startswith "InChI" s); simpl in H; inversion H; reflexivity.
Qed.

(** C10. In every row the value of [InChIKey14] has at most 14 characters
    and is the first [min 14 length] characters of the string it is cut
    from: that string is the value followed by some rest, and the value has
    [min 14 length] characters.  The string is the converted key when the
    [InChIKey] cell starts with "InChI", the text of the cell otherwise. *)
Theorem InChIKey14_is_prefix_of_source conv (joined combined : DataFrame) :
  reorder_and_assign conv joined = Ok combined ->
  exists keys keys14,
    get_column "InChIKey" joined = Some keys /\
    get_column "InChIKey14" combined = Some keys14 /\
    length keys14 = length (data joined) /\
    forall i x k,
      keys !! i = Some x -> keys14 !! i = Some k ->
      exists s key14 rest,
        x = Str s /\ k = Str key14 /\
        String.length key14 <= 14 /\
        source_string conv s = key14 +:+ rest /\
        String.length key14 = 14 `min` String.length (source_string conv s).
Proof.
  intros H. destruct (reorder_and_assign_keys _ _ _ H) as (keys & keys14 & Hk & Hk14 & Hlen & Hall).
  exists keys, keys14. repeat split; try assumption.
  intros i x k Hx Hkk.
  pose proof (Forall2_lookup_lr _ _ _ _ _ _ Hall Hx Hkk) as Hconv.
  apply InChIKey14_Ok in Hconv. destruct Hconv as (s & -> & ->).
  destruct (take_prefix_is_prefix 14 (source_string conv s)) as [rest Hrest].
  exists s, (take_prefix 14 (source_string conv s)), rest.
  split; [reflexivity |]. split; [reflexivity |]. split; [| split].
  - rewrite length_take_prefix. lia.
  - exact Hrest.
  - apply length_take_prefix.
Qed.

(** The [InChIKey] cell of the first aspirin sample is a key of 27
    characters, not an InChI string, and its [InChIKey14] is the first block
    of the key, not the cell itself. *)
Lemma InChIKey14_cuts_plain_keys :
  combined_df Sample.InchiToInchiKey Sample.drug_df Sample.sample_df = Ok Sample.combined /\
  field Sample.combined "InChIKey" <$> data Sample.combined !! 1
    = Some (Str "BSYNRYMUTXBXSQ-UHFFFAOYSA-N") /\
  startswith "InChI" "BSYNRYMUTXBXSQ-UHFFFAOYSA-N" = false /\
  field Sample.combined "InChIKey14" <$> data Sample.combined !! 1
    = Some (Str "BSYNRYMUTXBXSQ") /\
  Str "BSYNRYMUTXBXSQ" <> Str "BSYNRYMUTXBXSQ-UHFFFAOYSA-N".
Proof. repeat split; try (vm_compute; reflexivity). discriminate. Qed.

(** C3, as the script has it.  In every row [InChIKey14] is the first 14
    characters of the converted key when the [InChIKey] cell starts with
    "InChI" (exactly 14 characters whenever the conversion gives at least
    that many), and the first 14 characters of the cell otherwise, which
    is the cell itself only when the cell has at most 14 characters. *)
Theorem InChIKey14_converted_or_cut conv (joined combined : DataFrame) :
  reorder_and_assign conv joined = Ok combined ->
  exists keys keys14,
    get_column "InChIKey" joined = Some keys /\
    get_column "InChIKey14" combined = Some keys14 /\
    length keys14 = length (data joined) /\
    forall i x k,
      keys !! i = Some x -> keys14 !! i = Some k ->
      exists s,
        x = Str s /\
        (startswith "InChI" s = true ->
           k = Str (take_prefix 14 (py_str (conv s))) /\
           (14 <= String.length (py_str (conv s)) ->
              exists key14, k = Str key14 /\ String.length key14 = 14)) /\
        (startswith "InChI" s = false ->
           k = Str (take_prefix 14 s) /\
           (k = x <-> String.length s <= 14)).
Proof.
  intros H. destruct (reorder_and_assign_keys _ _ _ H) as (keys & keys14 & Hk & Hk14 & Hlen & Hall).
  exists keys, keys14. repeat split; try assumption.
  all: intros i x k Hx Hkk;
    pose proof (Forall2_lookup_lr _ _ _ _ _ _ Hall Hx Hkk) as Hconv;
    apply InChIKey14_Ok in Hconv; destruct Hconv as (s & -> & ->).
  exists s. split; [reflexivity |]. unfold source_string. split.
  - intros ->. split; [reflexivity |]. intros Hlong.
    eexists. split; [reflexivity |]. rewrite length_take_prefix. lia.
  - intros ->. split; [reflexivity |]. split.
    + intros [= Heq]. apply take_prefix_all. assumption.
    + intros Hshort. f_equal. apply take_prefix_all. assumption.
Qed.

(** ** Selecting columns by label *)

Lemma positions_absent (c : string) (cols : list string) :
  c ∉ cols -> positions c cols = [].
Proof.
  induction cols as [|y cols IH]; simpl; intros H; [reflexivity |].
  apply not_elem_of_cons in H. destruct H as [Hne H].
  destruct (decide (c = y)); [contradiction |]. rewrite (IH H). reflexivity.
Qed.

Lemma positions_NoDup (c : string) (cols : list string) (p : nat) :
  NoDup cols -> index_of c cols = Some p -> positions c cols = [p].
Proof.
  revert p. induction cols as [|y cols IH]; intros p Hnd; simpl; [discriminate |].
  apply NoDup_cons in Hnd. destruct Hnd as [Hy Hnd].
  destruct (decide (c = y)) as [->|Hne].
  - intros [= <-]. rewrite (positions_absent _ _ Hy). reflexivity.
  - destruct (index_of c cols) as [q|]; simpl; [| discriminate].
    intros [= <-]. rewrite (IH q Hnd eq_refl). reflexivity.
Qed.

Lemma loc_columns_NoDup (labels : list string) (df : DataFrame) :
  NoDup (columns df) -> labels ⊆ columns df ->
  loc_columns labels df
  = Ok (mkFrame labels ((fun row => (fun c => field df c row) <$> labels) <$> data df)).
Proof.
  intros Hnd Hsub. unfold loc_columns.
  assert (Hpos : forall c, c ∈ labels ->
            exists p, index_of c (columns df) = Some p /\ positions c (columns df) = [p]).
  { intros c Hc. destruct (index_of_elem c (columns df) (Hsub c Hc)) as [p Hp].
    exists p. split; [assumption | apply positions_NoDup; assumption]. }
  replace (forallb _ labels) with true.
  2:{ symmetry. apply forallb_forall. intros c Hc. apply list_elem_of_In in Hc.
      destruct (Hpos c Hc) as (p & _ & ->). reflexivity. }
  f_equal. f_equal.
  - clear Hsub. induction labels as [|c labels IH]; [reflexivity |].
    rewrite bind_cons. destruct (Hpos c) as (p & _ & ->); [left |]. simpl.
    f_equal. apply IH. intros c' Hc'. apply Hpos. right. assumption.
  - apply list_fmap_ext. intros _ row _. clear Hsub.
    induction labels as [|c labels IH]; [reflexivity |].
    rewrite bind_cons, fmap_app, fmap_cons.
    destruct (Hpos c) as (p & Hp & ->); [left |]. simpl.
    unfold field at 1. rewrite Hp. f_equal.
    apply IH. intros c' Hc'. apply Hpos. right. assumption.
Qed.

Lemma field_fmap_labels (labels : list string) (data' : list (list cell))
    (f : string -> cell) (c : string) :
  c ∈ labels -> field (mkFrame labels data') c (f <$> labels) = f c.
Proof.
  intros Hc. destruct (index_of_elem c labels Hc) as [q Hq].
  unfold field, key_at. simpl. rewrite Hq, list_lookup_fmap.
  rewrite (index_of_Some _ _ _ Hq). reflexivity.
Qed.

Lemma col_order_Ok (cols order : list string) :
  col_order cols = Ok order ->
  exists i, index_of "broad_id" cols = Some i /\ order = "broad_id" :: delete i cols.
Proof.
  unfold col_order, pop. intros H. ok_step H. rename a into i. exists i.
  split; [assumption |]. rewrite (index_of_Some _ _ _ Ha) in H. simpl in H.
  inversion H. reflexivity.
Qed.

Lemma delete_subseteq {A : Type} (i : nat) (l : list A) : delete i l ⊆ l.
Proof.
  intros x Hx. apply list_elem_of_lookup in Hx. destruct Hx as [j Hj].
  rewrite list_lookup_delete in Hj.
  case_decide; eapply list_elem_of_lookup_2; eassumption.
Qed.


(** ** Columns written by [assign] *)

Lemma assign_columns (c : string) (values : list cell) (df : DataFrame) :
  columns (assign c values df)
  = columns df ++ (if decide (c ∈ columns df) then [] else [c]).
Proof.
  unfold assign. destruct (index_of c (columns df)) as [p|] eqn:Hp; simpl.
  - rewrite decide_True; [apply eq_sym, app_nil_r |].
    eapply list_elem_of_lookup_2, index_of_Some, Hp.
  - apply index_of_None in Hp. rewrite decide_False; [reflexivity | assumption].
Qed.

Lemma assign_data (c : string) (values : list cell) (df : DataFrame) (n : nat)
    (row' : list cell) :
  data (assign c values df) !! n = Some row' ->
  exists row v,
    data df !! n = Some row /\ values !! n = Some v /\
    row' = match index_of c (columns df) with
           | Some p => <[p := v]> row
           | None => row ++ [v]
           end.
Proof.
  unfold assign. destruct (index_of c (columns df)) as [p|]; simpl;
    intros H; apply lookup_zip_with_Some in H;
    destruct H as (row & v & -> & Hrow & Hv); eauto.
Qed.

Lemma field_assign_other (c c' : string) (values : list cell) (df : DataFrame)
    (n : nat) (row row' : list cell) :
  c <> c' -> c ∈ columns df -> length row = length (columns df) ->
  data df !! n = Some row ->
  data (assign c' values df) !! n = Some row' ->
  field (assign c' values df) c row' = field df c row.
Proof.
  intros Hne Hc Hlen Hrow Hrow'.
  destruct (assign_data _ _ _ _ _ Hrow') as (row0 & v & Hrow0 & _ & ->).
  assert (row0 = row) by congruence. subst row0.
  destruct (index_of_elem c (columns df) Hc) as [q Hq].
  unfold field. rewrite assign_columns. rewrite (index_of_app_l _ _ _ _ Hq), Hq.
  destruct (index_of c' (columns df)) as [p|] eqn:Hp.
  - apply key_at_insert_ne. intros ->.
    apply index_of_Some in Hp, Hq. congruence.
  - unfold key_at. rewrite lookup_app_l; [reflexivity |].
    rewrite Hlen. eapply index_of_lt. eassumption.
Qed.


(** ** Lists of blocks *)

Lemma filter_keep {A : Type} (P : A -> Prop) `{!forall x, Decision (P x)} (l : list A) :
  Forall P l -> filter P l = l.
Proof.
  induction 1 as [|x l Hx Hl IH]; [reflexivity |].
  rewrite filter_cons_True by assumption. f_equal. exact IH.
Qed.

Lemma filter_drop {A : Type} (P : A -> Prop) `{!forall x, Decision (P x)} (l : list A) :
  Forall (fun x => ~ P x) l -> filter P l = [].
Proof.
  induction 1 as [|x l Hx Hl IH]; [reflexivity |].
  rewrite filter_cons_False by assumption. exact IH.
Qed.

Lemma join_cons {A : Type} (b : list A) (blocks : list (list A)) :
  mjoin (b :: blocks) = b ++ mjoin blocks.
Proof. reflexivity. Qed.

Lemma filter_no_block {A : Type} (P : A -> Prop) `{!forall x, Decision (P x)}
    (blocks : list (list A)) :
  Forall (Forall (fun x => ~ P x)) blocks -> filter P (mjoin blocks) = [].
Proof.
  induction 1 as [|b blocks Hb Hbs IH]; [reflexivity |].
  rewrite join_cons, filter_app, IH, (filter_drop _ _ Hb). reflexivity.
Qed.

(** Filtering a list of blocks by a property that holds throughout one block
    and nowhere else gives that block. *)
Lemma filter_block {A : Type} (P : A -> Prop) `{!forall x, Decision (P x)}
    (blocks : list (list A)) (i : nat) (b : list A) :
  blocks !! i = Some b ->
  Forall P b ->
  (forall j b', blocks !! j = Some b' -> j <> i -> Forall (fun x => ~ P x) b') ->
  filter P (mjoin blocks) = b.
Proof.
  intros Hi Hb Hothers.
  rewrite <- (take_drop_middle _ _ _ Hi), join_app, join_cons, !filter_app.
  rewrite (filter_keep _ _ Hb).
  rewrite !filter_no_block; [rewrite app_nil_r; reflexivity | |].
  - apply Forall_forall. intros b' Hb'. apply list_elem_of_lookup in Hb'.
    destruct Hb' as [j Hj]. rewrite lookup_drop in Hj.
    eapply Hothers; [eassumption | lia].
  - apply Forall_forall. intros b' Hb'. apply list_elem_of_lookup in Hb'.
    destruct Hb' as [j Hj]. pose proof (lookup_lt_Some _ _ _ Hj) as Hlt.
    rewrite length_take in Hlt. rewrite lookup_take_lt in Hj by lia.
    eapply Hothers; [eassumption | lia].
Qed.

Lemma zip_with_fmap_same {A B C : Type} (f : A -> B -> C) (g : A -> B) (l : list A) :
  zip_with f l (g <$> l) = (fun x => f x (g x)) <$> l.
Proof.
  induction l as [|x l IH]; [reflexivity |].
  rewrite !fmap_cons. simpl. f_equal. exact IH.
Qed.

Lemma split_nonempty (sep : ascii) (s : string) : split sep s <> [].
Proof.
  destruct s as [|c s]; simpl; [discriminate |].
  destruct (decide (c = sep)); [discriminate |].
  destruct (split sep s); discriminate.
Qed.

(** ** Filling and restoring one column *)

Lemma length_split (sep : ascii) (s : string) :
  length (split sep s) = S (count_sep sep s).
Proof.
  induction s as [|c s IH]; [reflexivity |]. simpl.
  destruct (decide (c = sep)); simpl; [rewrite IH; reflexivity |].
  destruct (split sep s) as [|piece pieces]; simpl in *; [discriminate | exact IH].
Qed.

Lemma split_pieces_have_no_sep (sep : ascii) (s piece : string) :
  piece ∈ split sep s -> count_sep sep piece = 0.
Proof.
  revert piece. induction s as [|c s IH]; intros piece; simpl.
  - intros H. apply list_elem_of_singleton in H. subst. reflexivity.
  - destruct (decide (c = sep)) as [->|Hne].
    + intros H. apply elem_of_cons in H. destruct H as [-> | H]; [reflexivity | auto].
    + destruct (split sep s) as [|p ps] eqn:Hs.
      * intros H. apply list_elem_of_singleton in H. subst. simpl.
        rewrite decide_False by assumption. reflexivity.
      * intros H. apply elem_of_cons in H. destruct H as [-> | H].
        -- simpl. rewrite decide_False by assumption. apply IH. left.
        -- apply IH. right. assumption.
Qed.

Lemma join_cons_more (sep : ascii) (piece : string) (rest : list string) :
  rest <> [] -> join sep (piece :: rest) = piece +:+ String sep (join sep rest).
Proof. destruct rest; [contradiction | reflexivity]. Qed.

Lemma join_split (sep : ascii) (s : string) : join sep (split sep s) = s.
Proof.
  induction s as [|c s IH]; [reflexivity |]. cbn [split].
  destruct (decide (c = sep)) as [->|Hne].
  - rewrite join_cons_more by apply split_nonempty. rewrite IH. reflexivity.
  - destruct (split sep s) as [|p ps] eqn:Hs; [exfalso; eapply split_nonempty; eassumption |].
    destruct ps as [|p' ps].
    + cbn [join] in *. rewrite IH. reflexivity.
    + rewrite join_cons_more in * by discriminate.
      rewrite <- IH. reflexivity.
Qed.

(** [split] cuts at every separator and nowhere else. *)
Lemma split_cut_at (sep : ascii) (s : string) : cut_at sep s (split sep s).
Proof.
  split; [apply split_nonempty |]. split; [| apply join_split].
  apply Forall_forall. intros piece. apply split_pieces_have_no_sep.
Qed.

Lemma count_sep_append (sep : ascii) (s t : string) :
  count_sep sep (s +:+ t) = count_sep sep s + count_sep sep t.
Proof.
  induction s as [|c s IH]; [reflexivity |].
  change (String c s +:+ t) with (String c (s +:+ t)).
  cbn [count_sep]. rewrite IH. lia.
Qed.

Lemma append_sep_inj (sep : ascii) (p q x y : string) :
  count_sep sep p = 0 -> count_sep sep q = 0 ->
  p +:+ String sep x = q +:+ String sep y -> p = q /\ x = y.
Proof.
  revert q. induction p as [|c p IH]; intros [|d q] Hp Hq H; cbn in *.
  - injection H as H. auto.
  - injection H as Hc H. subst d. rewrite decide_True in Hq by reflexivity. lia.
  - injection H as Hc H. subst c. rewrite decide_True in Hp by reflexivity. lia.
  - injection H as Hc H. subst d.
    destruct (decide (c = sep)); [lia |].
    destruct (IH q Hp Hq H) as [-> ->]. auto.
Qed.

(** The pieces of a text are determined by [cut_at]. *)
Lemma cut_at_unique (sep : ascii) (s : string) (ps qs : list string) :
  cut_at sep s ps -> cut_at sep s qs -> ps = qs.
Proof.
  intros (Hps & Hp & Hjp) (Hqs & Hq & Hjq). rewrite <- Hjp in Hjq. clear Hjp s.
  revert qs Hps Hqs Hq Hjq.
  induction ps as [|p ps IH]; intros qs Hps Hqs Hq Hj; [contradiction |].
  destruct qs as [|q qs]; [contradiction |].
  apply Forall_cons in Hp. destruct Hp as [Hp Hp'].
  apply Forall_cons in Hq. destruct Hq as [Hq Hq'].
  destruct ps as [|p' ps]; destruct qs as [|q' qs].
  - cbn in Hj. congruence.
  - exfalso. rewrite (join_cons_more sep q) in Hj by discriminate.
    change (join sep [p]) with p in Hj.
    rewrite <- Hj, count_sep_append in Hp. cbn in Hp.
    rewrite decide_True in Hp by reflexivity. lia.
  - exfalso. rewrite (join_cons_more sep p) in Hj by discriminate.
    change (join sep [q]) with q in Hj.
    rewrite Hj, count_sep_append in Hq. cbn in Hq.
    rewrite decide_True in Hq by reflexivity. lia.
  - rewrite !join_cons_more in Hj by discriminate.
    destruct (append_sep_inj sep q p _ _ Hq Hp Hj) as [-> Hrest].
    f_equal. apply IH; [assumption | discriminate | discriminate | assumption | assumption].
Qed.

Lemma fill_missing_Ok (c : string) (df df' : DataFrame) :
  fill_missing c df = Ok df' ->
  exists p,
    index_of c (columns df) = Some p /\
    df' = mkFrame (columns df)
            ((fun row => <[p := fill_cell (key_at p row)]> row) <$> data df).
Proof.
  unfold fill_missing, get_column, set_column. intros H.
  destruct (index_of c (columns df)) as [p|]; simpl in H; [| discriminate].
  exists p. split; [reflexivity |]. inversion H. f_equal.
  unfold fillna. rewrite <- list_fmap_compose. apply zip_with_fmap_same.
Qed.

Lemma restore_missing_Ok (c : string) (df df' : DataFrame) :
  restore_missing c df = Ok df' ->
  exists p,
    index_of c (columns df) = Some p /\
    df' = mkFrame (columns df)
            ((fun row => <[p := restore_cell (key_at p row)]> row) <$> data df).
Proof.
  unfold restore_missing, get_column, set_column. intros H.
  destruct (index_of c (columns df)) as [p|]; simpl in H; [| discriminate].
  exists p. split; [reflexivity |]. inversion H. f_equal.
  rewrite <- list_fmap_compose. apply zip_with_fmap_same.
Qed.

(** ** The split frames of lines 118-138 *)

Lemma str_split_Ok (v : cell) (ps : list string) :
  str_split "|" v = Ok ps <-> exists s, v = Str s /\ ps = split "|" s.
Proof.
  destruct v as [|s|n]; simpl; split; try discriminate.
  - intros (s & Hs & _). discriminate.
  - intros [= <-]. eauto.
  - intros (s' & [= <-] & ->). reflexivity.
  - intros (s & Hs & _). discriminate.
Qed.

Lemma mapM_str_split (values : list cell) (pieces : list (list string)) :
  mapM (str_split "|") values = Ok pieces ->
  Forall (fun v => exists s, v = Str s) values /\ pieces = pieces_of <$> values.
Proof.
  intros H. apply mapM_Ok in H. induction H as [|v ps values pieces Hv _ [IH1 IH2]].
  - split; [constructor | reflexivity].
  - apply str_split_Ok in Hv. destruct Hv as (s & -> & ->). split.
    + constructor; [eauto | assumption].
    + simpl. f_equal. assumption.
Qed.

Lemma split_df_Ok (c value_name : string) (filled parts : DataFrame) :
  split_df c value_name filled = Ok parts ->
  exists p,
    index_of c (columns filled) = Some p /\
    Forall (fun row => exists s, key_at p row = Str s) (data filled) /\
    parts = mkFrame [split_col_index; "_"; value_name]
              (stacked ((fun row => pieces_of (key_at p row)) <$> data filled)).
Proof.
  unfold split_df, get_column. intros H.
  destruct (index_of c (columns filled)) as [p|]; simpl in H; [| discriminate].
  exists p. split; [reflexivity |].
  ok_step H. inversion H; subst; clear H.
  apply mapM_str_split in Ha. destruct Ha as [Hall ->]. split.
  - rewrite Forall_forall in Hall. apply Forall_forall. intros row Hrow.
    apply Hall. apply list_elem_of_fmap. eauto.
  - rewrite <- list_fmap_compose. reflexivity.
Qed.

Lemma elem_of_stacked (r : list cell) (pieces : list (list string)) :
  r ∈ stacked pieces <->
  exists i ps j v,
    pieces !! i = Some ps /\ ps !! j = Some v /\
    r = [Int (Z.of_nat i); Int (Z.of_nat j); Str v].
Proof.
  unfold stacked. rewrite list_elem_of_join. split.
  - intros (block & Hr & Hblock).
    apply elem_of_lookup_imap in Hblock. destruct Hblock as (i & ps & -> & Hps).
    apply elem_of_lookup_imap in Hr. destruct Hr as (j & v & -> & Hv).
    exists i, ps, j, v. auto.
  - intros (i & ps & j & v & Hps & Hv & ->).
    eexists. split.
    + apply (elem_of_lookup_imap_2 (fun j v => [Int (Z.of_nat i); Int (Z.of_nat j); Str v])).
      exact Hv.
    + apply (elem_of_lookup_imap_2
               (fun i row => imap (fun j v => [Int (Z.of_nat i); Int (Z.of_nat j); Str v]) row)).
      exact Hps.
Qed.

Lemma split_rows_point_back (c value_name : string) (filled parts : DataFrame) :
  value_name <> split_col_index -> value_name <> "_" ->
  split_df c value_name filled = Ok parts ->
  forall r, r ∈ data parts ->
    exists i row s v pieces,
      field parts split_col_index r = Int (Z.of_nat i) /\
      data filled !! i = Some row /\
      field filled c row = Str s /\
      field parts value_name r = Str v /\
      cut_at "|" s pieces /\
      v ∈ pieces.
Proof.
  intros Hne1 Hne2 H r Hr. apply split_df_Ok in H.
  destruct H as (p & Hp & Hall & ->). simpl in Hr.
  apply elem_of_stacked in Hr. destruct Hr as (i & ps & j & v & Hps & Hv & ->).
  rewrite list_lookup_fmap in Hps.
  destruct (data filled !! i) as [row|] eqn:Hrow; simpl in Hps; [| discriminate].
  inversion Hps; subst; clear Hps.
  rewrite Forall_forall in Hall.
  destruct (Hall row) as [s Hs]; [eapply list_elem_of_lookup_2; eassumption |].
  rewrite Hs in Hv. simpl in Hv.
  exists i, row, s, v, (split "|" s). split; [reflexivity |]. split; [exact Hrow |].
  split; [unfold field; rewrite Hp; assumption |]. split; [| split].
  - unfold field. simpl.
    rewrite decide_False by assumption. rewrite decide_False by assumption.
    rewrite decide_True by reflexivity. reflexivity.
  - apply split_cut_at.
  - eapply list_elem_of_lookup_2. eassumption.
Qed.

(** C5. Every row of [moa_split_df] and of [target_split_df] points back
    to a row of the combined table: its [repurposing_info_index] is the
    label of a row of [combined_df] (as lines 104-105 left it), and its
    [moa_unique], respectively [target_unique], is one of the pieces that
    row's [moa], respectively [target], falls into when it is cut at every
    "|": pieces without a "|" that give the field back when joined with
    "|". *)
Theorem split_frames_point_back (filled moa_split target_split : DataFrame) :
  moa_split_df filled = Ok moa_split ->
  target_split_df filled = Ok target_split ->
  (forall r, r ∈ data moa_split ->
     exists i row s v pieces,
       field moa_split split_col_index r = Int (Z.of_nat i) /\
       data filled !! i = Some row /\
       field filled "moa" row = Str s /\
       field moa_split "moa_unique" r = Str v /\
       cut_at "|" s pieces /\
       v ∈ pieces) /\
  (forall r, r ∈ data target_split ->
     exists i row s v pieces,
       field target_split split_col_index r = Int (Z.of_nat i) /\
       data filled !! i = Some row /\
       field filled "target" row = Str s /\
       field target_split "target_unique" r = Str v /\
       cut_at "|" s pieces /\
       v ∈ pieces).
Proof.
  intros Hm Ht.
  split; eapply split_rows_point_back; try eassumption; discriminate.
Qed.

(** ** The merges of lines 147-160 *)

Lemma fmap_join {A B : Type} (f : A -> B) (blocks : list (list A)) :
  f <$> mjoin blocks = mjoin (fmap f <$> blocks).
Proof.
  induction blocks as [|b blocks IH]; [reflexivity |].
  rewrite fmap_cons, !join_cons, fmap_app, IH. reflexivity.
Qed.

Lemma bind_join {A B : Type} (f : A -> list B) (blocks : list (list A)) :
  mjoin blocks ≫= f = mjoin ((fun b => b ≫= f) <$> blocks).
Proof.
  induction blocks as [|b blocks IH]; [reflexivity |].
  rewrite fmap_cons, !join_cons, bind_app, IH. reflexivity.
Qed.

Lemma bind_ext_elem {A B : Type} (f g : A -> list B) (l : list A) :
  (forall x, x ∈ l -> f x = g x) -> l ≫= f = l ≫= g.
Proof.
  induction l as [|x l IH]; intros H; [reflexivity |].
  rewrite !bind_cons, (H x), IH; [reflexivity | | left].
  intros y Hy. apply H. right. exact Hy.
Qed.

Lemma index_of_here (x : string) (l : list string) : index_of x (x :: l) = Some 0.
Proof. simpl. rewrite decide_True; reflexivity. Qed.

Lemma index_of_later (x y : string) (l : list string) :
  x <> y -> index_of x (y :: l) = S <$> index_of x l.
Proof. intros H. simpl. rewrite decide_False; [reflexivity | assumption]. Qed.

Lemma tagged_of_stacked (value_name : string) (pieces : list (list string)) :
  value_name <> split_col_index -> value_name <> "_" ->
  loc_columns [split_col_index; value_name]
    (mkFrame [split_col_index; "_"; value_name] (stacked pieces))
  = Ok (mkFrame [split_col_index; value_name] (tagged pieces)).
Proof.
  intros Hne1 Hne2. rewrite loc_columns_NoDup.
  - f_equal. f_equal. cbn [data columns].
    unfold stacked, tagged. rewrite fmap_join, fmap_imap. f_equal.
    apply imap_ext. intros i row _. cbn [compose]. rewrite fmap_imap.
    rewrite <- (imap_const (fun v => [Int (Z.of_nat i); Str v])).
    apply imap_ext. intros j v _. unfold compose, const, field. cbn [columns].
    rewrite !fmap_cons, fmap_nil, index_of_here.
    rewrite (index_of_later value_name split_col_index) by assumption.
    rewrite (index_of_later value_name "_") by assumption.
    rewrite index_of_here. reflexivity.
  - cbn [columns]. repeat constructor; rewrite ?elem_of_cons, ?elem_of_nil.
    + intros [H | [H | H]]; [discriminate | congruence | assumption].
    + intros [H | H]; [congruence | assumption].
    + intros H. assumption.
  - cbn [columns]. intros c Hc. apply elem_of_cons in Hc. destruct Hc as [-> | Hc].
    + left.
    + apply list_elem_of_singleton in Hc. subst. right. right. left.
Qed.

Lemma filter_tagged (pieces : list (list string)) (i : nat) :
  filter (fun r => key_at 0 r = Int (Z.of_nat i)) (tagged pieces)
  = (fun v => [Int (Z.of_nat i); Str v]) <$> default [] (pieces !! i).
Proof.
  unfold tagged.
  assert (Hothers : forall j b',
            imap (fun i row => (fun v => [Int (Z.of_nat i); Str v]) <$> row) pieces !! j
              = Some b' ->
            j <> i -> Forall (fun r => key_at 0 r <> Int (Z.of_nat i)) b').
  { intros j b' Hj Hne. rewrite list_lookup_imap in Hj.
    destruct (pieces !! j) as [ps|]; simpl in Hj; [| discriminate].
    inversion Hj; subst. apply Forall_fmap, Forall_forall. intros v _. cbn.
    intros [= H]. apply Hne. lia. }
  destruct (pieces !! i) as [ps|] eqn:Hi; simpl.
  - eapply filter_block; [| | exact Hothers].
    + rewrite list_lookup_imap, Hi. reflexivity.
    + apply Forall_fmap, Forall_forall. intros v _. reflexivity.
  - apply filter_no_block, Forall_forall. intros b' Hb'.
    apply list_elem_of_lookup in Hb'. destruct Hb' as [j Hj].
    apply (Hothers j b' Hj). intros ->.
    rewrite list_lookup_imap, Hi in Hj. discriminate.
Qed.

Lemma merge_left_index_tagged (value_name : string) (left : DataFrame)
    (pieces : list (list string)) :
  length pieces = length (data left) ->
  Forall (fun ps => ps <> []) pieces ->
  merge_left_index split_col_index left
    (mkFrame [split_col_index; value_name] (tagged pieces))
  = Ok (mkFrame
          (key_labels (columns left)
             ++ merged_columns (columns left) [split_col_index; value_name])
          (mjoin (imap (fun i l =>
                          (fun v => key_cells (columns left) i
                                      ++ l ++ [Int (Z.of_nat i); Str v])
                            <$> default [] (pieces !! i))
                       (data left)))).
Proof.
  intros Hlen Hne. unfold merge_left_index, key_labels, key_cells. cbn [columns data].
  rewrite index_of_here. cbn [lift mbind result_bind].
  f_equal. f_equal. f_equal. apply imap_ext. intros i l Hl. cbv zeta.
  rewrite filter_tagged.
  destruct (pieces !! i) as [ps|] eqn:Hps.
  - rewrite Forall_forall in Hne.
    assert (Hps' : ps <> []) by (apply Hne; eapply list_elem_of_lookup_2; eassumption).
    destruct ps as [|v ps]; [contradiction |].
    change (default [] (Some (v :: ps))) with (v :: ps).
    rewrite fmap_cons. cbv beta iota. rewrite !fmap_cons. f_equal.
    rewrite <- list_fmap_compose. reflexivity.
  - apply lookup_ge_None in Hps. apply lookup_lt_Some in Hl. lia.
Qed.

Lemma merge_left_tagged (value_name : string) (left : DataFrame) (lk : nat)
    {A : Type} (base : list A) (block : nat -> A -> list (list cell))
    (pieces : list (list string)) :
  value_name <> split_col_index ->
  index_of split_col_index (columns left) = Some lk ->
  data left = mjoin (imap block base) ->
  (forall i x r, base !! i = Some x -> r ∈ block i x -> key_at lk r = Int (Z.of_nat i)) ->
  length pieces = length base ->
  Forall (fun ps => ps <> []) pieces ->
  merge_left split_col_index left
    (mkFrame [split_col_index; value_name] (tagged pieces))
  = Ok (mkFrame
          (merged_columns (columns left) [value_name])
          (mjoin (imap (fun i x =>
                          block i x ≫= fun r =>
                            (fun v => r ++ [Str v]) <$> default [] (pieces !! i))
                       base))).
Proof.
  intros Hname Hlk Hdata Hkey Hlen Hne. unfold merge_left.
  rewrite Hlk. cbn [columns data].
  rewrite index_of_here. cbn [lift mbind result_bind delete list_delete].
  f_equal. f_equal. rewrite Hdata, bind_join, fmap_imap. f_equal.
  apply imap_ext. intros i x Hx. cbn [compose]. apply bind_ext_elem. intros r Hr.
  rewrite (Hkey i x r Hx Hr), filter_tagged.
  destruct (pieces !! i) as [ps|] eqn:Hps.
  - rewrite Forall_forall in Hne.
    assert (Hps' : ps <> []) by (apply Hne; eapply list_elem_of_lookup_2; eassumption).
    destruct ps as [|v ps]; [contradiction |].
    change (default [] (Some (v :: ps))) with (v :: ps).
    rewrite fmap_cons. cbv beta iota. rewrite !fmap_cons. f_equal.
    rewrite <- list_fmap_compose. reflexivity.
  - apply lookup_ge_None in Hps. apply lookup_lt_Some in Hx. lia.
Qed.

Lemma fmap_bind {A B C : Type} (f : B -> C) (g : A -> list B) (l : list A) :
  f <$> (l ≫= g) = l ≫= fun x => f <$> g x.
Proof.
  induction l as [|x l IH]; [reflexivity |].
  rewrite !bind_cons, fmap_app, IH. reflexivity.
Qed.

Lemma exploded_two_steps (front : list cell) (i : nat) (row : list cell)
    (moas targets : list string) :
  ((fun m => front ++ row ++ [Int (Z.of_nat i); Str m]) <$> moas)
    ≫= (fun r => (fun t => r ++ [Str t]) <$> targets)
  = (fun r => front ++ r) <$> exploded i row moas targets.
Proof.
  unfold exploded. rewrite list_fmap_bind, fmap_bind.
  apply bind_ext_elem. intros m _. cbn.
  induction targets as [|t targets IH]; [reflexivity |].
  rewrite fmap_cons, bind_cons, fmap_app, IH, <- !app_assoc. reflexivity.
Qed.

(** ** Labels after a merge *)

Lemma add_suffix_cases (suffix : string) (other : list string) (c : string) :
  ((c ∉ other) /\ add_suffix suffix other c = c) \/
  ((c ∈ other) /\ add_suffix suffix other c = c +:+ suffix).
Proof. unfold add_suffix. destruct (decide (c ∈ other)); auto. Qed.

Lemma merged_columns_disjoint (lcols rcols : list string) :
  (forall c, c ∈ lcols -> c ∉ rcols) ->
  merged_columns lcols rcols = lcols ++ rcols.
Proof.
  intros H. unfold merged_columns. f_equal.
  - rewrite <- (list_fmap_id lcols) at 2. apply list_fmap_ext. intros i c Hc.
    apply list_elem_of_lookup_2 in Hc. unfold add_suffix.
    rewrite decide_False; [reflexivity | auto].
  - rewrite <- (list_fmap_id rcols) at 2. apply list_fmap_ext. intros i c Hc.
    apply list_elem_of_lookup_2 in Hc. unfold add_suffix.
    rewrite decide_False; [reflexivity |]. intros Hl. exact (H c Hl Hc).
Qed.

Lemma elem_of_merged_columns (x : string) (lcols rcols : list string) :
  x ∈ merged_columns lcols rcols ->
  (x ∈ lcols /\ x ∉ rcols) \/
  (exists c, c ∈ rcols /\ c ∈ lcols /\ x = c +:+ "_x") \/
  (x ∈ rcols /\ x ∉ lcols) \/
  (exists c, c ∈ rcols /\ c ∈ lcols /\ x = c +:+ "_y").
Proof.
  unfold merged_columns. rewrite elem_of_app, !list_elem_of_fmap.
  intros [(c & -> & Hc) | (c & -> & Hc)].
  - destruct (add_suffix_cases "_x" rcols c) as [[Hn ->] | [Hin ->]]; eauto 10.
  - destruct (add_suffix_cases "_y" lcols c) as [[Hn ->] | [Hin ->]]; eauto 10.
Qed.

(** The three labels the long table adds, and what a clash would turn them
    into. *)
Ltac label_clash :=
  try match goal with
    | |- _ <> _ => let H := fresh "Hclash" in intros H
    | |- _ ∉ _ => let H := fresh "Hclash" in intros H
    end;
  repeat match goal with
    | H : _ ∈ _ :: _ |- _ => apply elem_of_cons in H; destruct H as [H | H]
    | H : _ ∈ [] |- _ => apply elem_of_nil in H; contradiction
    | H : _ /\ _ |- _ => destruct H
    | H : exists _, _ |- _ => destruct H
    end;
  subst;
  try contradiction;
  try match goal with
    | H : _ +:+ _ = _ |- _ =>
        first [ exact (append_neq _ _ ltac:(discriminate) H)
              | vm_compute in H; discriminate H ]
    | H : _ = _ +:+ _ |- _ =>
        first [ exact (append_neq _ _ ltac:(discriminate) (eq_sym H))
              | vm_compute in H; discriminate H ]
    | H : @eq string _ _ |- _ => vm_compute in H; discriminate H
    end.

Lemma key_at_app_r (row extra : list cell) (n k : nat) :
  length row = n -> key_at (n + k) (row ++ extra) = key_at k extra.
Proof.
  intros <-. unfold key_at. rewrite lookup_app_r by lia.
  replace (length row + k - length row) with k by lia. reflexivity.
Qed.

Lemma key_at_app_l (row extra : list cell) (k : nat) :
  k < length row -> key_at k (row ++ extra) = key_at k row.
Proof. intros H. unfold key_at. rewrite lookup_app_l by assumption. reflexivity. Qed.

(** Where the second merge finds its key in the table the first merge
    made: in the new first column when there is one, and right after the
    cells of the combined table otherwise.  Either way the cell is the
    label of the row the long row comes from. *)
Lemma index_of_with_moa (cols : list string) :
  exists lk,
    index_of split_col_index
      (key_labels cols ++ merged_columns cols [split_col_index; "moa_unique"]) = Some lk /\
    forall i row extra,
      length row = length cols ->
      key_at lk (key_cells cols i ++ row ++ Int (Z.of_nat i) :: extra) = Int (Z.of_nat i).
Proof.
  unfold key_labels, key_cells. case_bool_decide as Hin.
  - exists 0. split; [apply index_of_here | reflexivity].
  - exists (length cols). cbn [app].
    assert (Hleft : split_col_index
                      ∉ (add_suffix "_x" [split_col_index; "moa_unique"] <$> cols)).
    { rewrite list_elem_of_fmap. intros (c & Heq & Hc).
      destruct (add_suffix_cases "_x" [split_col_index; "moa_unique"] c)
        as [[Hn Hs] | [Hin' Hs]]; rewrite Hs in Heq.
      - subst c. contradiction.
      - label_clash. }
    split.
    + unfold merged_columns. rewrite (index_of_app_r _ _ _ Hleft), length_fmap.
      cbn [fmap list_fmap]. unfold add_suffix at 1.
      rewrite decide_False by assumption. rewrite index_of_here.
      cbn [fmap option_fmap option_map]. f_equal. lia.
    + intros i row extra Hlen. rewrite <- (Nat.add_0_r (length cols)).
      apply key_at_app_r. assumption.
Qed.

Lemma pieces_nonempty (p : nat) (rows : list (list cell)) :
  Forall (fun row => exists s, key_at p row = Str s) rows ->
  Forall (fun ps => ps <> []) ((fun row => pieces_of (key_at p row)) <$> rows).
Proof.
  intros H. apply Forall_fmap. eapply Forall_impl; [exact H |].
  intros row [s Hs]. simpl. rewrite Hs. apply split_nonempty.
Qed.

(** [long_combined_df] at line 160: the rows of the filled table, each
    repeated for every piece of its [moa] and every piece of its
    [target], behind the key cell when the first merge put one in front. *)
Lemma long_merged_df_Ok (filled merged : DataFrame) :
  rectangular filled ->
  long_merged_df filled = Ok merged ->
  exists pm pt,
    index_of "moa" (columns filled) = Some pm /\
    index_of "target" (columns filled) = Some pt /\
    Forall (fun row => exists s, key_at pm row = Str s) (data filled) /\
    Forall (fun row => exists s, key_at pt row = Str s) (data filled) /\
    merged
    = mkFrame
        (merged_columns
           (key_labels (columns filled)
              ++ merged_columns (columns filled) [split_col_index; "moa_unique"])
           ["target_unique"])
        (mjoin (imap (fun i row =>
                        (fun r => key_cells (columns filled) i ++ r)
                          <$> exploded i row (pieces_of (key_at pm row))
                                             (pieces_of (key_at pt row)))
                     (data filled))).
Proof.
  intros Hrect H. unfold long_merged_df, moa_split_df, target_split_df in H.
  ok_step H. apply split_df_Ok in Ha. destruct Ha as (pm & Hpm & Hm & ->).
  ok_step H. apply split_df_Ok in Ha. destruct Ha as (pt & Hpt & Ht & ->).
  ok_step H. rewrite tagged_of_stacked in Ha by discriminate.
  inversion Ha; subst; clear Ha.
  ok_step H.
  rewrite merge_left_index_tagged in Ha
    by (rewrite ?length_fmap; auto using pieces_nonempty).
  inversion Ha; subst; clear Ha.
  ok_step H. rewrite tagged_of_stacked in Ha by discriminate.
  inversion Ha; subst; clear Ha.
  destruct (index_of_with_moa (columns filled)) as (lk & Hlk & Hkey).
  exists pm, pt. repeat (split; [assumption |]).
  rewrite (merge_left_tagged "target_unique" _ lk (data filled)
             (fun i l =>
                (fun v => key_cells (columns filled) i ++ l ++ [Int (Z.of_nat i); Str v])
                  <$> default [] (((fun row => pieces_of (key_at pm row))
                                     <$> data filled) !! i))
             ((fun row => pieces_of (key_at pt row)) <$> data filled))
    in H.
  - inversion H; subst; clear H. cbn [columns]. f_equal. f_equal.
    apply imap_ext. intros i row Hrow. cbn beta.
    rewrite !list_lookup_fmap, Hrow. cbn [fmap option_fmap option_map default from_option id].
    apply exploded_two_steps.
  - discriminate.
  - exact Hlk.
  - reflexivity.
  - intros i row r Hrow Hr. cbn beta in Hr.
    apply list_elem_of_fmap in Hr. destruct Hr as (v & -> & _).
    apply Hkey. unfold rectangular in Hrect.
    rewrite Forall_forall in Hrect. apply Hrect.
    eapply list_elem_of_lookup_2. eassumption.
  - apply length_fmap.
  - apply pieces_nonempty. assumption.
Qed.

(** ** Rewriting one cell of a row *)

Lemma length_update_at (p : nat) (f : cell -> cell) (row : list cell) :
  length (update_at p f row) = length row.
Proof. apply length_insert. Qed.

Lemma key_at_update_at_ne (p q : nat) (f : cell -> cell) (row : list cell) :
  p <> q -> key_at q (update_at p f row) = key_at q row.
Proof. apply key_at_insert_ne. Qed.

Lemma key_at_update_at (p : nat) (f : cell -> cell) (row : list cell) :
  p < length row -> key_at p (update_at p f row) = f (key_at p row).
Proof. apply key_at_insert. Qed.

(** [restore_cell] leaves a missing cell missing, so the equation holds
    even for a position the row does not have. *)
Lemma key_at_restore (p : nat) (row : list cell) :
  key_at p (update_at p restore_cell row) = restore_cell (key_at p row).
Proof.
  destruct (decide (p < length row)) as [Hlt|Hge].
  - apply key_at_update_at. assumption.
  - unfold update_at, key_at. rewrite list_insert_ge by lia.
    rewrite (lookup_ge_None_2 row p) by lia. reflexivity.
Qed.

Lemma update_at_app_l (p : nat) (f : cell -> cell) (row extra : list cell) :
  p < length row -> update_at p f (row ++ extra) = update_at p f row ++ extra.
Proof.
  intros H. unfold update_at. rewrite key_at_app_l by assumption.
  apply insert_app_l. assumption.
Qed.

Lemma update_at_app_r (k : nat) (f : cell -> cell) (row extra : list cell) (n : nat) :
  length row = n ->
  update_at (n + k) f (row ++ extra) = row ++ update_at k f extra.
Proof.
  intros <-. unfold update_at. rewrite (key_at_app_r row extra (length row) k eq_refl).
  apply insert_app_r.
Qed.

Lemma restore_fill (v : cell) : restore_cell (fill_cell v) = restore_cell v.
Proof.
  destruct v as [|s|n]; reflexivity.
Qed.

(** ** Lines 104-105 and 163-170 on whole frames *)

Lemma filled_df_Ok (combined filled : DataFrame) :
  filled_df combined = Ok filled ->
  exists pm pt,
    index_of "moa" (columns combined) = Some pm /\
    index_of "target" (columns combined) = Some pt /\
    pm <> pt /\
    filled = mkFrame (columns combined)
               ((fun row => update_at pt fill_cell (update_at pm fill_cell row))
                  <$> data combined).
Proof.
  unfold filled_df. intros H. ok_step H.
  apply fill_missing_Ok in Ha. destruct Ha as (pm & Hpm & ->).
  apply fill_missing_Ok in H. destruct H as (pt & Hpt & ->). cbn [columns data] in *.
  exists pm, pt. repeat (split; [assumption |]). split.
  - intros ->. apply index_of_Some in Hpm, Hpt. rewrite Hpm in Hpt. discriminate.
  - rewrite <- list_fmap_compose. reflexivity.
Qed.

Lemma rectangular_fmap (cols : list string) (f : list cell -> list cell)
    (rows : list (list cell)) :
  (forall row, length (f row) = length row) ->
  rectangular (mkFrame cols rows) -> rectangular (mkFrame cols (f <$> rows)).
Proof.
  unfold rectangular. cbn [columns data]. intros Hf H.
  apply Forall_fmap. eapply Forall_impl; [exact H |].
  intros row Hrow. simpl. rewrite Hf. exact Hrow.
Qed.

Lemma restored_df_Ok (merged long : DataFrame) :
  restored_df merged = Ok long ->
  exists p1 p2 p3 p4,
    index_of "moa" (columns merged) = Some p1 /\
    index_of "moa_unique" (columns merged) = Some p2 /\
    index_of "target" (columns merged) = Some p3 /\
    index_of "target_unique" (columns merged) = Some p4 /\
    long = mkFrame (columns merged)
             ((fun row =>
                 update_at p4 restore_cell
                   (update_at p3 restore_cell
                      (update_at p2 restore_cell
                         (update_at p1 restore_cell row))))
                <$> data merged).
Proof.
  unfold restored_df. intros H.
  ok_step H. apply restore_missing_Ok in Ha. destruct Ha as (p1 & Hp1 & ->).
  ok_step H. apply restore_missing_Ok in Ha. destruct Ha as (p2 & Hp2 & ->).
  ok_step H. apply restore_missing_Ok in Ha. destruct Ha as (p3 & Hp3 & ->).
  apply restore_missing_Ok in H. destruct H as (p4 & Hp4 & ->).
  cbn [columns data] in *.
  exists p1, p2, p3, p4. repeat (split; [assumption |]).
  rewrite <- !list_fmap_compose. reflexivity.
Qed.

(** ** The labels of the long table *)

Lemma length_key_cells (cols : list string) (i : nat) :
  length (key_cells cols i) = length (key_labels cols).
Proof. unfold key_cells, key_labels. case_bool_decide; reflexivity. Qed.

Lemma length_renamed (cols : list string) : length (renamed cols) = length cols.
Proof. apply length_fmap. Qed.

Lemma renamed_fresh (cols : list string) :
  split_col_index ∉ cols -> renamed cols = cols.
Proof.
  intros H. unfold renamed. rewrite <- (list_fmap_id cols) at 2.
  apply list_fmap_ext. intros i c Hc. apply list_elem_of_lookup_2 in Hc.
  rewrite decide_False; [reflexivity |]. intros ->. contradiction.
Qed.

Lemma elem_of_renamed (c : string) (cols : list string) :
  c ∈ renamed cols ->
  (c ∈ cols /\ c <> split_col_index) \/ c = split_col_index +:+ "_x".
Proof.
  unfold renamed. rewrite list_elem_of_fmap. intros (c' & -> & Hc').
  destruct (decide (c' = split_col_index)) as [->|Hne]; auto.
Qed.

Lemma elem_of_renamed_2 (c : string) (cols : list string) :
  c ∈ cols -> c <> split_col_index -> c ∈ renamed cols.
Proof.
  intros Hc Hne. unfold renamed. apply list_elem_of_fmap. exists c.
  rewrite decide_False by assumption. auto.
Qed.

Lemma index_of_renamed (c : string) (cols : list string) :
  c <> split_col_index -> c <> split_col_index +:+ "_x" ->
  index_of c (renamed cols) = index_of c cols.
Proof.
  intros H1 H2. unfold renamed.
  induction cols as [|y cols IH]; [reflexivity |].
  rewrite fmap_cons. cbn [index_of]. rewrite IH.
  destruct (decide (y = split_col_index)) as [->|Hy].
  - rewrite !decide_False by assumption. reflexivity.
  - reflexivity.
Qed.

Lemma elem_of_key_labels (c : string) (cols : list string) :
  c ∈ key_labels cols -> c = split_col_index.
Proof.
  unfold key_labels. case_bool_decide; intros Hc.
  - apply list_elem_of_singleton in Hc. exact Hc.
  - apply elem_of_nil in Hc. contradiction.
Qed.

Lemma key_tag_cases (cols : list string) :
  key_tag cols = split_col_index \/ key_tag cols = split_col_index +:+ "_y".
Proof. unfold key_tag. case_bool_decide; auto. Qed.

(** The first merge, on a table without a [moa_unique] column. *)
Lemma merged_with_moa (cols : list string) :
  "moa_unique" ∉ cols ->
  merged_columns cols [split_col_index; "moa_unique"]
  = renamed cols ++ [key_tag cols; "moa_unique"].
Proof.
  intros Hmu. unfold merged_columns, renamed. f_equal.
  - apply list_fmap_ext. intros i c Hc. apply list_elem_of_lookup_2 in Hc.
    unfold add_suffix. destruct (decide (c = split_col_index)) as [->|Hne].
    + rewrite decide_True by left. reflexivity.
    + rewrite decide_False; [reflexivity |]. intros Hin.
      apply elem_of_cons in Hin. destruct Hin as [-> | Hin]; [contradiction |].
      apply list_elem_of_singleton in Hin. subst c. contradiction.
  - cbn [fmap list_fmap]. unfold add_suffix, key_tag. f_equal.
    + case_bool_decide; [rewrite decide_True | rewrite decide_False]; auto.
    + rewrite decide_False by assumption. reflexivity.
Qed.

(** The labels after both merges, on a table without a [moa_unique] or a
    [target_unique] column. *)
Lemma long_labels_merged (cols : list string) :
  "moa_unique" ∉ cols -> "target_unique" ∉ cols ->
  merged_columns
    (key_labels cols ++ merged_columns cols [split_col_index; "moa_unique"])
    ["target_unique"]
  = long_labels cols.
Proof.
  intros Hmu Htu. rewrite (merged_with_moa cols Hmu).
  unfold long_labels. rewrite merged_columns_disjoint.
  - rewrite <- !app_assoc. reflexivity.
  - intros c Hc Hin. apply list_elem_of_singleton in Hin. subst c.
    apply elem_of_app in Hc. destruct Hc as [Hc | Hc].
    + apply elem_of_key_labels in Hc. discriminate Hc.
    + apply elem_of_app in Hc. destruct Hc as [Hc | Hc].
      * apply elem_of_renamed in Hc. destruct Hc as [[Hc _] | Hc];
          [contradiction | vm_compute in Hc; discriminate Hc].
      * apply elem_of_cons in Hc. destruct Hc as [Hc | Hc].
        -- destruct (key_tag_cases cols) as [Hk | Hk]; rewrite Hk in Hc;
             vm_compute in Hc; discriminate Hc.
        -- apply list_elem_of_singleton in Hc. discriminate Hc.
Qed.

(** The restoration finds [moa_unique] and [target_unique] only when the
    combined table had no column of either name: a clash would have given
    both sides of the merge a suffix. *)
Lemma long_labels_fresh (cols : list string) (p2 p4 : nat) :
  let merged_cols :=
    merged_columns
      (key_labels cols ++ merged_columns cols [split_col_index; "moa_unique"])
      ["target_unique"] in
  index_of "moa_unique" merged_cols = Some p2 ->
  index_of "target_unique" merged_cols = Some p4 ->
  ("moa_unique" ∉ cols) /\ ("target_unique" ∉ cols) /\
  merged_cols = long_labels cols.
Proof.
  intros merged_cols Hp2 Hp4. subst merged_cols.
  assert (Hmu : "moa_unique" ∉ cols).
  { intros Hin. apply index_of_Some, list_elem_of_lookup_2 in Hp2.
    apply elem_of_merged_columns in Hp2.
    destruct Hp2 as [[H1 _] | [H | [[H _] | H]]]; try label_clash.
    apply elem_of_app in H1. destruct H1 as [H1 | H1].
    - apply elem_of_key_labels in H1. discriminate H1.
    - apply elem_of_merged_columns in H1.
      destruct H1 as [[_ H] | [H | [[_ H] | H]]]; try label_clash.
      apply H. right. left. }
  rewrite (merged_with_moa cols Hmu) in *.
  assert (Hin_left : forall c, c ∈ cols -> c <> split_col_index ->
                       c ∈ key_labels cols ++ renamed cols ++ [key_tag cols; "moa_unique"]).
  { intros c Hc Hne. apply elem_of_app. right. apply elem_of_app. left.
    apply elem_of_renamed_2; assumption. }
  assert (Htu : "target_unique" ∉ cols).
  { intros Hin. apply index_of_Some, list_elem_of_lookup_2 in Hp4.
    apply elem_of_merged_columns in Hp4.
    destruct Hp4 as [[_ H] | [H | [[_ H] | H]]]; try label_clash.
    - apply H. left.
    - apply H. apply Hin_left; [assumption | discriminate]. }
  split; [assumption |]. split; [assumption |].
  rewrite <- (merged_with_moa cols Hmu). apply long_labels_merged; assumption.
Qed.

(** Where the long table has the labels it is read by. *)
Lemma index_of_long_base (c : string) (cols : list string) (p : nat) :
  c <> split_col_index -> c <> split_col_index +:+ "_x" ->
  index_of c cols = Some p ->
  index_of c (long_labels cols) = Some (length (key_labels cols) + p).
Proof.
  intros H1 H2 Hp. unfold long_labels.
  rewrite index_of_app_r by (intros Hin; apply elem_of_key_labels in Hin; contradiction).
  rewrite (index_of_app_l c (renamed cols) _ p)
    by (rewrite index_of_renamed; assumption).
  reflexivity.
Qed.

Lemma index_of_long_plain (c : string) (cols : list string) (p : nat) :
  split_col_index ∉ cols ->
  index_of c cols = Some p ->
  index_of c (long_labels cols) = Some p.
Proof.
  intros Hidx Hp. unfold long_labels, key_labels.
  rewrite bool_decide_eq_false_2 by assumption. cbn [app].
  rewrite renamed_fresh by assumption. apply index_of_app_l. assumption.
Qed.

Lemma not_elem_of_front (c : string) (cols : list string) :
  c ∉ cols -> c <> split_col_index -> c <> split_col_index +:+ "_x" ->
  c ∉ key_labels cols ++ renamed cols.
Proof.
  intros Hc H1 H2 Hin. apply elem_of_app in Hin. destruct Hin as [Hin | Hin].
  - apply elem_of_key_labels in Hin. contradiction.
  - apply elem_of_renamed in Hin. destruct Hin as [[Hin _] | Hin]; contradiction.
Qed.

Lemma length_front (cols : list string) :
  length (key_labels cols ++ renamed cols) = length (key_labels cols) + length cols.
Proof. rewrite length_app, length_renamed. reflexivity. Qed.

Lemma index_of_long_index (cols : list string) :
  index_of split_col_index (long_labels cols)
  = Some (if bool_decide (split_col_index ∈ cols) then 0 else length cols).
Proof.
  unfold long_labels, key_labels, key_tag. case_bool_decide as Hin.
  - apply index_of_here.
  - cbn [app]. rewrite renamed_fresh by assumption.
    rewrite (index_of_app_r _ _ _ Hin), index_of_here.
    cbn [fmap option_fmap option_map]. f_equal. lia.
Qed.

Lemma index_of_long_moa_unique (cols : list string) :
  "moa_unique" ∉ cols ->
  index_of "moa_unique" (long_labels cols)
  = Some (length (key_labels cols) + (length cols + 1)).
Proof.
  intros Hmu. unfold long_labels. rewrite app_assoc.
  rewrite index_of_app_r by (apply not_elem_of_front; [assumption | discriminate..]).
  rewrite length_front.
  rewrite index_of_later
    by (destruct (key_tag_cases cols) as [-> | ->]; discriminate).
  rewrite index_of_here. cbn [fmap option_fmap option_map]. f_equal. lia.
Qed.

Lemma index_of_long_target_unique (cols : list string) :
  "target_unique" ∉ cols ->
  index_of "target_unique" (long_labels cols)
  = Some (length (key_labels cols) + (length cols + 2)).
Proof.
  intros Htu. unfold long_labels. rewrite app_assoc.
  rewrite index_of_app_r by (apply not_elem_of_front; [assumption | discriminate..]).
  rewrite length_front.
  rewrite index_of_later
    by (destruct (key_tag_cases cols) as [-> | ->]; discriminate).
  rewrite index_of_later by discriminate.
  rewrite index_of_here. cbn [fmap option_fmap option_map]. f_equal. lia.
Qed.

Lemma update_at_commute (p q : nat) (f g : cell -> cell) (row : list cell) :
  p <> q -> update_at p f (update_at q g row) = update_at q g (update_at p f row).
Proof.
  intros Hne. unfold update_at.
  rewrite (key_at_insert_ne q p) by auto.
  rewrite (key_at_insert_ne p q) by auto.
  apply list_insert_insert_ne. assumption.
Qed.

Lemma update_at_twice (p : nat) (f g : cell -> cell) (row : list cell) :
  p < length row ->
  update_at p f (update_at p g row) = update_at p (fun v => f (g v)) row.
Proof.
  intros Hlt. unfold update_at.
  rewrite key_at_insert by assumption. apply list_insert_insert_eq.
Qed.

Lemma restore_fill_row (pm pt : nat) (row : list cell) :
  pm <> pt -> pm < length row -> pt < length row ->
  update_at pt restore_cell
    (update_at pm restore_cell
       (update_at pt fill_cell (update_at pm fill_cell row)))
  = update_at pt restore_cell (update_at pm restore_cell row).
Proof.
  intros Hne Hpm Hpt.
  rewrite (update_at_commute pm pt restore_cell fill_cell) by assumption.
  rewrite update_at_twice by (rewrite !length_update_at; assumption).
  rewrite (update_at_twice pm) by assumption.
  unfold update_at. rewrite !restore_fill. reflexivity.
Qed.

Lemma restore_exploded_row (pm pt n i : nat) (row : list cell) (m t : string) :
  length row = n -> pm < n -> pt < n ->
  update_at (n + 2) restore_cell
    (update_at pt restore_cell
       (update_at (n + 1) restore_cell
          (update_at pm restore_cell
             (row ++ [Int (Z.of_nat i); Str m; Str t]))))
  = update_at pt restore_cell (update_at pm restore_cell row)
    ++ [Int (Z.of_nat i); restore_cell (Str m); restore_cell (Str t)].
Proof.
  intros Hlen Hpm Hpt.
  rewrite update_at_app_l by lia.
  rewrite (update_at_app_r 1 _ _ _ n) by (rewrite length_update_at; assumption).
  rewrite update_at_app_l by (rewrite length_update_at; lia).
  rewrite (update_at_app_r 2 _ _ _ n) by (rewrite !length_update_at; assumption).
  reflexivity.
Qed.

Lemma restore_keyed_row (front : list cell) (pm pt n i : nat) (row : list cell)
    (m t : string) :
  length row = n -> pm < n -> pt < n ->
  update_at (length front + (n + 2)) restore_cell
    (update_at (length front + pt) restore_cell
       (update_at (length front + (n + 1)) restore_cell
          (update_at (length front + pm) restore_cell
             (front ++ row ++ [Int (Z.of_nat i); Str m; Str t]))))
  = front ++ update_at pt restore_cell (update_at pm restore_cell row)
      ++ [Int (Z.of_nat i); restore_cell (Str m); restore_cell (Str t)].
Proof.
  intros Hlen Hpm Hpt.
  rewrite !(update_at_app_r _ _ front _ (length front) eq_refl).
  f_equal. apply restore_exploded_row; assumption.
Qed.

(** The long table as written: its labels are [long_labels] of those of the
    combined table, and its rows are the [long_rows] of the rows of the
    combined table, in order, each behind its key cell when the first merge
    put one in front. *)
Lemma long_combined_df_Ok (combined long : DataFrame) :
  rectangular combined ->
  long_combined_df combined = Ok long ->
  exists pm pt filled merged,
    index_of "moa" (columns combined) = Some pm /\
    index_of "target" (columns combined) = Some pt /\
    pm <> pt /\
    ("moa_unique" ∉ columns combined) /\
    ("target_unique" ∉ columns combined) /\
    filled_df combined = Ok filled /\
    long_merged_df filled = Ok merged /\
    restored_df merged = Ok long /\
    filled = mkFrame (columns combined)
               ((fun row => update_at pt fill_cell (update_at pm fill_cell row))
                  <$> data combined) /\
    Forall (fun row => (exists s, key_at pm row = Str s) /\
                       (exists s, key_at pt row = Str s)) (data filled) /\
    merged = mkFrame
               (long_labels (columns combined))
               (mjoin (imap (fun i row =>
                               (fun r => key_cells (columns combined) i ++ r)
                                 <$> exploded i row (pieces_of (key_at pm row))
                                                    (pieces_of (key_at pt row)))
                            (data filled))) /\
    long = mkFrame
             (long_labels (columns combined))
             (mjoin (imap (fun i row =>
                             (fun r => key_cells (columns combined) i ++ r)
                               <$> long_rows pm pt i row)
                          (data combined))).
Proof.
  intros Hrect H. unfold long_combined_df in H.
  ok_step H. rename a into filled, Ha into Hfilled.
  ok_step H. rename a into merged, Ha into Hmerged, H into Hlong.
  destruct (filled_df_Ok _ _ Hfilled) as (pm & pt & Hpm & Hpt & Hne & Hf).
  assert (Hrectf : rectangular filled).
  { rewrite Hf. destruct combined as [cols rows]. apply rectangular_fmap; [| exact Hrect].
    intros row. rewrite !length_update_at. reflexivity. }
  destruct (long_merged_df_Ok _ _ Hrectf Hmerged)
    as (pm' & pt' & Hpm' & Hpt' & Hstrm & Hstrt & Hm).
  assert (Hcols : columns filled = columns combined) by (rewrite Hf; reflexivity).
  rewrite Hcols in Hpm', Hpt', Hm.
  assert (pm' = pm) by congruence. assert (pt' = pt) by congruence. subst pm' pt'.
  destruct (restored_df_Ok _ _ Hlong) as (p1 & p2 & p3 & p4 & Hp1 & Hp2 & Hp3 & Hp4 & Hl).
  assert (Hmcols : columns merged
                   = merged_columns
                       (key_labels (columns combined)
                          ++ merged_columns (columns combined)
                               [split_col_index; "moa_unique"])
                       ["target_unique"]) by (rewrite Hm; reflexivity).
  rewrite Hmcols in Hp2, Hp4.
  destruct (long_labels_fresh _ _ _ Hp2 Hp4) as (Hmu & Htu & Hlabels).
  rewrite Hlabels in Hm, Hmcols, Hp2, Hp4. rewrite Hmcols in Hp1, Hp3, Hl.
  pose proof (index_of_lt _ _ _ Hpm) as Hpmn.
  pose proof (index_of_lt _ _ _ Hpt) as Hptn.
  rewrite (index_of_long_base "moa" _ pm) in Hp1 by (discriminate || assumption).
  rewrite (index_of_long_base "target" _ pt) in Hp3 by (discriminate || assumption).
  rewrite index_of_long_moa_unique in Hp2 by assumption.
  rewrite index_of_long_target_unique in Hp4 by assumption.
  inversion Hp1; inversion Hp2; inversion Hp3; inversion Hp4; subst p1 p2 p3 p4.
  exists pm, pt, filled, merged. repeat (split; [assumption |]).
  split; [rewrite Forall_forall in *; intros row Hrow; split; auto |].
  split; [assumption |].
  rewrite Hl. f_equal. rewrite Hm. cbn [data]. rewrite Hf. cbn [data].
  rewrite fmap_join, fmap_imap, imap_fmap. f_equal.
  apply imap_ext. intros i row Hrow. cbn [compose].
  assert (Hlen : length row = length (columns combined)).
  { unfold rectangular in Hrect. rewrite Forall_forall in Hrect. apply Hrect.
    eapply list_elem_of_lookup_2. eassumption. }
  rewrite key_at_update_at_ne by auto.
  rewrite key_at_update_at by lia.
  rewrite key_at_update_at by (rewrite length_update_at; lia).
  rewrite key_at_update_at_ne by auto.
  unfold exploded, long_rows. rewrite <- list_fmap_compose, !fmap_bind.
  apply bind_ext_elem. intros m _. rewrite !fmap_bind.
  apply bind_ext_elem. intros t _. rewrite !fmap_cons, !fmap_nil. f_equal.
  cbn [compose]. rewrite <- (length_key_cells (columns combined) i).
  rewrite restore_keyed_row by (rewrite ?length_update_at; lia).
  rewrite restore_fill_row by lia. reflexivity.
Qed.

(** ** Reading the rows of the long table *)

Section LongRows.

Variables (cols : list string) (long : DataFrame).
Hypothesis Hcols : columns long = long_labels cols.
Hypothesis Hmu : "moa_unique" ∉ cols.
Hypothesis Htu : "target_unique" ∉ cols.

Lemma field_long_index (i : nat) (base : list cell) (b c : cell) :
  length base = length cols ->
  field long split_col_index (key_cells cols i ++ base ++ [Int (Z.of_nat i); b; c])
  = Int (Z.of_nat i).
Proof using Hcols.
  intros Hlen. unfold field. rewrite Hcols, index_of_long_index.
  unfold key_cells. case_bool_decide; [reflexivity |]. cbn [app].
  rewrite <- (Nat.add_0_r (length cols)). apply key_at_app_r. assumption.
Qed.

Lemma field_long_moa_unique (i : nat) (base : list cell) (a b c : cell) :
  length base = length cols ->
  field long "moa_unique" (key_cells cols i ++ base ++ [a; b; c]) = b.
Proof using Hcols Hmu.
  intros Hlen. unfold field. rewrite Hcols, (index_of_long_moa_unique _ Hmu).
  rewrite (key_at_app_r _ _ _ _ (length_key_cells cols i)).
  rewrite (key_at_app_r base _ (length cols) 1 Hlen). reflexivity.
Qed.

Lemma field_long_target_unique (i : nat) (base : list cell) (a b c : cell) :
  length base = length cols ->
  field long "target_unique" (key_cells cols i ++ base ++ [a; b; c]) = c.
Proof using Hcols Htu.
  intros Hlen. unfold field. rewrite Hcols, (index_of_long_target_unique _ Htu).
  rewrite (key_at_app_r _ _ _ _ (length_key_cells cols i)).
  rewrite (key_at_app_r base _ (length cols) 2 Hlen). reflexivity.
Qed.

Lemma field_long_base (label : string) (p i : nat) (base extra : list cell) :
  label <> split_col_index -> label <> split_col_index +:+ "_x" ->
  index_of label cols = Some p ->
  length base = length cols ->
  field long label (key_cells cols i ++ base ++ extra) = key_at p base.
Proof using Hcols.
  intros H1 H2 Hp Hlen. unfold field.
  rewrite Hcols, (index_of_long_base _ _ _ H1 H2 Hp).
  rewrite (key_at_app_r _ _ _ _ (length_key_cells cols i)).
  apply key_at_app_l. rewrite Hlen. eapply index_of_lt. eassumption.
Qed.

(** Without a column [repurposing_info_index] in the combined table there
    is no key cell in front, and every label of the combined table is
    found where it was. *)
Lemma field_long_plain (label : string) (p i : nat) (base extra : list cell) :
  split_col_index ∉ cols ->
  index_of label cols = Some p ->
  length base = length cols ->
  field long label (key_cells cols i ++ base ++ extra) = key_at p base.
Proof using Hcols.
  intros Hidx Hp Hlen. unfold field.
  rewrite Hcols, (index_of_long_plain _ _ _ Hidx Hp).
  unfold key_cells. rewrite bool_decide_eq_false_2 by assumption. cbn [app].
  apply key_at_app_l. rewrite Hlen. eapply index_of_lt. eassumption.
Qed.

End LongRows.

Lemma elem_of_exploded (r : list cell) (i : nat) (row : list cell)
    (moas targets : list string) :
  r ∈ exploded i row moas targets <->
  exists m t, m ∈ moas /\ t ∈ targets /\ r = row ++ [Int (Z.of_nat i); Str m; Str t].
Proof.
  unfold exploded. rewrite list_elem_of_bind. split.
  - intros (m & Hr & Hm). apply list_elem_of_bind in Hr.
    destruct Hr as (t & Hr & Ht). apply list_elem_of_singleton in Hr. eauto.
  - intros (m & t & Hm & Ht & ->). exists m. split; [| assumption].
    apply list_elem_of_bind. exists t. split; [| assumption].
    apply list_elem_of_singleton. reflexivity.
Qed.

Lemma elem_of_long_rows (r : list cell) (pm pt i : nat) (row : list cell) :
  r ∈ long_rows pm pt i row <->
  exists m t,
    m ∈ pieces_of (fill_cell (key_at pm row)) /\
    t ∈ pieces_of (fill_cell (key_at pt row)) /\
    r = update_at pt restore_cell (update_at pm restore_cell row)
        ++ [Int (Z.of_nat i); restore_cell (Str m); restore_cell (Str t)].
Proof.
  unfold long_rows. rewrite list_elem_of_bind. split.
  - intros (m & Hr & Hm). apply list_elem_of_bind in Hr.
    destruct Hr as (t & Hr & Ht). apply list_elem_of_singleton in Hr. eauto.
  - intros (m & t & Hm & Ht & ->). exists m. split; [| assumption].
    apply list_elem_of_bind. exists t. split; [| assumption].
    apply list_elem_of_singleton. reflexivity.
Qed.

(** Selecting, from a list of blocks in which every row of block [j] carries
    the label [j], the rows labelled [i]. *)
Lemma filter_by_label (label : list cell -> cell) (blocks : list (list (list cell)))
    (i : nat) :
  (forall j b r, blocks !! j = Some b -> r ∈ b -> label r = Int (Z.of_nat j)) ->
  filter (fun r => label r = Int (Z.of_nat i)) (mjoin blocks)
  = default [] (blocks !! i).
Proof.
  intros Hlabel.
  assert (Hothers : forall j b', blocks !! j = Some b' -> j <> i ->
                      Forall (fun r => label r <> Int (Z.of_nat i)) b').
  { intros j b' Hj Hne. apply Forall_forall. intros r Hr.
    rewrite (Hlabel j b' r Hj Hr). intros [= H]. apply Hne. lia. }
  destruct (blocks !! i) as [b|] eqn:Hi.
  - eapply filter_block; [exact Hi | | exact Hothers].
    apply Forall_forall. intros r Hr. eapply Hlabel; eassumption.
  - apply filter_no_block, Forall_forall. intros b' Hb'.
    apply list_elem_of_lookup in Hb'. destruct Hb' as [j Hj].
    apply (Hothers j b' Hj). intros ->. congruence.
Qed.

Lemma rectangular_lookup (df : DataFrame) (i : nat) (row : list cell) :
  rectangular df -> data df !! i = Some row -> length row = length (columns df).
Proof.
  unfold rectangular. rewrite Forall_forall. intros H Hrow. apply H.
  eapply list_elem_of_lookup_2. eassumption.
Qed.

(** C4. For every row of the combined table the long table has one row
    for each piece of its [moa] and each piece of its [target], the pieces
    being what the field (a missing one filled with the placeholder) falls
    into when it is cut at every "|".  The rows that carry the label of the
    row hold, in [moa_unique] and [target_unique], exactly the pairs of a
    [moa] piece and a [target] piece, each pair once and pair after pair:
    so at line 160, and so in the written table, where a piece that is the
    placeholder is shown as missing. *)
Theorem long_table_has_one_row_per_pair (combined long : DataFrame) :
  rectangular combined ->
  long_combined_df combined = Ok long ->
  exists filled merged,
    filled_df combined = Ok filled /\
    long_merged_df filled = Ok merged /\
    restored_df merged = Ok long /\
    forall i row,
      data combined !! i = Some row ->
      exists moa target moas targets,
        Str moa = fill_cell (field combined "moa" row) /\
        Str target = fill_cell (field combined "target" row) /\
        cut_at "|" moa moas /\
        cut_at "|" target targets /\
        (fun r => (field merged "moa_unique" r, field merged "target_unique" r))
          <$> filter (fun r => field merged split_col_index r = Int (Z.of_nat i))
                (data merged)
        = (m ← moas; t ← targets; [(Str m, Str t)]) /\
        (fun r => (field long "moa_unique" r, field long "target_unique" r))
          <$> filter (fun r => field long split_col_index r = Int (Z.of_nat i)) (data long)
        = (m ← moas; t ← targets; [(restore_cell (Str m), restore_cell (Str t))]).
Proof.
  intros Hrect H.
  destruct (long_combined_df_Ok _ _ Hrect H)
    as (pm & pt & filled & merged & Hpm & Hpt & Hne & Hmu & Htu
        & Hf & Hm & Hl & Hfilled & Hstr & Hmerged & Hlong).
  exists filled, merged. repeat (split; [assumption |]).
  intros i row Hrow.
  set (frow := update_at pt fill_cell (update_at pm fill_cell row)).
  assert (Hfrow : data filled !! i = Some frow).
  { rewrite Hfilled. cbn [data]. rewrite list_lookup_fmap, Hrow. reflexivity. }
  pose proof (rectangular_lookup _ _ _ Hrect Hrow) as Hlen.
  pose proof (index_of_lt _ _ _ Hpm) as Hpmn.
  pose proof (index_of_lt _ _ _ Hpt) as Hptn.
  assert (Hkm : key_at pm frow = fill_cell (key_at pm row)).
  { unfold frow. rewrite key_at_update_at_ne by auto.
    apply key_at_update_at. lia. }
  assert (Hkt : key_at pt frow = fill_cell (key_at pt row)).
  { unfold frow. rewrite key_at_update_at by (rewrite length_update_at; lia).
    rewrite key_at_update_at_ne by auto. reflexivity. }
  rewrite Forall_forall in Hstr.
  destruct (Hstr frow) as [[moa Hmoa] [target Htarget]];
    [eapply list_elem_of_lookup_2; eassumption |].
  exists moa, target, (split "|" moa), (split "|" target).
  split; [unfold field; rewrite Hpm; congruence |].
  split; [unfold field; rewrite Hpt; congruence |].
  split; [apply split_cut_at |]. split; [apply split_cut_at |].
  assert (Hcm : columns merged = long_labels (columns combined))
    by (rewrite Hmerged; reflexivity).
  assert (Hcl : columns long = long_labels (columns combined))
    by (rewrite Hlong; reflexivity).
  assert (Hrows : forall j row', data combined !! j = Some row' ->
                    length (update_at pt fill_cell (update_at pm fill_cell row'))
                    = length (columns combined)).
  { intros j row' Hj. rewrite !length_update_at. eapply rectangular_lookup; eassumption. }
  split.
  - pose proof (f_equal data Hmerged) as Hdm. cbn [data] in Hdm.
    rewrite Hdm, filter_by_label.
    + rewrite list_lookup_imap, Hfrow. cbn [fmap option_fmap option_map].
      change (default [] (Some ?x)) with x. rewrite Hmoa, Htarget. cbn [pieces_of].
      rewrite <- list_fmap_compose. unfold exploded.
      rewrite fmap_bind. apply bind_ext_elem. intros m _.
      rewrite fmap_bind. apply bind_ext_elem. intros t _.
      rewrite fmap_cons, fmap_nil. cbn [compose]. f_equal. f_equal.
      * apply (field_long_moa_unique (columns combined) merged Hcm Hmu).
        apply (Hrows i row Hrow).
      * apply (field_long_target_unique (columns combined) merged Hcm Htu).
        apply (Hrows i row Hrow).
    + intros j b r Hb Hr. rewrite list_lookup_imap in Hb.
      destruct (data filled !! j) as [frow'|] eqn:Hj; [| discriminate].
      inversion Hb; subst b. apply list_elem_of_fmap in Hr.
      destruct Hr as (r' & -> & Hr'). apply elem_of_exploded in Hr'.
      destruct Hr' as (m & t & _ & _ & ->).
      apply (field_long_index (columns combined) merged Hcm).
      rewrite Hfilled in Hj. cbn [data] in Hj. rewrite list_lookup_fmap in Hj.
      destruct (data combined !! j) as [row'|] eqn:Hj'; [| discriminate].
      inversion Hj. apply (Hrows j row' Hj').
  - pose proof (f_equal data Hlong) as Hdl. cbn [data] in Hdl.
    rewrite Hdl, filter_by_label.
    + rewrite list_lookup_imap, Hrow. cbn [fmap option_fmap option_map].
      change (default [] (Some ?x)) with x.
      rewrite <- list_fmap_compose.
      unfold long_rows. rewrite <- Hkm, <- Hkt, Hmoa, Htarget. cbn [pieces_of].
      rewrite fmap_bind. apply bind_ext_elem. intros m _.
      rewrite fmap_bind. apply bind_ext_elem. intros t _.
      rewrite fmap_cons, fmap_nil. cbn [compose]. f_equal. f_equal.
      * apply (field_long_moa_unique (columns combined) long Hcl Hmu).
        rewrite !length_update_at. assumption.
      * apply (field_long_target_unique (columns combined) long Hcl Htu).
        rewrite !length_update_at. assumption.
    + intros j b r Hb Hr. rewrite list_lookup_imap in Hb.
      destruct (data combined !! j) as [row'|] eqn:Hj; [| discriminate].
      inversion Hb; subst b. apply list_elem_of_fmap in Hr.
      destruct Hr as (r' & -> & Hr'). apply elem_of_long_rows in Hr'.
      destruct Hr' as (m & t & _ & _ & ->).
      apply (field_long_index (columns combined) long Hcl).
      rewrite !length_update_at. eapply rectangular_lookup; eassumption.
Qed.

Lemma key_at_two_updates (p pm pt : nat) (f : cell -> cell) (row : list cell) :
  pm <> pt -> pm < length row -> pt < length row ->
  key_at p (update_at pt f (update_at pm f row))
  = if decide (p = pm \/ p = pt) then f (key_at p row) else key_at p row.
Proof.
  intros Hne Hpm Hpt. destruct (decide (p = pt)) as [->|Hpt'].
  - rewrite decide_True by auto.
    rewrite key_at_update_at by (rewrite length_update_at; assumption).
    rewrite key_at_update_at_ne by assumption. reflexivity.
  - rewrite key_at_update_at_ne by auto. destruct (decide (p = pm)) as [->|Hpm'].
    + rewrite decide_True by auto. apply key_at_update_at. assumption.
    + rewrite decide_False by tauto. apply key_at_update_at_ne. auto.
Qed.

Lemma same_position_same_label (c1 c2 : string) (cols : list string) (p : nat) :
  index_of c1 cols = Some p -> index_of c2 cols = Some p -> c1 = c2.
Proof.
  intros H1 H2. apply index_of_Some in H1, H2. congruence.
Qed.

Lemma long_labels_plain (cols : list string) :
  split_col_index ∉ cols ->
  long_labels cols = cols ++ [split_col_index; "moa_unique"; "target_unique"].
Proof.
  intros Hidx. unfold long_labels, key_labels, key_tag.
  rewrite bool_decide_eq_false_2 by assumption.
  rewrite renamed_fresh by assumption. reflexivity.
Qed.

(** The rows of the long table at line 160, read off the filled table. *)
Lemma merged_rows_inv (cols : list string) (filled merged : DataFrame) (pm pt : nat)
    (r : list cell) :
  data merged
  = mjoin (imap (fun i row =>
                   (fun r => key_cells cols i ++ r)
                     <$> exploded i row (pieces_of (key_at pm row))
                                        (pieces_of (key_at pt row)))
                (data filled)) ->
  r ∈ data merged <->
  exists i frow m t,
    data filled !! i = Some frow /\
    m ∈ pieces_of (key_at pm frow) /\ t ∈ pieces_of (key_at pt frow) /\
    r = key_cells cols i ++ frow ++ [Int (Z.of_nat i); Str m; Str t].
Proof.
  intros ->. rewrite list_elem_of_join. split.
  - intros (b & Hr & Hb). apply elem_of_lookup_imap in Hb.
    destruct Hb as (i & frow & -> & Hfrow). apply list_elem_of_fmap in Hr.
    destruct Hr as (r' & -> & Hr'). apply elem_of_exploded in Hr'.
    destruct Hr' as (m & t & Hm & Ht & ->). eauto 10.
  - intros (i & frow & m & t & Hfrow & Hm & Ht & ->).
    exists ((fun r => key_cells cols i ++ r)
              <$> exploded i frow (pieces_of (key_at pm frow))
                                  (pieces_of (key_at pt frow))).
    split.
    + apply list_elem_of_fmap. eexists. split; [reflexivity |].
      apply elem_of_exploded. eauto.
    + apply (elem_of_lookup_imap_2
               (fun i row => (fun r => key_cells cols i ++ r)
                               <$> exploded i row (pieces_of (key_at pm row))
                                                  (pieces_of (key_at pt row)))).
      exact Hfrow.
Qed.

(** The rows of the written long table, read off the combined table. *)
Lemma long_rows_inv (combined long : DataFrame) (pm pt : nat) (r : list cell) :
  data long
  = mjoin (imap (fun i row =>
                   (fun r => key_cells (columns combined) i ++ r)
                     <$> long_rows pm pt i row)
                (data combined)) ->
  r ∈ data long <->
  exists i row m t,
    data combined !! i = Some row /\
    m ∈ pieces_of (fill_cell (key_at pm row)) /\
    t ∈ pieces_of (fill_cell (key_at pt row)) /\
    r = key_cells (columns combined) i
        ++ update_at pt restore_cell (update_at pm restore_cell row)
        ++ [Int (Z.of_nat i); restore_cell (Str m); restore_cell (Str t)].
Proof.
  intros ->. rewrite list_elem_of_join. split.
  - intros (b & Hr & Hb). apply elem_of_lookup_imap in Hb.
    destruct Hb as (i & row & -> & Hrow). apply list_elem_of_fmap in Hr.
    destruct Hr as (r' & -> & Hr'). apply elem_of_long_rows in Hr'.
    destruct Hr' as (m & t & Hm & Ht & ->). eauto 10.
  - intros (i & row & m & t & Hrow & Hm & Ht & ->).
    exists ((fun r => key_cells (columns combined) i ++ r) <$> long_rows pm pt i row).
    split.
    + apply list_elem_of_fmap. eexists. split; [reflexivity |].
      apply elem_of_long_rows. eauto.
    + apply (elem_of_lookup_imap_2
               (fun i row => (fun r => key_cells (columns combined) i ++ r)
                               <$> long_rows pm pt i row)).
      exact Hrow.
Qed.

(** A combined table with a column [repurposing_info_index] of its own,
    holding a batch number: the long table does not start with the labels
    of the combined table, and the long row that comes from row 0 has the
    row label under [repurposing_info_index] where row 0 has "batch-7". *)
Lemma own_key_column_is_overwritten :
  long_combined_df Keyed.keyed_combined = Ok Keyed.keyed_long /\
  "repurposing_info_index" ∈ columns Keyed.keyed_combined /\
  columns Keyed.keyed_long
    <> columns Keyed.keyed_combined
         ++ [split_col_index; "moa_unique"; "target_unique"] /\
  columns Keyed.keyed_long !! 0 = Some "repurposing_info_index" /\
  columns Keyed.keyed_combined !! 0 = Some "broad_id" /\
  field Keyed.keyed_combined "repurposing_info_index"
    <$> data Keyed.keyed_combined !! 0 = Some (Str "batch-7") /\
  field Keyed.keyed_long split_col_index <$> data Keyed.keyed_long !! 0 = Some (Int 0) /\
  field Keyed.keyed_long "repurposing_info_index"
    <$> data Keyed.keyed_long !! 0 = Some (Int 0).
Proof.
  split; [vm_compute; reflexivity |].
  split; [apply (bool_decide_unpack
                   ("repurposing_info_index" ∈ columns Keyed.keyed_combined));
          vm_compute; exact I |].
  split; [vm_compute; discriminate |].
  repeat split; vm_compute; reflexivity.
Qed.

(** C8, as the script has it.  When the combined table has no column
    [repurposing_info_index] of its own, the long table has the columns of
    the combined table followed
    by [repurposing_info_index], [moa_unique] and [target_unique].  At line
    160 every row of it carries the label of a row of the combined table
    (as lines 104-105 left it) and agrees with that row on every column of
    the combined table.  In the written table the same holds once the null
    restoration is applied to the [moa] and [target] cells of that row; the
    restoration does not touch the other columns. *)
Theorem long_rows_agree_with_combined (combined long : DataFrame) :
  rectangular combined ->
  split_col_index ∉ columns combined ->
  long_combined_df combined = Ok long ->
  exists filled merged,
    filled_df combined = Ok filled /\
    long_merged_df filled = Ok merged /\
    restored_df merged = Ok long /\
    columns merged
      = columns combined ++ [split_col_index; "moa_unique"; "target_unique"] /\
    columns long
      = columns combined ++ [split_col_index; "moa_unique"; "target_unique"] /\
    (forall r, r ∈ data merged ->
       exists i frow,
         field merged split_col_index r = Int (Z.of_nat i) /\
         data filled !! i = Some frow /\
         forall c, c ∈ columns combined -> field merged c r = field filled c frow) /\
    (forall r, r ∈ data long ->
       exists i frow row,
         field long split_col_index r = Int (Z.of_nat i) /\
         data filled !! i = Some frow /\
         data combined !! i = Some row /\
         forall c, c ∈ columns combined ->
           (c = "moa" \/ c = "target" ->
              field long c r = restore_cell (field filled c frow) /\
              field long c r = restore_cell (field combined c row)) /\
           (c <> "moa" -> c <> "target" ->
              field long c r = field filled c frow /\
              field long c r = field combined c row)).
Proof.
  intros Hrect Hidx H.
  destruct (long_combined_df_Ok _ _ Hrect H)
    as (pm & pt & filled & merged & Hpm & Hpt & Hne & Hmu & Htu
        & Hf & Hm & Hl & Hfilled & Hstr & Hmerged & Hlong).
  exists filled, merged. repeat (split; [assumption |]).
  assert (Hcm : columns merged = long_labels (columns combined))
    by (rewrite Hmerged; reflexivity).
  assert (Hcl : columns long = long_labels (columns combined))
    by (rewrite Hlong; reflexivity).
  assert (Hcf : columns filled = columns combined) by (rewrite Hfilled; reflexivity).
  pose proof (index_of_lt _ _ _ Hpm) as Hpmn.
  pose proof (index_of_lt _ _ _ Hpt) as Hptn.
  split; [rewrite Hcm; apply long_labels_plain; assumption |].
  split; [rewrite Hcl; apply long_labels_plain; assumption |].
  assert (Hfrows : forall i frow, data filled !! i = Some frow ->
            exists row, data combined !! i = Some row /\
              frow = update_at pt fill_cell (update_at pm fill_cell row) /\
              length row = length (columns combined)).
  { intros i frow Hfrow. rewrite Hfilled in Hfrow. cbn [data] in Hfrow.
    rewrite list_lookup_fmap in Hfrow.
    destruct (data combined !! i) as [row|] eqn:Hrow; [| discriminate].
    inversion Hfrow. exists row. split; [reflexivity |]. split; [reflexivity |].
    eapply rectangular_lookup; eassumption. }
  split.
  - intros r Hr.
    apply (merged_rows_inv (columns combined) filled merged pm pt) in Hr;
      [| rewrite Hmerged; reflexivity].
    destruct Hr as (i & frow & m & t & Hfrow & _ & _ & ->).
    destruct (Hfrows i frow Hfrow) as (row & Hrow & Hfr & Hlen).
    assert (Hlenf : length frow = length (columns combined))
      by (rewrite Hfr, !length_update_at; assumption).
    exists i, frow. split; [apply (field_long_index _ _ Hcm); assumption |].
    split; [assumption |]. intros c Hc.
    destruct (index_of_elem c _ Hc) as [p Hp].
    rewrite (field_long_plain _ _ Hcm c p) by assumption.
    unfold field. rewrite Hcf, Hp. reflexivity.
  - intros r Hr.
    apply (long_rows_inv combined long pm pt) in Hr; [| rewrite Hlong; reflexivity].
    destruct Hr as (i & row & m & t & Hrow & _ & _ & ->).
    pose proof (rectangular_lookup _ _ _ Hrect Hrow) as Hlen.
    set (frow := update_at pt fill_cell (update_at pm fill_cell row)).
    exists i, frow, row.
    split; [apply (field_long_index _ _ Hcl); rewrite !length_update_at; assumption |].
    split; [rewrite Hfilled; cbn [data]; rewrite list_lookup_fmap, Hrow; reflexivity |].
    split; [assumption |]. intros c Hc.
    destruct (index_of_elem c _ Hc) as [p Hp].
    rewrite (field_long_plain _ _ Hcl c p) by (rewrite ?length_update_at; assumption).
    unfold field. rewrite Hcf, Hp. unfold frow.
    rewrite !key_at_two_updates by lia. split.
    + intros Hc'.
      assert (Hp' : p = pm \/ p = pt)
        by (destruct Hc' as [-> | ->]; [left | right]; congruence).
      rewrite !(decide_True (P := p = pm \/ p = pt)) by assumption.
      rewrite restore_fill. auto.
    + intros Hc1 Hc2.
      assert (Hp' : ~ (p = pm \/ p = pt)).
      { intros [-> | ->]; [apply Hc1 | apply Hc2];
          eapply same_position_same_label; eassumption. }
      rewrite !(decide_False (P := p = pm \/ p = pt)) by assumption. auto.
Qed.

(** ** The placeholder, filled in and taken out again *)

(** A row of the written long table that carries label [i] comes from row
    [i] of the combined table. *)
Lemma long_row_of_label (combined long : DataFrame) (pm pt i : nat)
    (row r : list cell) :
  rectangular combined ->
  columns long = long_labels (columns combined) ->
  data long
  = mjoin (imap (fun i row =>
                   (fun r => key_cells (columns combined) i ++ r)
                     <$> long_rows pm pt i row)
                (data combined)) ->
  data combined !! i = Some row ->
  r ∈ data long ->
  field long split_col_index r = Int (Z.of_nat i) ->
  exists m t,
    m ∈ pieces_of (fill_cell (key_at pm row)) /\
    t ∈ pieces_of (fill_cell (key_at pt row)) /\
    r = key_cells (columns combined) i
        ++ update_at pt restore_cell (update_at pm restore_cell row)
        ++ [Int (Z.of_nat i); restore_cell (Str m); restore_cell (Str t)].
Proof.
  intros Hrect Hcl Hdl Hrow Hr Hlabel.
  apply (long_rows_inv combined long pm pt _ Hdl) in Hr.
  destruct Hr as (j & row' & m & t & Hrow' & Hm & Ht & ->).
  rewrite (field_long_index _ _ Hcl) in Hlabel
    by (rewrite !length_update_at; eapply rectangular_lookup; eassumption).
  inversion Hlabel as [Hij]. apply Nat2Z.inj in Hij. subst j.
  assert (row' = row) by congruence. subst row'. eauto.
Qed.

Lemma pieces_of_placeholder : pieces_of (Str placeholder) = [placeholder].
Proof. reflexivity. Qed.

Lemma restore_cell_other (s : string) : s <> placeholder -> restore_cell (Str s) = Str s.
Proof. intros H. unfold restore_cell. rewrite decide_False; congruence. Qed.

(** A compound whose [moa] is the text "replace_with_na" itself: the value
    is present in the combined table, still there at line 160, and missing
    in the written long table. *)
Lemma placeholder_text_is_taken_out :
  long_combined_df Collision.clash_combined = Ok Collision.clash_long /\
  restored_df Collision.clash_long_merged = Ok Collision.clash_long /\
  field Collision.clash_combined "moa" <$> data Collision.clash_combined !! 0
    = Some (Str "replace_with_na") /\
  field Collision.clash_long_merged "moa" <$> data Collision.clash_long_merged !! 0
    = Some (Str "replace_with_na") /\
  field Collision.clash_long split_col_index <$> data Collision.clash_long !! 0 = Some (Int 0) /\
  field Collision.clash_long "moa" <$> data Collision.clash_long !! 0 = Some NaN /\
  field Collision.clash_long "moa_unique" <$> data Collision.clash_long !! 0 = Some NaN.
Proof. repeat split; vm_compute; reflexivity. Qed.

(** C6, as the script has it.  A [moa] (or [target]) that is missing in
    the combined table is missing again in every long row of that compound,
    in [moa] and in [moa_unique] (in [target] and in [target_unique]).  A
    value that is present and is not the placeholder text itself is kept
    in [moa] ([target]), and each of its pieces is kept in [moa_unique]
    ([target_unique]) unless the piece is the placeholder text. *)
Theorem placeholder_round_trip (combined long : DataFrame) :
  rectangular combined ->
  long_combined_df combined = Ok long ->
  forall i row,
    data combined !! i = Some row ->
    (exists r, r ∈ data long /\ field long split_col_index r = Int (Z.of_nat i)) /\
    forall r,
      r ∈ data long -> field long split_col_index r = Int (Z.of_nat i) ->
      (field combined "moa" row = NaN ->
         field long "moa" r = NaN /\ field long "moa_unique" r = NaN) /\
      (field combined "target" row = NaN ->
         field long "target" r = NaN /\ field long "target_unique" r = NaN) /\
      (forall s, field combined "moa" row = Str s -> s <> placeholder ->
         field long "moa" r = Str s /\
         exists m, m ∈ split "|" s /\
           field long "moa_unique" r = restore_cell (Str m) /\
           (m <> placeholder -> field long "moa_unique" r = Str m)) /\
      (forall s, field combined "target" row = Str s -> s <> placeholder ->
         field long "target" r = Str s /\
         exists t, t ∈ split "|" s /\
           field long "target_unique" r = restore_cell (Str t) /\
           (t <> placeholder -> field long "target_unique" r = Str t)).
Proof.
  intros Hrect H i row Hrow.
  destruct (long_combined_df_Ok _ _ Hrect H)
    as (pm & pt & filled & merged & Hpm & Hpt & Hne & Hmu & Htu
        & Hf & Hm & Hl & Hfilled & Hstr & Hmerged & Hlong).
  assert (Hcl : columns long = long_labels (columns combined))
    by (rewrite Hlong; reflexivity).
  assert (Hdl : data long
                = mjoin (imap (fun i row =>
                                 (fun r => key_cells (columns combined) i ++ r)
                                   <$> long_rows pm pt i row)
                              (data combined)))
    by (rewrite Hlong; reflexivity).
  pose proof (index_of_lt _ _ _ Hpm) as Hpmn.
  pose proof (index_of_lt _ _ _ Hpt) as Hptn.
  pose proof (rectangular_lookup _ _ _ Hrect Hrow) as Hlen.
  assert (Hbase : length (update_at pt restore_cell (update_at pm restore_cell row))
                  = length (columns combined))
    by (rewrite !length_update_at; assumption).
  assert (Hfm : field combined "moa" row = key_at pm row)
    by (unfold field; rewrite Hpm; reflexivity).
  assert (Hft : field combined "target" row = key_at pt row)
    by (unfold field; rewrite Hpt; reflexivity).
  split.
  - set (frow := update_at pt fill_cell (update_at pm fill_cell row)).
    assert (Hfrow : frow ∈ data filled).
    { rewrite Hfilled. cbn [data]. apply list_elem_of_fmap. exists row.
      split; [reflexivity |]. eapply list_elem_of_lookup_2. eassumption. }
    rewrite Forall_forall in Hstr. destruct (Hstr frow Hfrow) as [[sm Hsm] [st Hst]].
    unfold frow in Hsm, Hst.
    rewrite key_at_two_updates, decide_True in Hsm by (auto; lia).
    rewrite key_at_two_updates, decide_True in Hst by (auto; lia).
    destruct (split "|" sm) as [|m ms] eqn:Hms; [exfalso; eapply split_nonempty; eassumption |].
    destruct (split "|" st) as [|t ts] eqn:Hts; [exfalso; eapply split_nonempty; eassumption |].
    eexists. split.
    + apply (long_rows_inv combined long pm pt _ Hdl). exists i, row, m, t.
      split; [assumption |]. rewrite Hsm, Hst. cbn [pieces_of]. rewrite Hms, Hts.
      split; [left |]. split; [left | reflexivity].
    + apply (field_long_index _ _ Hcl). assumption.
  - intros r Hr Hlabel.
    destruct (long_row_of_label combined long pm pt i row r Hrect Hcl Hdl Hrow Hr Hlabel)
      as (m & t & Hmin & Htin & ->).
    rewrite (field_long_base _ _ Hcl "moa" pm) by (discriminate || assumption).
    rewrite (field_long_base _ _ Hcl "target" pt) by (discriminate || assumption).
    rewrite (field_long_moa_unique _ _ Hcl Hmu) by assumption.
    rewrite (field_long_target_unique _ _ Hcl Htu) by assumption.
    rewrite !key_at_two_updates by lia. rewrite !decide_True by auto.
    rewrite Hfm, Hft.
    split; [intros Hnan | split; [intros Hnan | split; [intros s Hs Hnot | intros s Hs Hnot]]].
    + rewrite Hnan in *. cbn [fill_cell] in Hmin. rewrite pieces_of_placeholder in Hmin.
      apply list_elem_of_singleton in Hmin. subst m. split; reflexivity.
    + rewrite Hnan in *. cbn [fill_cell] in Htin. rewrite pieces_of_placeholder in Htin.
      apply list_elem_of_singleton in Htin. subst t. split; reflexivity.
    + rewrite Hs in *. cbn [fill_cell pieces_of] in Hmin.
      split; [apply restore_cell_other; assumption |]. exists m.
      split; [assumption |]. split; [reflexivity |]. apply restore_cell_other.
    + rewrite Hs in *. cbn [fill_cell pieces_of] in Htin.
      split; [apply restore_cell_other; assumption |]. exists t.
      split; [assumption |]. split; [reflexivity |]. apply restore_cell_other.
Qed.

(** ** The null restoration of lines 163-170 *)

Lemma restored_df_fields (merged long : DataFrame) :
  restored_df merged = Ok long ->
  length (data long) = length (data merged) /\
  forall k r0 r c,
    data merged !! k = Some r0 -> data long !! k = Some r ->
    c ∈ ["moa"; "moa_unique"; "target"; "target_unique"] ->
    field long c r = restore_cell (field merged c r0).
Proof.
  intros H. destruct (restored_df_Ok _ _ H)
    as (p1 & p2 & p3 & p4 & Hp1 & Hp2 & Hp3 & Hp4 & ->).
  cbn [data columns]. split; [apply length_fmap |].
  intros k r0 r c Hr0 Hr Hc. rewrite list_lookup_fmap, Hr0 in Hr.
  inversion Hr; subst r; clear Hr.
  assert (Hd : p1 <> p2 /\ p1 <> p3 /\ p1 <> p4 /\ p2 <> p3 /\ p2 <> p4 /\ p3 <> p4).
  { repeat split; intros ->;
      match goal with
      | Ha : index_of ?a ?l = Some ?p, Hb : index_of ?b ?l = Some ?p |- _ =>
          assert (a = b) by (eapply same_position_same_label; eassumption);
          discriminate
      end. }
  destruct Hd as (H12 & H13 & H14 & H23 & H24 & H34).
  unfold field. cbn [columns].
  repeat (apply elem_of_cons in Hc; destruct Hc as [-> | Hc]);
    [| | | | apply elem_of_nil in Hc; contradiction].
  - rewrite Hp1. rewrite !key_at_update_at_ne by auto. apply key_at_restore.
  - rewrite Hp2. rewrite !(key_at_update_at_ne _ p2) by auto.
    rewrite key_at_restore. rewrite key_at_update_at_ne by auto. reflexivity.
  - rewrite Hp3. rewrite (key_at_update_at_ne p4 p3) by auto.
    rewrite key_at_restore. rewrite !key_at_update_at_ne by auto. reflexivity.
  - rewrite Hp4. rewrite key_at_restore. rewrite !key_at_update_at_ne by auto.
    reflexivity.
Qed.

(** C9. The restoration turns every cell of [moa], [moa_unique], [target]
    and [target_unique] that holds the text "replace_with_na" into a missing
    value and leaves every other cell of these columns as it is; that
    includes the cells of a compound whose [moa] (or [target]) was the text
    "replace_with_na" in the combined table itself, which end up missing in
    [moa] and [moa_unique] ([target] and [target_unique]). *)
Theorem restoration_takes_out_every_placeholder (combined long : DataFrame) :
  rectangular combined ->
  long_combined_df combined = Ok long ->
  exists filled merged,
    filled_df combined = Ok filled /\
    long_merged_df filled = Ok merged /\
    restored_df merged = Ok long /\
    length (data long) = length (data merged) /\
    (forall k r0 r c,
       data merged !! k = Some r0 -> data long !! k = Some r ->
       c ∈ ["moa"; "moa_unique"; "target"; "target_unique"] ->
       (field merged c r0 = Str "replace_with_na" -> field long c r = NaN) /\
       (field merged c r0 <> Str "replace_with_na" ->
          field long c r = field merged c r0)) /\
    (forall i row r,
       data combined !! i = Some row ->
       r ∈ data long -> field long split_col_index r = Int (Z.of_nat i) ->
       (field combined "moa" row = Str "replace_with_na" ->
          field long "moa" r = NaN /\ field long "moa_unique" r = NaN) /\
       (field combined "target" row = Str "replace_with_na" ->
          field long "target" r = NaN /\ field long "target_unique" r = NaN)).
Proof.
  intros Hrect H.
  destruct (long_combined_df_Ok _ _ Hrect H)
    as (pm & pt & filled & merged & Hpm & Hpt & Hne & Hmu & Htu
        & Hf & Hm & Hl & Hfilled & Hstr & Hmerged & Hlong).
  exists filled, merged. repeat (split; [assumption |]).
  destruct (restored_df_fields _ _ Hl) as [Hlen Hfields].
  split; [assumption |]. split.
  - intros k r0 r c Hr0 Hr Hc. rewrite (Hfields k r0 r c Hr0 Hr Hc).
    unfold restore_cell, placeholder. split.
    + intros ->. rewrite decide_True; reflexivity.
    + intros Hother. rewrite decide_False; [reflexivity | assumption].
  - intros i row r Hrow Hr Hlabel.
    assert (Hcl : columns long = long_labels (columns combined))
      by (rewrite Hlong; reflexivity).
    assert (Hdl : data long
                = mjoin (imap (fun i row =>
                                 (fun r => key_cells (columns combined) i ++ r)
                                   <$> long_rows pm pt i row)
                              (data combined)))
      by (rewrite Hlong; reflexivity).
    pose proof (index_of_lt _ _ _ Hpm) as Hpmn.
    pose proof (index_of_lt _ _ _ Hpt) as Hptn.
    pose proof (rectangular_lookup _ _ _ Hrect Hrow) as Hlenr.
    assert (Hbase : length (update_at pt restore_cell (update_at pm restore_cell row))
                    = length (columns combined))
      by (rewrite !length_update_at; assumption).
    destruct (long_row_of_label combined long pm pt i row r Hrect Hcl Hdl Hrow Hr Hlabel)
      as (m & t & Hmin & Htin & ->).
    rewrite (field_long_base _ _ Hcl "moa" pm) by (discriminate || assumption).
    rewrite (field_long_base _ _ Hcl "target" pt) by (discriminate || assumption).
    rewrite (field_long_moa_unique _ _ Hcl Hmu) by assumption.
    rewrite (field_long_target_unique _ _ Hcl Htu) by assumption.
    rewrite !key_at_two_updates by lia. rewrite !decide_True by auto.
    unfold field. rewrite Hpm, Hpt. split; intros Hcell; rewrite Hcell in *.
    + cbn [fill_cell] in Hmin. change (Str "replace_with_na") with (Str placeholder) in Hmin.
      rewrite pieces_of_placeholder in Hmin.
      apply list_elem_of_singleton in Hmin. subst m. split; reflexivity.
    + cbn [fill_cell] in Htin. change (Str "replace_with_na") with (Str placeholder) in Htin.
      rewrite pieces_of_placeholder in Htin.
      apply list_elem_of_singleton in Htin. subst t. split; reflexivity.
Qed.

(** ** The files of a run *)

(** A run that ends well has written the consolidated table and then the
    long table made from it. *)
Lemma script_Ok conv (drug_df sample_df : DataFrame) :
  snd (script conv drug_df sample_df) = Ok tt ->
  exists combined long,
    combined_df conv drug_df sample_df = Ok combined /\
    long_combined_df combined = Ok long /\
    fst (script conv drug_df sample_df)
    = [("repurposing_info.tsv", combined); ("repurposing_info_long.tsv", long)].
Proof.
  unfold script. intros H.
  destruct (combined_df conv drug_df sample_df) as [combined|e]; [| discriminate H].
  destruct (long_combined_df combined) as [long|e] eqn:Hlong; [| discriminate H].
  exists combined, long. split; [reflexivity |]. split; [exact Hlong | reflexivity].
Qed.

(** ** What the pipeline guarantees of its own tables *)

Lemma not_elem_of_delete_NoDup (x : string) (i : nat) (l : list string) :
  NoDup l -> l !! i = Some x -> x ∉ delete i l.
Proof.
  intros Hnd Hi Hin. apply list_elem_of_lookup in Hin. destruct Hin as [j Hj].
  rewrite list_lookup_delete in Hj. case_decide.
  - pose proof (NoDup_lookup _ _ _ _ Hnd Hj Hi). lia.
  - pose proof (NoDup_lookup _ _ _ _ Hnd Hj Hi). lia.
Qed.

(** [read_csv] renames repeated header names, so the tables it returns have
    pairwise distinct labels; two such tables that share no label but the
    key give a join with distinct labels. *)
Lemma joined_columns_NoDup (drug_df sample_df joined : DataFrame) :
  NoDup (columns drug_df) -> NoDup (columns sample_df) ->
  (forall c, c ∈ columns drug_df -> c ∈ columns sample_df -> c = "pert_iname") ->
  joined_df drug_df sample_df = Ok joined ->
  NoDup (columns joined).
Proof.
  intros Hd Hs Hshare H. unfold joined_df, merge_inner in H.
  ok_step H. ok_step H. rename a into lk, a0 into rk.
  inversion H; subst; clear H. cbn [columns].
  pose proof (index_of_Some _ _ _ Ha0) as Hrk.
  assert (Hdisj : forall c, c ∈ columns drug_df -> c ∉ delete rk (columns sample_df)).
  { intros c Hc Hin. pose proof (list_elem_of_delete_inv _ _ _ Hin) as Hin'.
    rewrite (Hshare c Hc Hin') in Hin.
    exact (not_elem_of_delete_NoDup _ _ _ Hs Hrk Hin). }
  rewrite (merged_columns_disjoint _ _ Hdisj). apply NoDup_app.
  split; [assumption |]. split; [assumption |].
  eapply sublist_NoDup; [exact Hs | apply sublist_delete].
Qed.

Lemma assign_rectangular (c : string) (values : list cell) (df : DataFrame) :
  rectangular df -> rectangular (assign c values df).
Proof.
  unfold rectangular. rewrite !Forall_forall. intros Hrect row' Hrow'.
  apply list_elem_of_lookup in Hrow'. destruct Hrow' as [n Hn].
  destruct (assign_data _ _ _ _ _ Hn) as (row & v & Hrow & _ & ->).
  assert (Hlen : length row = length (columns df))
    by (apply Hrect; eapply list_elem_of_lookup_2; eassumption).
  rewrite assign_columns.
  destruct (index_of c (columns df)) as [p|] eqn:Hp.
  - rewrite decide_True by (eapply list_elem_of_lookup_2, index_of_Some, Hp).
    rewrite length_insert, app_nil_r. assumption.
  - apply index_of_None in Hp. rewrite decide_False by assumption.
    rewrite !length_app, Hlen. reflexivity.
Qed.

(** The consolidated table has one cell per column in every row, whatever
    the join looked like. *)
Lemma combined_rectangular conv (joined combined : DataFrame) :
  reorder_and_assign conv joined = Ok combined -> rectangular combined.
Proof.
  unfold reorder_and_assign. intros H.
  ok_step H. ok_step H. ok_step H. ok_step H. inversion H; subst; clear H.
  apply assign_rectangular. eapply loc_columns_rectangular. eassumption.
Qed.

(** ** When the steps succeed *)

Lemma positions_present (c : string) (cols : list string) :
  c ∈ cols -> positions c cols <> [].
Proof.
  induction cols as [|y cols IH]; intros Hc; [apply elem_of_nil in Hc; contradiction |].
  simpl. destruct (decide (c = y)); [discriminate |].
  apply elem_of_cons in Hc. destruct Hc as [-> | Hc]; [contradiction |].
  simpl. intros H. apply fmap_nil_inv in H. exact (IH Hc H).
Qed.

(** The consolidated table is made whenever the join has the two columns
    the step reads and every [InChIKey] cell is text. *)
Lemma reorder_and_assign_succeeds conv (joined : DataFrame) (keys : list cell) :
  "broad_id" ∈ columns joined ->
  get_column "InChIKey" joined = Some keys ->
  Forall (fun x => exists s, x = Str s) keys ->
  exists combined, reorder_and_assign conv joined = Ok combined.
Proof.
  intros Hb Hk Htext. unfold reorder_and_assign, col_order, pop.
  destruct (index_of_elem _ _ Hb) as [i Hi]. rewrite Hi. cbn [lift mbind result_bind].
  rewrite (index_of_Some _ _ _ Hi). cbn [mbind option_bind lift result_bind].
  assert (Hloc : exists ordered,
            loc_columns ("broad_id" :: delete i (columns joined)) joined = Ok ordered).
  { unfold loc_columns.
    replace (forallb _ _) with true; [eauto |].
    symmetry. apply forallb_forall. intros c Hc. apply list_elem_of_In in Hc.
    apply bool_decide_eq_true, positions_present.
    apply elem_of_cons in Hc. destruct Hc as [-> | Hc]; [assumption |].
    eapply list_elem_of_delete_inv. eassumption. }
  destruct Hloc as [ordered ->]. cbn [mbind result_bind]. rewrite Hk.
  cbn [lift mbind result_bind].
  assert (Hmap : exists keys14, mapM (InChIKey14 conv) keys = Ok keys14).
  { clear Hk. induction Htext as [|x keys [s ->] _ [keys14 IH]].
    - exists []. reflexivity.
    - exists (first14 (if startswith "InChI" s then conv s else Some s) :: keys14).
      apply mapM_Ok. constructor; [| apply mapM_Ok; assumption].
      unfold InChIKey14, to_inchikey. destruct (startswith "InChI" s); reflexivity. }
  destruct Hmap as [keys14 ->]. cbn [mbind result_bind]. eauto.
Qed.

Lemma fill_missing_succeeds (c : string) (df : DataFrame) :
  c ∈ columns df -> exists df', fill_missing c df = Ok df'.
Proof.
  intros Hc. destruct (index_of_elem _ _ Hc) as [p Hp].
  unfold fill_missing, get_column, set_column. rewrite Hp. cbn. eauto.
Qed.

Lemma restore_missing_succeeds (c : string) (df : DataFrame) :
  c ∈ columns df -> exists df', restore_missing c df = Ok df'.
Proof.
  intros Hc. destruct (index_of_elem _ _ Hc) as [p Hp].
  unfold restore_missing, get_column, set_column. rewrite Hp. cbn. eauto.
Qed.

Lemma split_df_succeeds (c value_name : string) (filled : DataFrame) (p : nat) :
  index_of c (columns filled) = Some p ->
  Forall (fun row => exists s, key_at p row = Str s) (data filled) ->
  split_df c value_name filled
  = Ok (mkFrame [split_col_index; "_"; value_name]
          (stacked ((fun row => pieces_of (key_at p row)) <$> data filled))).
Proof.
  intros Hp Htext. unfold split_df, get_column. rewrite Hp. cbn [lift mbind option_bind result_bind].
  replace (mapM (str_split "|") ((fun row => key_at p row) <$> data filled))
    with (Ok ((fun row => pieces_of (key_at p row)) <$> data filled) : result _);
    [reflexivity |].
  symmetry. apply mapM_Ok. apply Forall2_fmap, Forall_Forall2_diag.
  eapply Forall_impl; [exact Htext |]. intros row [s Hs]. simpl. rewrite Hs. reflexivity.
Qed.

(** The long table is made whenever the combined table has text (or
    nothing) under [moa] and [target] and no column named [moa_unique] or
    [target_unique]. *)
Lemma long_combined_df_succeeds (combined : DataFrame) :
  rectangular combined ->
  "moa" ∈ columns combined -> "target" ∈ columns combined ->
  "moa_unique" ∉ columns combined ->
  "target_unique" ∉ columns combined ->
  Forall (fun row => text_or_missing (field combined "moa" row) /\
                     text_or_missing (field combined "target" row))
         (data combined) ->
  exists long, long_combined_df combined = Ok long.
Proof.
  intros Hrect Hmoa Htarget Hmu Htu Htext. unfold long_combined_df.
  assert (Hfill : exists filled, filled_df combined = Ok filled).
  { unfold filled_df. destruct (fill_missing_succeeds "moa" combined Hmoa) as [df Hdf].
    rewrite Hdf. cbn [mbind result_bind]. apply fill_missing_succeeds.
    apply fill_missing_Ok in Hdf. destruct Hdf as (p & _ & ->). exact Htarget. }
  destruct Hfill as [filled Hfilled]. rewrite Hfilled. cbn [mbind result_bind].
  destruct (filled_df_Ok _ _ Hfilled) as (pm & pt & Hpm & Hpt & Hne & Hf).
  pose proof (index_of_lt _ _ _ Hpm) as Hpmn.
  pose proof (index_of_lt _ _ _ Hpt) as Hptn.
  assert (Hcf : columns filled = columns combined) by (rewrite Hf; reflexivity).
  assert (Hrectf : rectangular filled).
  { rewrite Hf. destruct combined as [cols rows]. apply rectangular_fmap; [| exact Hrect].
    intros row. rewrite !length_update_at. reflexivity. }
  assert (Hstr : Forall (fun row => (exists s, key_at pm row = Str s) /\
                                    (exists s, key_at pt row = Str s)) (data filled)).
  { rewrite Hf. cbn [data]. apply Forall_fmap, Forall_forall. intros row Hrow. simpl.
    assert (Hlen : length row = length (columns combined)).
    { unfold rectangular in Hrect. rewrite Forall_forall in Hrect. auto. }
    rewrite Forall_forall in Htext. destruct (Htext row Hrow) as [Hm Ht].
    unfold field in Hm, Ht. rewrite Hpm in Hm. rewrite Hpt in Ht.
    rewrite !key_at_two_updates by lia. rewrite !decide_True by auto.
    split.
    - destruct (key_at pm row); [eexists; reflexivity | eexists; reflexivity | contradiction].
    - destruct (key_at pt row); [eexists; reflexivity | eexists; reflexivity | contradiction]. }
  assert (Hstrm : Forall (fun row => exists s, key_at pm row = Str s) (data filled))
    by (eapply Forall_impl; [exact Hstr | intros row [H _]; exact H]).
  assert (Hstrt : Forall (fun row => exists s, key_at pt row = Str s) (data filled))
    by (eapply Forall_impl; [exact Hstr | intros row [_ H]; exact H]).
  assert (Hmerged : exists merged, long_merged_df filled = Ok merged /\
            columns merged = long_labels (columns combined)).
  { unfold long_merged_df, moa_split_df, target_split_df.
    rewrite (split_df_succeeds "moa" "moa_unique" filled pm) by (rewrite ?Hcf; assumption).
    cbn [mbind result_bind].
    rewrite (split_df_succeeds "target" "target_unique" filled pt)
      by (rewrite ?Hcf; assumption).
    cbn [mbind result_bind].
    rewrite (tagged_of_stacked "moa_unique") by discriminate.
    rewrite (tagged_of_stacked "target_unique") by discriminate.
    cbn [mbind result_bind].
    rewrite merge_left_index_tagged
      by (rewrite ?length_fmap; auto using pieces_nonempty).
    cbn [mbind result_bind].
    destruct (index_of_with_moa (columns filled)) as (lk & Hlk & _).
    unfold merge_left. cbn [columns data]. rewrite Hlk, index_of_here.
    cbn [lift mbind result_bind delete list_delete].
    eexists. split; [reflexivity |]. cbn [columns].
    rewrite Hcf. apply long_labels_merged; assumption. }
  destruct Hmerged as (merged & -> & Hcm). cbn [mbind result_bind].
  unfold restored_df.
  assert (Hin : forall c df, columns df = columns merged ->
                  c ∈ ["moa"; "moa_unique"; "target"; "target_unique"] ->
                  c ∈ columns df).
  { intros c df -> Hc. rewrite Hcm.
    repeat (apply elem_of_cons in Hc; destruct Hc as [-> | Hc]);
      [| | | | apply elem_of_nil in Hc; contradiction];
      eapply list_elem_of_lookup_2, index_of_Some.
    - apply (index_of_long_base "moa" _ pm); [discriminate | discriminate | assumption].
    - apply index_of_long_moa_unique. assumption.
    - apply (index_of_long_base "target" _ pt); [discriminate | discriminate | assumption].
    - apply index_of_long_target_unique. assumption. }
  destruct (restore_missing_succeeds "moa" merged) as [df1 Hdf1];
    [apply Hin; [reflexivity | left] |].
  rewrite Hdf1. cbn [mbind result_bind].
  apply restore_missing_Ok in Hdf1. destruct Hdf1 as (p1 & _ & ->).
  destruct (restore_missing_succeeds "moa_unique" (mkFrame (columns merged)
              ((fun row => <[p1 := restore_cell (key_at p1 row)]> row) <$> data merged)))
    as [df2 Hdf2]; [apply Hin; [reflexivity | right; left] |].
  rewrite Hdf2. cbn [mbind result_bind].
  apply restore_missing_Ok in Hdf2. destruct Hdf2 as (p2 & _ & ->). cbn [columns data].
  match goal with
  | |- exists long, restore_missing "target" ?df ≫= _ = _ =>
      destruct (restore_missing_succeeds "target" df) as [df3 Hdf3];
        [apply Hin; [reflexivity | right; right; left] |]
  end.
  rewrite Hdf3. cbn [mbind result_bind].
  apply restore_missing_Ok in Hdf3. destruct Hdf3 as (p3 & _ & ->). cbn [columns data].
  apply restore_missing_succeeds. apply Hin; [reflexivity |].
  right. right. right. left.
Qed.

(** * The properties on the small instance *)

Lemma joined_is_inner_join_witness :
  joined_df Sample.drug_df Sample.sample_df = Ok Sample.joined /\
  ((forall out,
      out ∈ data Sample.joined <->
      exists d s,
        d ∈ data Sample.drug_df /\ s ∈ data Sample.sample_df /\
        field Sample.drug_df "pert_iname" d = field Sample.sample_df "pert_iname" s /\
        out = d ++ without Sample.sample_df "pert_iname" s) /\
   (check_pert_iname Sample.drug_df Sample.sample_df = Ok tt ->
    (forall d, d ∈ data Sample.drug_df ->
       exists s, s ∈ data Sample.sample_df /\
         field Sample.drug_df "pert_iname" d = field Sample.sample_df "pert_iname" s /\
         d ++ without Sample.sample_df "pert_iname" s ∈ data Sample.joined) /\
    (forall s, s ∈ data Sample.sample_df ->
       exists d, d ∈ data Sample.drug_df /\
         field Sample.drug_df "pert_iname" d = field Sample.sample_df "pert_iname" s /\
         d ++ without Sample.sample_df "pert_iname" s ∈ data Sample.joined))).
Proof.
  split; [vm_compute; reflexivity |].
  apply (joined_is_inner_join Sample.drug_df Sample.sample_df Sample.joined).
  vm_compute. reflexivity.
Defined.

Lemma InChIKey14_converted_or_cut_witness :
  reorder_and_assign Sample.InchiToInchiKey Sample.joined = Ok Sample.combined /\
  exists keys keys14,
    get_column "InChIKey" Sample.joined = Some keys /\
    get_column "InChIKey14" Sample.combined = Some keys14 /\
    length keys14 = length (data Sample.joined) /\
    forall i x k,
      keys !! i = Some x -> keys14 !! i = Some k ->
      exists s,
        x = Str s /\
        (startswith "InChI" s = true ->
           k = Str (take_prefix 14 (py_str (Sample.InchiToInchiKey s))) /\
           (14 <= String.length (py_str (Sample.InchiToInchiKey s)) ->
              exists key14, k = Str key14 /\ String.length key14 = 14)) /\
        (startswith "InChI" s = false ->
           k = Str (take_prefix 14 s) /\
           (k = x <-> String.length s <= 14)).
Proof.
  split; [vm_compute; reflexivity |].
  apply (InChIKey14_converted_or_cut Sample.InchiToInchiKey Sample.joined Sample.combined).
  vm_compute. reflexivity.
Defined.

Lemma long_table_has_one_row_per_pair_witness :
  rectangular Sample.combined /\
  long_combined_df Sample.combined = Ok Sample.long /\
  exists filled merged,
    filled_df Sample.combined = Ok filled /\
    long_merged_df filled = Ok merged /\
    restored_df merged = Ok Sample.long /\
    forall i row,
      data Sample.combined !! i = Some row ->
      exists moa target moas targets,
        Str moa = fill_cell (field Sample.combined "moa" row) /\
        Str target = fill_cell (field Sample.combined "target" row) /\
        cut_at "|" moa moas /\
        cut_at "|" target targets /\
        (fun r => (field merged "moa_unique" r, field merged "target_unique" r))
          <$> filter (fun r => field merged split_col_index r = Int (Z.of_nat i))
                (data merged)
        = (m ← moas; t ← targets; [(Str m, Str t)]) /\
        (fun r => (field Sample.long "moa_unique" r, field Sample.long "target_unique" r))
          <$> filter (fun r => field Sample.long split_col_index r = Int (Z.of_nat i))
                (data Sample.long)
        = (m ← moas; t ← targets; [(restore_cell (Str m), restore_cell (Str t))]).
Proof.
  split; [unfold rectangular; repeat constructor |].
  split; [vm_compute; reflexivity |].
  apply (long_table_has_one_row_per_pair Sample.combined Sample.long).
  - unfold rectangular. repeat constructor.
  - vm_compute. reflexivity.
Defined.

Lemma split_frames_point_back_witness :
  moa_split_df Sample.filled = Ok Sample.moa_split /\
  target_split_df Sample.filled = Ok Sample.target_split /\
  (forall r, r ∈ data Sample.moa_split ->
     exists i row s v pieces,
       field Sample.moa_split split_col_index r = Int (Z.of_nat i) /\
       data Sample.filled !! i = Some row /\
       field Sample.filled "moa" row = Str s /\
       field Sample.moa_split "moa_unique" r = Str v /\
       cut_at "|" s pieces /\
       v ∈ pieces) /\
  (forall r, r ∈ data Sample.target_split ->
     exists i row s v pieces,
       field Sample.target_split split_col_index r = Int (Z.of_nat i) /\
       data Sample.filled !! i = Some row /\
       field Sample.filled "target" row = Str s /\
       field Sample.target_split "target_unique" r = Str v /\
       cut_at "|" s pieces /\
       v ∈ pieces).
Proof.
  split; [vm_compute; reflexivity |].
  split; [vm_compute; reflexivity |].
  apply (split_frames_point_back Sample.filled Sample.moa_split Sample.target_split);
    vm_compute; reflexivity.
Defined.

Lemma placeholder_round_trip_witness :
  rectangular Sample.combined /\
  long_combined_df Sample.combined = Ok Sample.long /\
  forall i row,
    data Sample.combined !! i = Some row ->
    (exists r, r ∈ data Sample.long /\
               field Sample.long split_col_index r = Int (Z.of_nat i)) /\
    forall r,
      r ∈ data Sample.long -> field Sample.long split_col_index r = Int (Z.of_nat i) ->
      (field Sample.combined "moa" row = NaN ->
         field Sample.long "moa" r = NaN /\ field Sample.long "moa_unique" r = NaN) /\
      (field Sample.combined "target" row = NaN ->
         field Sample.long "target" r = NaN /\ field Sample.long "target_unique" r = NaN) /\
      (forall s, field Sample.combined "moa" row = Str s -> s <> placeholder ->
         field Sample.long "moa" r = Str s /\
         exists m, m ∈ split "|" s /\
           field Sample.long "moa_unique" r = restore_cell (Str m) /\
           (m <> placeholder -> field Sample.long "moa_unique" r = Str m)) /\
      (forall s, field Sample.combined "target" row = Str s -> s <> placeholder ->
         field Sample.long "target" r = Str s /\
         exists t, t ∈ split "|" s /\
           field Sample.long "target_unique" r = restore_cell (Str t) /\
           (t <> placeholder -> field Sample.long "target_unique" r = Str t)).
Proof.
  split; [unfold rectangular; repeat constructor |].
  split; [vm_compute; reflexivity |].
  apply (placeholder_round_trip Sample.combined Sample.long).
  - unfold rectangular. repeat constructor.
  - vm_compute. reflexivity.
Defined.


Lemma long_rows_agree_with_combined_witness :
  rectangular Sample.combined /\
  (split_col_index ∉ columns Sample.combined) /\
  long_combined_df Sample.combined = Ok Sample.long /\
  exists filled merged,
    filled_df Sample.combined = Ok filled /\
    long_merged_df filled = Ok merged /\
    restored_df merged = Ok Sample.long /\
    columns merged
      = columns Sample.combined ++ [split_col_index; "moa_unique"; "target_unique"] /\
    columns Sample.long
      = columns Sample.combined ++ [split_col_index; "moa_unique"; "target_unique"] /\
    (forall r, r ∈ data merged ->
       exists i frow,
         field merged split_col_index r = Int (Z.of_nat i) /\
         data filled !! i = Some frow /\
         forall c, c ∈ columns Sample.combined -> field merged c r = field filled c frow) /\
    (forall r, r ∈ data Sample.long ->
       exists i frow row,
         field Sample.long split_col_index r = Int (Z.of_nat i) /\
         data filled !! i = Some frow /\
         data Sample.combined !! i = Some row /\
         forall c, c ∈ columns Sample.combined ->
           (c = "moa" \/ c = "target" ->
              field Sample.long c r = restore_cell (field filled c frow) /\
              field Sample.long c r = restore_cell (field Sample.combined c row)) /\
           (c <> "moa" -> c <> "target" ->
              field Sample.long c r = field filled c frow /\
              field Sample.long c r = field Sample.combined c row)).
Proof.
  assert (Hidx : split_col_index ∉ columns Sample.combined)
    by (apply (bool_decide_unpack (split_col_index ∉ columns Sample.combined));
        vm_compute; exact I).
  split; [unfold rectangular; repeat constructor |].
  split; [exact Hidx |].
  split; [vm_compute; reflexivity |].
  apply (long_rows_agree_with_combined Sample.combined Sample.long).
  - unfold rectangular. repeat constructor.
  - exact Hidx.
  - vm_compute. reflexivity.
Defined.

Lemma restoration_takes_out_every_placeholder_witness :
  rectangular Collision.clash_combined /\
  long_combined_df Collision.clash_combined = Ok Collision.clash_long /\
  exists filled merged,
    filled_df Collision.clash_combined = Ok filled /\
    long_merged_df filled = Ok merged /\
    restored_df merged = Ok Collision.clash_long /\
    length (data Collision.clash_long) = length (data merged) /\
    (forall k r0 r c,
       data merged !! k = Some r0 -> data Collision.clash_long !! k = Some r ->
       c ∈ ["moa"; "moa_unique"; "target"; "target_unique"] ->
       (field merged c r0 = Str "replace_with_na" -> field Collision.clash_long c r = NaN) /\
       (field merged c r0 <> Str "replace_with_na" ->
          field Collision.clash_long c r = field merged c r0)) /\
    (forall i row r,
       data Collision.clash_combined !! i = Some row ->
       r ∈ data Collision.clash_long ->
       field Collision.clash_long split_col_index r = Int (Z.of_nat i) ->
       (field Collision.clash_combined "moa" row = Str "replace_with_na" ->
          field Collision.clash_long "moa" r = NaN /\
          field Collision.clash_long "moa_unique" r = NaN) /\
       (field Collision.clash_combined "target" row = Str "replace_with_na" ->
          field Collision.clash_long "target" r = NaN /\
          field Collision.clash_long "target_unique" r = NaN)).
Proof.
  split; [unfold rectangular; repeat constructor |].
  split; [vm_compute; reflexivity |].
  apply (restoration_takes_out_every_placeholder Collision.clash_combined Collision.clash_long).
  - unfold rectangular. repeat constructor.
  - vm_compute. reflexivity.
Defined.

Lemma InChIKey14_is_prefix_of_source_witness :
  reorder_and_assign Sample.InchiToInchiKey Sample.joined = Ok Sample.combined /\
  exists keys keys14,
    get_column "InChIKey" Sample.joined = Some keys /\
    get_column "InChIKey14" Sample.combined = Some keys14 /\
    length keys14 = length (data Sample.joined) /\
    forall i x k,
      keys !! i = Some x -> keys14 !! i = Some k ->
      exists s key14 rest,
        x = Str s /\ k = Str key14 /\
        String.length key14 <= 14 /\
        source_string Sample.InchiToInchiKey s = key14 +:+ rest /\
        String.length key14
        = 14 `min` String.length (source_string Sample.InchiToInchiKey s).
Proof.
  split; [vm_compute; reflexivity |].
  apply (InChIKey14_is_prefix_of_source Sample.InchiToInchiKey Sample.joined Sample.combined).
  vm_compute. reflexivity.
Defined.


(** * Further properties of the script *)

(** ** Splitting and joining *)

Lemma split_rows_round_trip (c value_name : string) (filled parts : DataFrame) :
  value_name <> split_col_index -> value_name <> "_" ->
  split_df c value_name filled = Ok parts ->
  forall i row,
    data filled !! i = Some row ->
    exists s pieces,
      field filled c row = Str s /\
      cut_at "|" s pieces /\
      field parts value_name
        <$> filter (fun r => field parts split_col_index r = Int (Z.of_nat i)) (data parts)
      = Str <$> pieces.
Proof.
  intros Hne1 Hne2 H i row Hrow. apply split_df_Ok in H.
  destruct H as (p & Hp & Hall & ->).
  rewrite Forall_forall in Hall.
  destruct (Hall row) as [s Hs]; [eapply list_elem_of_lookup_2; eassumption |].
  exists s, (split "|" s). split; [unfold field; rewrite Hp; assumption |].
  split; [apply split_cut_at |].
  cbn [data]. unfold stacked. rewrite filter_by_label.
  - rewrite list_lookup_imap, list_lookup_fmap, Hrow. cbn [fmap option_fmap option_map].
    change (default [] (Some ?x)) with x. rewrite Hs. cbn [pieces_of].
    rewrite fmap_imap. rewrite <- (imap_const Str). apply imap_ext.
    intros j v _. unfold compose, const, field. cbn [columns].
    rewrite (index_of_later value_name split_col_index) by assumption.
    rewrite (index_of_later value_name "_") by assumption.
    rewrite index_of_here. reflexivity.
  - intros j b r Hb Hr. rewrite list_lookup_imap in Hb.
    destruct (((fun row => pieces_of (key_at p row)) <$> data filled) !! j) as [ps|];
      [| discriminate].
    inversion Hb; subst b. apply elem_of_lookup_imap in Hr.
    destruct Hr as (k & v & -> & _). reflexivity.
Qed.

(** The exploded frames can be folded back: for every row of the filled
    table, the [moa_unique] values stored under its label, in order, are the
    pieces its [moa] falls into when it is cut at every "|": none of them
    holds a "|", and joined with "|" they give the [moa] back; the same for
    [target]. *)
Theorem exploded_values_join_back (filled moa_split target_split : DataFrame) :
  moa_split_df filled = Ok moa_split ->
  target_split_df filled = Ok target_split ->
  forall i row,
    data filled !! i = Some row ->
    (exists s pieces,
       field filled "moa" row = Str s /\
       cut_at "|" s pieces /\
       field moa_split "moa_unique"
         <$> filter (fun r => field moa_split split_col_index r = Int (Z.of_nat i))
               (data moa_split)
       = Str <$> pieces) /\
    (exists s pieces,
       field filled "target" row = Str s /\
       cut_at "|" s pieces /\
       field target_split "target_unique"
         <$> filter (fun r => field target_split split_col_index r = Int (Z.of_nat i))
               (data target_split)
       = Str <$> pieces).
Proof.
  intros Hm Ht i row Hrow.
  split; eapply split_rows_round_trip; try eassumption; discriminate.
Qed.

Lemma exploded_values_join_back_witness :
  moa_split_df Sample.filled = Ok Sample.moa_split /\
  target_split_df Sample.filled = Ok Sample.target_split /\
  forall i row,
    data Sample.filled !! i = Some row ->
    (exists s pieces,
       field Sample.filled "moa" row = Str s /\
       cut_at "|" s pieces /\
       field Sample.moa_split "moa_unique"
         <$> filter (fun r => field Sample.moa_split split_col_index r = Int (Z.of_nat i))
               (data Sample.moa_split)
       = Str <$> pieces) /\
    (exists s pieces,
       field Sample.filled "target" row = Str s /\
       cut_at "|" s pieces /\
       field Sample.target_split "target_unique"
         <$> filter (fun r => field Sample.target_split split_col_index r = Int (Z.of_nat i))
               (data Sample.target_split)
       = Str <$> pieces).
Proof.
  split; [vm_compute; reflexivity |].
  split; [vm_compute; reflexivity |].
  apply (exploded_values_join_back Sample.filled Sample.moa_split Sample.target_split);
    vm_compute; reflexivity.
Defined.

(** ** The size and the order of the long table *)

Lemma elem_of_pieces_of (m : string) (v : cell) :
  m ∈ pieces_of v -> exists s, v = Str s /\ m ∈ split "|" s.
Proof.
  destruct v as [|s|n]; simpl; intros H;
    [apply elem_of_nil in H; contradiction | eauto | apply elem_of_nil in H; contradiction].
Qed.

Lemma restore_cell_cases (m : string) :
  restore_cell (Str m) = NaN \/ restore_cell (Str m) = Str m.
Proof. unfold restore_cell. destruct (decide (Str m = Str placeholder)); auto. Qed.

(** The long table is exploded to the end: no [moa_unique] and no
    [target_unique] of the written table contains a "|"; each is missing
    or a text without the separator. *)
Theorem long_unique_values_have_no_pipe (combined long : DataFrame) :
  rectangular combined ->
  long_combined_df combined = Ok long ->
  forall r, r ∈ data long ->
    (field long "moa_unique" r = NaN \/
     exists m, field long "moa_unique" r = Str m /\ count_sep "|" m = 0) /\
    (field long "target_unique" r = NaN \/
     exists t, field long "target_unique" r = Str t /\ count_sep "|" t = 0).
Proof.
  intros Hrect H r Hr.
  destruct (long_combined_df_Ok _ _ Hrect H)
    as (pm & pt & filled & merged & Hpm & Hpt & Hne & Hmu & Htu
        & Hf & Hm & Hl & Hfilled & Hstr & Hmerged & Hlong).
  assert (Hcl : columns long = long_labels (columns combined))
    by (rewrite Hlong; reflexivity).
  apply (long_rows_inv combined long pm pt) in Hr; [| rewrite Hlong; reflexivity].
  destruct Hr as (i & row & m & t & Hrow & Hmin & Htin & ->).
  assert (Hbase : length (update_at pt restore_cell (update_at pm restore_cell row))
                  = length (columns combined)).
  { rewrite !length_update_at. eapply rectangular_lookup; eassumption. }
  rewrite (field_long_moa_unique _ _ Hcl Hmu) by assumption.
  rewrite (field_long_target_unique _ _ Hcl Htu) by assumption.
  apply elem_of_pieces_of in Hmin, Htin.
  destruct Hmin as (sm & _ & Hmin). destruct Htin as (st & _ & Htin).
  apply split_pieces_have_no_sep in Hmin, Htin. split.
  - destruct (restore_cell_cases m) as [-> | ->]; [left; reflexivity | right; eauto].
  - destruct (restore_cell_cases t) as [-> | ->]; [left; reflexivity | right; eauto].
Qed.

Lemma long_unique_values_have_no_pipe_witness :
  rectangular Sample.combined /\
  long_combined_df Sample.combined = Ok Sample.long /\
  forall r, r ∈ data Sample.long ->
    (field Sample.long "moa_unique" r = NaN \/
     exists m, field Sample.long "moa_unique" r = Str m /\ count_sep "|" m = 0) /\
    (field Sample.long "target_unique" r = NaN \/
     exists t, field Sample.long "target_unique" r = Str t /\ count_sep "|" t = 0).
Proof.
  split; [unfold rectangular; repeat constructor |].
  split; [vm_compute; reflexivity |].
  apply (long_unique_values_have_no_pipe Sample.combined Sample.long).
  - unfold rectangular. repeat constructor.
  - vm_compute. reflexivity.
Defined.

Lemma length_bind_same {A B : Type} (f : A -> list B) (l : list A) (n : nat) :
  (forall x, x ∈ l -> length (f x) = n) -> length (l ≫= f) = length l * n.
Proof.
  induction l as [|x l IH]; intros H; [reflexivity |].
  rewrite bind_cons, length_app, (H x), IH; [reflexivity | | left].
  intros y Hy. apply H. right. exact Hy.
Qed.

Lemma length_long_rows (pm pt i : nat) (row : list cell) :
  length (long_rows pm pt i row)
  = length (pieces_of (fill_cell (key_at pm row)))
    * length (pieces_of (fill_cell (key_at pt row))).
Proof.
  unfold long_rows. apply length_bind_same. intros m _.
  rewrite (length_bind_same _ _ 1); [lia | reflexivity].
Qed.

Lemma length_pieces_filled (v : cell) (s : string) :
  fill_cell v = Str s -> length (pieces_of (fill_cell v)) = n_pieces v.
Proof.
  destruct v as [|s'|n]; simpl; intros H; [reflexivity | | discriminate].
  apply length_split.
Qed.

Lemma n_pieces_positive (v : cell) : 1 <= n_pieces v.
Proof. destruct v; simpl; lia. Qed.

Lemma sum_list_at_least {A : Type} (f : A -> nat) (l : list A) :
  (forall x, 1 <= f x) -> length l <= sum_list (f <$> l).
Proof.
  intros Hf. induction l as [|x l IH]; [reflexivity |].
  rewrite fmap_cons. simpl. specialize (Hf x). lia.
Qed.

(** One row of the combined table gives as many long rows as its [moa] has
    pieces times its [target] has pieces, a missing entry counting as one
    piece and a text as one more than its separators; so the long table has
    the sum of these products and never fewer rows than the combined
    table. *)
Theorem long_row_count (combined long : DataFrame) :
  rectangular combined ->
  long_combined_df combined = Ok long ->
  length (data long)
  = sum_list ((fun row => n_pieces (field combined "moa" row)
                          * n_pieces (field combined "target" row))
                <$> data combined) /\
  length (data combined) <= length (data long).
Proof.
  intros Hrect H.
  destruct (long_combined_df_Ok _ _ Hrect H)
    as (pm & pt & filled & merged & Hpm & Hpt & Hne & Hmu & Htu
        & Hf & Hm & Hl & Hfilled & Hstr & Hmerged & Hlong).
  assert (Hlen : length (data long)
                 = sum_list ((fun row => n_pieces (field combined "moa" row)
                                         * n_pieces (field combined "target" row))
                               <$> data combined)).
  { rewrite Hlong. cbn [data]. rewrite length_join, fmap_imap. f_equal.
    rewrite <- (imap_const (fun row => n_pieces (field combined "moa" row)
                                        * n_pieces (field combined "target" row))).
    apply imap_ext. intros i row Hrow. unfold compose, const.
    rewrite length_fmap, length_long_rows.
    pose proof (rectangular_lookup _ _ _ Hrect Hrow) as Hlenr.
    pose proof (index_of_lt _ _ _ Hpm) as Hpmn.
    pose proof (index_of_lt _ _ _ Hpt) as Hptn.
    assert (Hfrow : update_at pt fill_cell (update_at pm fill_cell row) ∈ data filled).
    { rewrite Hfilled. cbn [data]. apply list_elem_of_fmap. exists row.
      split; [reflexivity |]. eapply list_elem_of_lookup_2. eassumption. }
    rewrite Forall_forall in Hstr. destruct (Hstr _ Hfrow) as [[sm Hsm] [st Hst]].
    rewrite key_at_two_updates, decide_True in Hsm by (auto; lia).
    rewrite key_at_two_updates, decide_True in Hst by (auto; lia).
    unfold field. rewrite Hpm, Hpt.
    rewrite (length_pieces_filled _ _ Hsm), (length_pieces_filled _ _ Hst).
    reflexivity. }
  split; [exact Hlen |]. rewrite Hlen. apply sum_list_at_least.
  intros row. pose proof (n_pieces_positive (field combined "moa" row)).
  pose proof (n_pieces_positive (field combined "target" row)). nia.
Qed.

Lemma long_row_count_witness :
  rectangular Sample.combined /\
  long_combined_df Sample.combined = Ok Sample.long /\
  length (data Sample.long)
  = sum_list ((fun row => n_pieces (field Sample.combined "moa" row)
                          * n_pieces (field Sample.combined "target" row))
                <$> data Sample.combined) /\
  length (data Sample.combined) <= length (data Sample.long).
Proof.
  split; [unfold rectangular; repeat constructor |].
  split; [vm_compute; reflexivity |].
  apply (long_row_count Sample.combined Sample.long).
  - unfold rectangular. repeat constructor.
  - vm_compute. reflexivity.
Defined.

Lemma sum_list_snoc (sizes : list nat) (n : nat) :
  sum_list (sizes ++ [n]) = sum_list sizes + n.
Proof. induction sizes as [|m sizes IH]; simpl; lia. Qed.

Lemma sum_take_mono (sizes : list nat) (j j' : nat) :
  j <= j' -> sum_list (take j sizes) <= sum_list (take j' sizes).
Proof.
  revert j j'. induction sizes as [|n sizes IH]; intros j j' Hle.
  - rewrite !take_nil. reflexivity.
  - destruct j as [|j]; [simpl; lia |]. destruct j' as [|j']; [lia |].
    simpl. specialize (IH j j'). lia.
Qed.

(** In a list of blocks whose rows carry the number of their block, the
    numbers never go down along the joined list. *)
Lemma blocks_in_order {A : Type} (label : A -> nat) (blocks : list (list A))
    (k1 k2 : nat) (r1 r2 : A) :
  (forall j b r, blocks !! j = Some b -> r ∈ b -> label r = j) ->
  mjoin blocks !! k1 = Some r1 -> mjoin blocks !! k2 = Some r2 ->
  k1 <= k2 -> label r1 <= label r2.
Proof.
  intros Hlabel H1 H2 Hle.
  apply join_lookup_Some in H1, H2.
  destruct H1 as (j1 & b1 & i1 & Hb1 & Hr1 & ->).
  destruct H2 as (j2 & b2 & i2 & Hb2 & Hr2 & ->).
  rewrite (Hlabel j1 b1 r1 Hb1) by (eapply list_elem_of_lookup_2; eassumption).
  rewrite (Hlabel j2 b2 r2 Hb2) by (eapply list_elem_of_lookup_2; eassumption).
  destruct (decide (j1 <= j2)) as [|Hgt]; [assumption | exfalso].
  assert (Hstep : sum_list (take (S j2) (length <$> blocks))
                  = sum_list (take j2 (length <$> blocks)) + length b2).
  { rewrite (take_S_r _ _ (length b2)) by (rewrite list_lookup_fmap, Hb2; reflexivity).
    apply sum_list_snoc. }
  pose proof (sum_take_mono (length <$> blocks) (S j2) j1 ltac:(lia)) as Hmono.
  pose proof (lookup_lt_Some _ _ _ Hr2) as Hi2.
  rewrite !fmap_take in Hle. lia.
Qed.

(** The long table keeps the order of the combined table: going down the
    written table, the label of the row a long row comes from never
    decreases. *)
Theorem long_rows_in_order (combined long : DataFrame) :
  rectangular combined ->
  long_combined_df combined = Ok long ->
  forall k1 k2 r1 r2 i1 i2,
    k1 <= k2 ->
    data long !! k1 = Some r1 -> data long !! k2 = Some r2 ->
    field long split_col_index r1 = Int (Z.of_nat i1) ->
    field long split_col_index r2 = Int (Z.of_nat i2) ->
    i1 <= i2.
Proof.
  intros Hrect H k1 k2 r1 r2 i1 i2 Hle Hr1 Hr2 Hi1 Hi2.
  destruct (long_combined_df_Ok _ _ Hrect H)
    as (pm & pt & filled & merged & Hpm & Hpt & Hne & Hmu & Htu
        & Hf & Hm & Hl & Hfilled & Hstr & Hmerged & Hlong).
  assert (Hcl : columns long = long_labels (columns combined))
    by (rewrite Hlong; reflexivity).
  assert (Hdl : data long
                = mjoin (imap (fun i row =>
                                 (fun r => key_cells (columns combined) i ++ r)
                                   <$> long_rows pm pt i row)
                              (data combined)))
    by (rewrite Hlong; reflexivity).
  set (label := fun r => match field long split_col_index r with
                         | Int z => Z.to_nat z
                         | _ => 0
                         end).
  assert (Hl1 : label r1 = i1) by (unfold label; rewrite Hi1; apply Nat2Z.id).
  assert (Hl2 : label r2 = i2) by (unfold label; rewrite Hi2; apply Nat2Z.id).
  rewrite <- Hl1, <- Hl2. rewrite Hdl in Hr1, Hr2.
  eapply (blocks_in_order label); [| exact Hr1 | exact Hr2 | exact Hle].
  intros j b r Hb Hr. rewrite list_lookup_imap in Hb.
  destruct (data combined !! j) as [row|] eqn:Hrow; [| discriminate].
  inversion Hb; subst b. apply list_elem_of_fmap in Hr.
  destruct Hr as (r' & -> & Hr'). apply elem_of_long_rows in Hr'.
  destruct Hr' as (m & t & _ & _ & ->). unfold label.
  rewrite (field_long_index _ _ Hcl)
    by (rewrite !length_update_at; eapply rectangular_lookup; eassumption).
  apply Nat2Z.id.
Qed.

Lemma long_rows_in_order_witness :
  rectangular Sample.combined /\
  long_combined_df Sample.combined = Ok Sample.long /\
  forall k1 k2 r1 r2 i1 i2,
    k1 <= k2 ->
    data Sample.long !! k1 = Some r1 -> data Sample.long !! k2 = Some r2 ->
    field Sample.long split_col_index r1 = Int (Z.of_nat i1) ->
    field Sample.long split_col_index r2 = Int (Z.of_nat i2) ->
    i1 <= i2.
Proof.
  split; [unfold rectangular; repeat constructor |].
  split; [vm_compute; reflexivity |].
  apply (long_rows_in_order Sample.combined Sample.long).
  - unfold rectangular. repeat constructor.
  - vm_compute. reflexivity.
Defined.

(** ** Filling and restoring on whole tables *)

Lemma update_at_same (p : nat) (f : cell -> cell) (row : list cell) :
  f (key_at p row) = key_at p row -> update_at p f row = row.
Proof.
  intros Hf. unfold update_at. rewrite Hf. apply list_insert_id'.
  intros Hlt. unfold key_at. destruct (row !! p) as [v|] eqn:Hv; [reflexivity |].
  apply lookup_ge_None in Hv. lia.
Qed.

Lemma fill_cell_idempotent (v : cell) : fill_cell (fill_cell v) = fill_cell v.
Proof. destruct v; reflexivity. Qed.

Lemma fmap_same_rows (f : list cell -> list cell) (df : DataFrame) :
  (forall row, row ∈ data df -> f row = row) ->
  mkFrame (columns df) (f <$> data df) = df.
Proof.
  intros H. destruct df as [cols rows]. cbn [columns data] in *. f_equal.
  rewrite <- (list_fmap_id rows) at 2. apply list_fmap_ext.
  intros i row Hrow. apply H. eapply list_elem_of_lookup_2. eassumption.
Qed.

(** On a table with distinct labels, lines 104-105 leave the labels and the
    number of rows alone, put the placeholder where [moa] or [target] was
    missing and nowhere else, so that no [moa] and no [target] is missing
    afterwards; running them again changes nothing. *)
Theorem filled_df_fills_only_missing (combined filled : DataFrame) :
  NoDup (columns combined) ->
  rectangular combined ->
  filled_df combined = Ok filled ->
  columns filled = columns combined /\
  length (data filled) = length (data combined) /\
  (forall i row frow,
     data combined !! i = Some row -> data filled !! i = Some frow ->
     field filled "moa" frow = fill_cell (field combined "moa" row) /\
     field filled "target" frow = fill_cell (field combined "target" row) /\
     field filled "moa" frow <> NaN /\
     field filled "target" frow <> NaN /\
     forall c, c <> "moa" -> c <> "target" ->
       field filled c frow = field combined c row) /\
  filled_df filled = Ok filled.
Proof.
  intros _ Hrect H.
  destruct (filled_df_Ok _ _ H) as (pm & pt & Hpm & Hpt & Hne & Hf).
  pose proof (index_of_lt _ _ _ Hpm) as Hpmn.
  pose proof (index_of_lt _ _ _ Hpt) as Hptn.
  assert (Hcf : columns filled = columns combined) by (rewrite Hf; reflexivity).
  split; [assumption |]. split; [rewrite Hf; apply length_fmap |]. split.
  - intros i row frow Hrow Hfrow. rewrite Hf in Hfrow. cbn [data] in Hfrow.
    rewrite list_lookup_fmap, Hrow in Hfrow. inversion Hfrow; subst frow; clear Hfrow.
    pose proof (rectangular_lookup _ _ _ Hrect Hrow) as Hlen.
    assert (Hm : field filled "moa" (update_at pt fill_cell (update_at pm fill_cell row))
                 = fill_cell (field combined "moa" row)).
    { unfold field. rewrite Hcf, Hpm. rewrite key_at_two_updates by lia.
      rewrite decide_True by auto. reflexivity. }
    assert (Ht : field filled "target" (update_at pt fill_cell (update_at pm fill_cell row))
                 = fill_cell (field combined "target" row)).
    { unfold field. rewrite Hcf, Hpt. rewrite key_at_two_updates by lia.
      rewrite decide_True by auto. reflexivity. }
    split; [exact Hm |]. split; [exact Ht |].
    split; [rewrite Hm; destruct (field combined "moa" row); discriminate |].
    split; [rewrite Ht; destruct (field combined "target" row); discriminate |].
    intros c Hc1 Hc2. unfold field. rewrite Hcf.
    destruct (index_of c (columns combined)) as [p|] eqn:Hp; [| reflexivity].
    rewrite key_at_two_updates by lia. rewrite decide_False; [reflexivity |].
    intros [-> | ->]; [apply Hc1 | apply Hc2];
      eapply same_position_same_label; eassumption.
  - unfold filled_df. 
    assert (Hstep : forall c p df,
              index_of c (columns df) = Some p ->
              (forall row, row ∈ data df -> fill_cell (key_at p row) = key_at p row) ->
              fill_missing c df = Ok df).
    { intros c p df Hp Hsame.
      destruct (fill_missing_succeeds c df) as [df' Hdf'];
        [eapply list_elem_of_lookup_2, index_of_Some, Hp |].
      rewrite Hdf'. apply fill_missing_Ok in Hdf'. destruct Hdf' as (p' & Hp' & ->).
      assert (p' = p) by congruence. subst p'. f_equal.
      apply fmap_same_rows. intros row Hrow.
      apply (update_at_same p fill_cell). apply Hsame. assumption. }
    assert (Hfilledrows : forall frow, frow ∈ data filled ->
              fill_cell (key_at pm frow) = key_at pm frow /\
              fill_cell (key_at pt frow) = key_at pt frow).
    { intros frow Hfrow. rewrite Hf in Hfrow. cbn [data] in Hfrow.
      apply list_elem_of_fmap in Hfrow. destruct Hfrow as (row & -> & Hrow).
      assert (Hlen : length row = length (columns combined)).
      { unfold rectangular in Hrect. rewrite Forall_forall in Hrect. auto. }
      rewrite !key_at_two_updates by lia. rewrite !decide_True by auto.
      rewrite !fill_cell_idempotent. auto. }
    rewrite (Hstep "moa" pm filled); [| rewrite Hcf; assumption | apply Hfilledrows].
    cbn [mbind result_bind].
    apply (Hstep "target" pt filled); [rewrite Hcf; assumption | apply Hfilledrows].
Qed.

Lemma filled_df_fills_only_missing_witness :
  NoDup (columns Sample.combined) /\
  rectangular Sample.combined /\
  filled_df Sample.combined = Ok Sample.filled /\
  columns Sample.filled = columns Sample.combined /\
  length (data Sample.filled) = length (data Sample.combined) /\
  (forall i row frow,
     data Sample.combined !! i = Some row -> data Sample.filled !! i = Some frow ->
     field Sample.filled "moa" frow = fill_cell (field Sample.combined "moa" row) /\
     field Sample.filled "target" frow = fill_cell (field Sample.combined "target" row) /\
     field Sample.filled "moa" frow <> NaN /\
     field Sample.filled "target" frow <> NaN /\
     forall c, c <> "moa" -> c <> "target" ->
       field Sample.filled c frow = field Sample.combined c row) /\
  filled_df Sample.filled = Ok Sample.filled.
Proof.
  assert (Hnd : NoDup (columns Sample.combined))
    by (apply (bool_decide_unpack (NoDup (columns Sample.combined))); vm_compute; exact I).
  split; [exact Hnd |].
  split; [unfold rectangular; repeat constructor |].
  split; [vm_compute; reflexivity |].
  apply (filled_df_fills_only_missing Sample.combined Sample.filled).
  - exact Hnd.
  - unfold rectangular. repeat constructor.
  - vm_compute. reflexivity.
Defined.

(** On a [moa] or [target] column of texts and missing entries that never
    holds the placeholder text, lines 104-105 followed by lines 163 and 167
    are the identity: the fill and the restoration cancel. *)
Theorem fill_then_restore_gives_back (c : string) (df : DataFrame) :
  c = "moa" \/ c = "target" ->
  NoDup (columns df) ->
  rectangular df ->
  c ∈ columns df ->
  (forall row, row ∈ data df ->
     text_or_missing (field df c row) /\ field df c row <> Str placeholder) ->
  exists df1, fill_missing c df = Ok df1 /\ restore_missing c df1 = Ok df.
Proof.
  intros _ _ Hrect Hc Hclean'.
  assert (Hclean : forall row, row ∈ data df -> field df c row <> Str placeholder)
    by (intros row Hrow; apply (Hclean' row Hrow)).
  clear Hclean'.
  destruct (index_of_elem _ _ Hc) as [p Hp].
  destruct (fill_missing_succeeds c df Hc) as [df1 Hdf1].
  exists df1. split; [assumption |].
  apply fill_missing_Ok in Hdf1. destruct Hdf1 as (p' & Hp' & ->).
  assert (p' = p) by congruence. subst p'.
  destruct (restore_missing_succeeds c
              (mkFrame (columns df)
                 ((fun row => <[p := fill_cell (key_at p row)]> row) <$> data df)))
    as [df2 Hdf2]; [exact Hc |].
  rewrite Hdf2. apply restore_missing_Ok in Hdf2. destruct Hdf2 as (q & Hq & ->).
  cbn [columns data] in *. assert (q = p) by congruence. subst q. f_equal.
  rewrite <- list_fmap_compose. apply fmap_same_rows. intros row Hrow.
  unfold compose. change (<[p := fill_cell (key_at p row)]> row) with (update_at p fill_cell row).
  change (<[p := restore_cell (key_at p (update_at p fill_cell row))]>
            (update_at p fill_cell row))
    with (update_at p restore_cell (update_at p fill_cell row)).
  assert (Hlen : p < length row).
  { unfold rectangular in Hrect. rewrite Forall_forall in Hrect.
    rewrite (Hrect row Hrow). eapply index_of_lt. eassumption. }
  rewrite update_at_twice by assumption. apply update_at_same.
  rewrite restore_fill. specialize (Hclean row Hrow). unfold field in Hclean.
  rewrite Hp in Hclean. unfold restore_cell. rewrite decide_False; [reflexivity | assumption].
Qed.

Lemma fill_then_restore_gives_back_witness :
  NoDup (columns Sample.combined) /\
  rectangular Sample.combined /\
  "target" ∈ columns Sample.combined /\
  (forall row, row ∈ data Sample.combined ->
     text_or_missing (field Sample.combined "target" row) /\
     field Sample.combined "target" row <> Str placeholder) /\
  exists df1,
    fill_missing "target" Sample.combined = Ok df1 /\
    restore_missing "target" df1 = Ok Sample.combined.
Proof.
  assert (Hnd : NoDup (columns Sample.combined))
    by (apply (bool_decide_unpack (NoDup (columns Sample.combined))); vm_compute; exact I).
  assert (Hclean : forall row, row ∈ data Sample.combined ->
                     text_or_missing (field Sample.combined "target" row) /\
                     field Sample.combined "target" row <> Str placeholder).
  { apply Forall_forall.
    repeat (constructor; [vm_compute; split; [exact I | discriminate] |]). constructor. }
  assert (Hc : "target" ∈ columns Sample.combined)
    by (apply (bool_decide_unpack ("target" ∈ columns Sample.combined)); vm_compute; exact I).
  split; [exact Hnd |].
  split; [unfold rectangular; repeat constructor |].
  split; [exact Hc |]. split; [exact Hclean |].
  apply (fill_then_restore_gives_back "target" Sample.combined).
  - right. reflexivity.
  - exact Hnd.
  - unfold rectangular. repeat constructor.
  - exact Hc.
  - exact Hclean.
Defined.

(** ** When lines 75-81 succeed and how they fail *)

Lemma reorder_and_assign_cases conv (joined : DataFrame) :
  (("broad_id" ∉ columns joined) /\
   reorder_and_assign conv joined = Raise ValueError) \/
  ("broad_id" ∈ columns joined /\
   get_column "InChIKey" joined = None /\
   reorder_and_assign conv joined = Raise AttributeError) \/
  (exists keys x,
     "broad_id" ∈ columns joined /\
     get_column "InChIKey" joined = Some keys /\
     x ∈ keys /\ (forall s, x <> Str s) /\
     reorder_and_assign conv joined = Raise AttributeError) \/
  (exists keys combined,
     "broad_id" ∈ columns joined /\
     get_column "InChIKey" joined = Some keys /\
     Forall (fun x => exists s, x = Str s) keys /\
     reorder_and_assign conv joined = Ok combined).
Proof.
  destruct (index_of "broad_id" (columns joined)) as [i|] eqn:Hi.
  2:{ left. split; [apply index_of_None; assumption |].
      unfold reorder_and_assign, col_order. rewrite Hi. reflexivity. }
  right.
  assert (Hb : "broad_id" ∈ columns joined)
    by (eapply list_elem_of_lookup_2, index_of_Some, Hi).
  unfold reorder_and_assign, col_order, pop. rewrite Hi.
  cbn [lift mbind result_bind]. rewrite (index_of_Some _ _ _ Hi).
  cbn [mbind option_bind lift result_bind].
  assert (Hloc : exists ordered,
            loc_columns ("broad_id" :: delete i (columns joined)) joined = Ok ordered).
  { unfold loc_columns.
    replace (forallb _ _) with true; [eauto |].
    symmetry. apply forallb_forall. intros c Hc. apply list_elem_of_In in Hc.
    apply bool_decide_eq_true, positions_present.
    apply elem_of_cons in Hc. destruct Hc as [-> | Hc]; [assumption |].
    eapply list_elem_of_delete_inv. eassumption. }
  destruct Hloc as [ordered ->]. cbn [mbind result_bind].
  destruct (get_column "InChIKey" joined) as [keys|] eqn:Hk;
    cbn [lift mbind result_bind]; [| left; auto].
  right. destruct (mapM (InChIKey14 conv) keys) as [keys14|e] eqn:Hmap;
    cbn [mbind result_bind].
  - right. exists keys, (assign "InChIKey14" keys14 ordered).
    split; [assumption |]. split; [reflexivity |]. split; [| reflexivity].
    apply mapM_Ok in Hmap. clear Hk.
    induction Hmap as [|x k keys keys14 Hx _ IH]; constructor; [| exact IH].
    apply InChIKey14_Ok in Hx. destruct Hx as (s & -> & _). eauto.
  - left. apply mapM_Raise in Hmap. destruct Hmap as (x & Hx & Hraise).
    exists keys, x. split; [assumption |]. split; [reflexivity |].
    split; [assumption |].
    unfold InChIKey14, to_inchikey in Hraise. destruct x as [|s|n].
    + simpl in Hraise. inversion Hraise. split; [discriminate | reflexivity].
    + destruct (startswith "InChI" s); discriminate Hraise.
    + simpl in Hraise. inversion Hraise. split; [discriminate | reflexivity].
Qed.

(** On a join with distinct labels, lines 75-81 succeed exactly when it has
    a [broad_id] column and an [InChIKey] column whose cells are all text: a
    missing or numeric key has no [startswith]. *)
Theorem reorder_and_assign_succeeds_iff conv (joined : DataFrame) :
  NoDup (columns joined) -> rectangular joined ->
  ((exists combined, reorder_and_assign conv joined = Ok combined) <->
   "broad_id" ∈ columns joined /\
   exists keys,
     get_column "InChIKey" joined = Some keys /\
     Forall (fun x => exists s, x = Str s) keys).
Proof.
  intros _ _. split.
  - intros [combined H].
    destruct (reorder_and_assign_cases conv joined)
      as [[_ H'] | [(_ & _ & H') | [(keys & x & _ & _ & _ & _ & H')
          | (keys & combined' & Hb & Hk & Htext & _)]]];
      try (rewrite H' in H; discriminate H).
    eauto.
  - intros (Hb & keys & Hk & Htext). eapply reorder_and_assign_succeeds; eassumption.
Qed.

Lemma reorder_and_assign_succeeds_iff_witness :
  NoDup (columns Sample.joined) /\ rectangular Sample.joined /\
  ((exists combined,
      reorder_and_assign Sample.InchiToInchiKey Sample.joined = Ok combined) <->
   "broad_id" ∈ columns Sample.joined /\
   exists keys,
     get_column "InChIKey" Sample.joined = Some keys /\
     Forall (fun x => exists s, x = Str s) keys).
Proof.
  assert (Hnd : NoDup (columns Sample.joined))
    by (apply (bool_decide_unpack (NoDup (columns Sample.joined))); vm_compute; exact I).
  assert (Hrect : rectangular Sample.joined) by (unfold rectangular; repeat constructor).
  split; [exact Hnd |]. split; [exact Hrect |].
  apply (reorder_and_assign_succeeds_iff Sample.InchiToInchiKey Sample.joined).
  - exact Hnd.
  - exact Hrect.
Defined.

(** How lines 75-81 fail on a join with distinct labels: with a
    [ValueError] exactly when the join has no [broad_id] column (line 76),
    with an [AttributeError] exactly when it has one and the [InChIKey]
    column is absent or holds a cell that is not text (line 79), and with no
    other exception. *)
Theorem reorder_and_assign_errors conv (joined : DataFrame) :
  NoDup (columns joined) -> rectangular joined ->
  (reorder_and_assign conv joined = Raise ValueError <->
   "broad_id" ∉ columns joined) /\
  (reorder_and_assign conv joined = Raise AttributeError <->
   "broad_id" ∈ columns joined /\
   (get_column "InChIKey" joined = None \/
    exists keys x,
      get_column "InChIKey" joined = Some keys /\ x ∈ keys /\ forall s, x <> Str s)) /\
  (forall e, reorder_and_assign conv joined = Raise e ->
     e = ValueError \/ e = AttributeError).
Proof.
  intros _ _.
  destruct (reorder_and_assign_cases conv joined)
    as [[Hb H] | [(Hb & Hk & H) | [(keys & x & Hb & Hk & Hx & Hnot & H)
        | (keys & combined & Hb & Hk & Htext & H)]]];
    rewrite H.
  - split; [split; auto |]. split.
    + split; [discriminate | intros [Hb' _]; contradiction].
    + intros e [= <-]. auto.
  - split; [split; [discriminate | intros Hb'; contradiction] |]. split.
    + split; auto.
    + intros e [= <-]. auto.
  - split; [split; [discriminate | intros Hb'; contradiction] |]. split.
    + split; [| reflexivity]. intros _. split; [assumption |]. right. eauto.
    + intros e [= <-]. auto.
  - split; [split; [discriminate | intros Hb'; contradiction] |]. split.
    + split; [discriminate |]. intros [_ [Hnone | (keys' & x & Hk' & Hx & Hnot)]].
      * congruence.
      * exfalso. assert (keys' = keys) by congruence. subst keys'.
        rewrite Forall_forall in Htext. destruct (Htext x Hx) as [s Hs].
        exact (Hnot s Hs).
    + intros e He. discriminate He.
Qed.

Lemma reorder_and_assign_errors_witness :
  NoDup (columns Overlap.both_joined) /\ rectangular Overlap.both_joined /\
  (reorder_and_assign Sample.InchiToInchiKey Overlap.both_joined = Raise ValueError <->
   "broad_id" ∉ columns Overlap.both_joined) /\
  (reorder_and_assign Sample.InchiToInchiKey Overlap.both_joined = Raise AttributeError <->
   "broad_id" ∈ columns Overlap.both_joined /\
   (get_column "InChIKey" Overlap.both_joined = None \/
    exists keys x,
      get_column "InChIKey" Overlap.both_joined = Some keys /\
      x ∈ keys /\ forall s, x <> Str s)) /\
  (forall e, reorder_and_assign Sample.InchiToInchiKey Overlap.both_joined = Raise e ->
     e = ValueError \/ e = AttributeError).
Proof.
  assert (Hnd : NoDup (columns Overlap.both_joined))
    by (apply (bool_decide_unpack (NoDup (columns Overlap.both_joined)));
        vm_compute; exact I).
  assert (Hrect : rectangular Overlap.both_joined)
    by (unfold rectangular; repeat constructor).
  split; [exact Hnd |]. split; [exact Hrect |].
  apply (reorder_and_assign_errors Sample.InchiToInchiKey Overlap.both_joined).
  - exact Hnd.
  - exact Hrect.
Defined.

(** ** When lines 104-170 succeed *)

(** On a combined table with distinct labels and at least one row, whose
    [moa] and [target] cells are text or missing, the long table is made
    exactly when the table has a [moa] and a [target] column and no column
    named [moa_unique] or [target_unique]: such a column would get a suffix
    in the merges, and lines 163-170 would not find the name they look
    for.  A column [repurposing_info_index] of the table's own does not
    stop the run; the suffixed names it leads to are taken to be free. *)
Theorem long_combined_df_succeeds_iff (combined : DataFrame) :
  NoDup (columns combined) ->
  rectangular combined ->
  data combined <> [] ->
  (split_col_index ∈ columns combined ->
   (split_col_index +:+ "_x" ∉ columns combined) /\
   (split_col_index +:+ "_y" ∉ columns combined)) ->
  Forall (fun row => text_or_missing (field combined "moa" row) /\
                     text_or_missing (field combined "target" row))
         (data combined) ->
  ((exists long, long_combined_df combined = Ok long) <->
   "moa" ∈ columns combined /\ "target" ∈ columns combined /\
   ("moa_unique" ∉ columns combined) /\
   ("target_unique" ∉ columns combined)).
Proof.
  intros _ Hrect _ _ Htext. split.
  - intros [long H].
    destruct (long_combined_df_Ok _ _ Hrect H)
      as (pm & pt & filled & merged & Hpm & Hpt & Hne & Hmu & Htu & _).
    split; [eapply list_elem_of_lookup_2, index_of_Some, Hpm |].
    split; [eapply list_elem_of_lookup_2, index_of_Some, Hpt |]. auto.
  - intros (Hm & Ht & Hmu & Htu). apply long_combined_df_succeeds; assumption.
Qed.

Lemma long_combined_df_succeeds_iff_witness :
  NoDup (columns Keyed.keyed_combined) /\
  rectangular Keyed.keyed_combined /\
  data Keyed.keyed_combined <> [] /\
  (split_col_index ∈ columns Keyed.keyed_combined ->
   (split_col_index +:+ "_x" ∉ columns Keyed.keyed_combined) /\
   (split_col_index +:+ "_y" ∉ columns Keyed.keyed_combined)) /\
  Forall (fun row => text_or_missing (field Keyed.keyed_combined "moa" row) /\
                     text_or_missing (field Keyed.keyed_combined "target" row))
         (data Keyed.keyed_combined) /\
  ((exists long, long_combined_df Keyed.keyed_combined = Ok long) <->
   "moa" ∈ columns Keyed.keyed_combined /\ "target" ∈ columns Keyed.keyed_combined /\
   ("moa_unique" ∉ columns Keyed.keyed_combined) /\
   ("target_unique" ∉ columns Keyed.keyed_combined)).
Proof.
  assert (Htext : Forall (fun row =>
                            text_or_missing (field Keyed.keyed_combined "moa" row) /\
                            text_or_missing (field Keyed.keyed_combined "target" row))
                         (data Keyed.keyed_combined)).
  { repeat (constructor; [vm_compute; split; exact I |]). constructor. }
  assert (Hnd : NoDup (columns Keyed.keyed_combined))
    by (apply (bool_decide_unpack (NoDup (columns Keyed.keyed_combined)));
        vm_compute; exact I).
  assert (Hfree : split_col_index ∈ columns Keyed.keyed_combined ->
                  (split_col_index +:+ "_x" ∉ columns Keyed.keyed_combined) /\
                  (split_col_index +:+ "_y" ∉ columns Keyed.keyed_combined)).
  { intros _. split.
    - apply (bool_decide_unpack
               (split_col_index +:+ "_x" ∉ columns Keyed.keyed_combined)).
      vm_compute. exact I.
    - apply (bool_decide_unpack
               (split_col_index +:+ "_y" ∉ columns Keyed.keyed_combined)).
      vm_compute. exact I. }
  split; [exact Hnd |].
  split; [unfold rectangular; repeat constructor |].
  split; [discriminate |].
  split; [exact Hfree |].
  split; [exact Htext |].
  apply (long_combined_df_succeeds_iff Keyed.keyed_combined).
  - exact Hnd.
  - unfold rectangular. repeat constructor.
  - discriminate.
  - exact Hfree.
  - exact Htext.
Defined.

(** ** More on the derived identifier *)

Lemma take_prefix_append (block rest : string) :
  take_prefix (String.length block) (block +:+ rest) = block.
Proof.
  unfold take_prefix. induction block as [|c block IH]; simpl.
  - destruct rest; reflexivity.
  - rewrite IH. reflexivity.
Qed.

(** A key that is not an InChI string is cut to its first block: a cell made
    of a block of 14 characters and anything after it gets the block as
    [InChIKey14], so keys that differ only after the first block get the
    same identifier. *)
Theorem InChIKey14_is_first_block conv (block rest : string) :
  String.length block = 14 ->
  startswith "InChI" (block +:+ rest) = false ->
  InChIKey14 conv (Str (block +:+ rest)) = Ok (Str block).
Proof.
  intros Hlen Hplain. unfold InChIKey14, to_inchikey. rewrite Hplain.
  cbn [mbind result_bind]. unfold first14, py_str.
  rewrite <- Hlen, take_prefix_append. reflexivity.
Qed.

Lemma InChIKey14_is_first_block_witness :
  String.length "BSYNRYMUTXBXSQ" = 14 /\
  startswith "InChI" ("BSYNRYMUTXBXSQ" +:+ "-UHFFFAOYSA-N") = false /\
  InChIKey14 Sample.InchiToInchiKey (Str ("BSYNRYMUTXBXSQ" +:+ "-UHFFFAOYSA-N"))
  = Ok (Str "BSYNRYMUTXBXSQ").
Proof.
  split; [reflexivity |]. split; [reflexivity |].
  apply (InChIKey14_is_first_block Sample.InchiToInchiKey
           "BSYNRYMUTXBXSQ" "-UHFFFAOYSA-N"); reflexivity.
Defined.

(** ** More on the join of lines 70-72 *)

(** A label that does not itself end in a suffix is never produced by
    adding one. *)
Ltac suffix_clash H c :=
  repeat (destruct c as [|? c];
          [vm_compute in H; discriminate H | simpl in H; injection H as _ H]);
  destruct c; discriminate H.

Lemma pert_iname_is_no_suffixed_label (c suffix : string) :
  suffix = "_x" \/ suffix = "_y" -> c +:+ suffix <> "pert_iname".
Proof. intros [-> | ->] H; suffix_clash H c. Qed.

Lemma broad_id_is_no_suffixed_label (c suffix : string) :
  suffix = "_x" \/ suffix = "_y" -> c +:+ suffix <> "broad_id".
Proof. intros [-> | ->] H; suffix_clash H c. Qed.

Lemma index_of_add_suffix (key suffix : string) (other cols : list string) :
  key ∉ other -> (forall c, c +:+ suffix <> key) ->
  index_of key (add_suffix suffix other <$> cols) = index_of key cols.
Proof.
  intros Hkey Hsuffix. induction cols as [|y cols IH]; [reflexivity |].
  rewrite fmap_cons. simpl. rewrite IH.
  destruct (decide (key = y)) as [<-|Hne].
  - unfold add_suffix. rewrite (decide_False (P := key ∈ other)) by assumption.
    rewrite decide_True by reflexivity. reflexivity.
  - rewrite decide_False; [reflexivity |].
    destruct (add_suffix_cases suffix other y) as [[_ ->] | [_ ->]];
      [assumption | apply not_eq_sym, Hsuffix].
Qed.

Lemma elem_of_delete_other {A : Type} (x y : A) (i : nat) (l : list A) :
  l !! i = Some x -> y ∈ l -> y <> x -> y ∈ delete i l.
Proof.
  intros Hi Hy Hne. apply list_elem_of_lookup in Hy. destruct Hy as [j Hj].
  assert (j <> i) by (intros ->; congruence).
  destruct (decide (j < i)).
  - apply (list_elem_of_lookup_2 _ j). rewrite list_lookup_delete_lt; assumption.
  - destruct j as [|j]; [lia |].
    apply (list_elem_of_lookup_2 _ j). rewrite list_lookup_delete_ge by lia. assumption.
Qed.

(** The name cell of a joined row is the name cell of the drug row it was
    made from. *)
Lemma field_joined_pert_iname (drug_df sample_df joined : DataFrame)
    (d extra : list cell) :
  rectangular drug_df -> NoDup (columns sample_df) ->
  joined_df drug_df sample_df = Ok joined ->
  d ∈ data drug_df ->
  field joined "pert_iname" (d ++ extra) = field drug_df "pert_iname" d.
Proof.
  intros Hrect Hnd H Hd. unfold joined_df, merge_inner in H.
  ok_step H. ok_step H. rename a into lk, a0 into rk.
  inversion H; subst; clear H. unfold field. cbn [columns]. rewrite Ha.
  unfold merged_columns.
  assert (Hkey : "pert_iname" ∉ delete rk (columns sample_df)).
  { apply not_elem_of_delete_NoDup; [assumption | apply index_of_Some; assumption]. }
  erewrite index_of_app_l.
  2:{ rewrite index_of_add_suffix; [exact Ha | exact Hkey |].
      intros c. apply pert_iname_is_no_suffixed_label. auto. }
  apply key_at_app_l. unfold rectangular in Hrect. rewrite Forall_forall in Hrect.
  rewrite (Hrect d Hd). eapply index_of_lt. eassumption.
Qed.

(** After the assertions have passed, the consolidated join has exactly the
    compound names of the drug table, which are those of the sample table:
    the join neither loses a compound nor invents one. *)
Theorem joined_keeps_the_names (drug_df sample_df joined : DataFrame) :
  rectangular drug_df -> NoDup (columns sample_df) ->
  check_pert_iname drug_df sample_df = Ok tt ->
  joined_df drug_df sample_df = Ok joined ->
  exists dnames snames jnames,
    get_column "pert_iname" drug_df = Some dnames /\
    get_column "pert_iname" sample_df = Some snames /\
    get_column "pert_iname" joined = Some jnames /\
    forall v, (v ∈ jnames <-> v ∈ dnames) /\ (v ∈ jnames <-> v ∈ snames).
Proof.
  intros Hrect Hnd Hc Hj.
  pose proof (merge_inner_rows _ _ _ _ Hj) as Hrows.
  apply check_pert_iname_Ok in Hc. destruct Hc as (dnames & snames & Hd & Hs & Hsame).
  assert (Hjcol : exists jnames, get_column "pert_iname" joined = Some jnames).
  { unfold get_column.
    destruct (index_of "pert_iname" (columns joined)) as [p|] eqn:Hp; [simpl; eauto |].
    exfalso. revert Hp. unfold joined_df, merge_inner in Hj.
    ok_step Hj. ok_step Hj. inversion Hj; subst; clear Hj. cbn [columns].
    unfold merged_columns. erewrite index_of_app_l; [discriminate |].
    rewrite index_of_add_suffix; [exact Ha | |].
    - apply not_elem_of_delete_NoDup; [assumption | apply index_of_Some; assumption].
    - intros c. apply pert_iname_is_no_suffixed_label. auto. }
  destruct Hjcol as [jnames Hjn]. exists dnames, snames, jnames.
  repeat (split; [assumption |]).
  assert (Hjd : forall v, v ∈ jnames <-> v ∈ dnames).
  { intros v. rewrite (get_column_elem _ _ _ v Hjn), (get_column_elem _ _ _ v Hd). split.
    - intros (out & Hout & <-). apply Hrows in Hout.
      destruct Hout as (d & s & Hdin & _ & _ & ->). exists d. split; [assumption |].
      symmetry. eapply field_joined_pert_iname; eassumption.
    - intros (d & Hdin & <-).
      assert (Hv : field drug_df "pert_iname" d ∈ snames).
      { apply Hsame. apply (get_column_elem _ _ _ _ Hd). eauto. }
      apply (get_column_elem _ _ _ _ Hs) in Hv. destruct Hv as (s & Hsin & Heq).
      exists (d ++ without sample_df "pert_iname" s). split.
      + apply Hrows. exists d, s. auto.
      + eapply field_joined_pert_iname; eassumption. }
  intros v. split; [apply Hjd |]. rewrite Hjd. apply Hsame.
Qed.

Lemma joined_keeps_the_names_witness :
  rectangular Sample.drug_df /\ NoDup (columns Sample.sample_df) /\
  check_pert_iname Sample.drug_df Sample.sample_df = Ok tt /\
  joined_df Sample.drug_df Sample.sample_df = Ok Sample.joined /\
  exists dnames snames jnames,
    get_column "pert_iname" Sample.drug_df = Some dnames /\
    get_column "pert_iname" Sample.sample_df = Some snames /\
    get_column "pert_iname" Sample.joined = Some jnames /\
    forall v, (v ∈ jnames <-> v ∈ dnames) /\ (v ∈ jnames <-> v ∈ snames).
Proof.
  assert (Hnd : NoDup (columns Sample.sample_df))
    by (apply (bool_decide_unpack (NoDup (columns Sample.sample_df))); vm_compute; exact I).
  split; [unfold rectangular; repeat constructor |].
  split; [exact Hnd |].
  split; [vm_compute; reflexivity |].
  split; [vm_compute; reflexivity |].
  apply (joined_keeps_the_names Sample.drug_df Sample.sample_df Sample.joined).
  - unfold rectangular. repeat constructor.
  - exact Hnd.
  - vm_compute. reflexivity.
  - vm_compute. reflexivity.
Defined.

Lemma length_bind {A B : Type} (f : A -> list B) (l : list A) :
  length (l ≫= f) = sum_list ((fun x => length (f x)) <$> l).
Proof.
  induction l as [|x l IH]; [reflexivity |].
  rewrite bind_cons, length_app, IH. reflexivity.
Qed.

Lemma sum_list_plus {A : Type} (f g : A -> nat) (l : list A) :
  sum_list ((fun x => f x + g x) <$> l) = sum_list (f <$> l) + sum_list (g <$> l).
Proof.
  induction l as [|x l IH]; [reflexivity |].
  rewrite !fmap_cons. simpl. rewrite IH. lia.
Qed.

Lemma sum_list_indicator {A : Type} (P : A -> Prop) `{!forall x, Decision (P x)}
    (l : list A) :
  sum_list ((fun x => if decide (P x) then 1 else 0) <$> l) = length (filter P l).
Proof.
  induction l as [|x l IH]; [reflexivity |].
  rewrite fmap_cons. simpl. rewrite IH. destruct (decide (P x)).
  - rewrite filter_cons_True by assumption. reflexivity.
  - rewrite filter_cons_False by assumption. reflexivity.
Qed.

(** Counting the matching pairs by left row or by right row gives the same
    number. *)
Lemma count_pairs_either_way {A B : Type} (kl : A -> cell) (kr : B -> cell)
    (L : list A) (R : list B) :
  sum_list ((fun l => length (filter (fun r => kr r = kl l) R)) <$> L)
  = sum_list ((fun r => length (filter (fun l => kl l = kr r) L)) <$> R).
Proof.
  induction R as [|r R IH].
  - rewrite fmap_nil. simpl. induction L as [|l L IHL]; [reflexivity |].
    rewrite fmap_cons. simpl. exact IHL.
  - rewrite fmap_cons. simpl. rewrite <- IH, <- sum_list_indicator, <- sum_list_plus.
    f_equal. apply list_fmap_ext. intros i l _.
    destruct (decide (kr r = kl l)) as [Heq|Hne].
    + rewrite filter_cons_True by assumption. rewrite decide_True by congruence. reflexivity.
    + rewrite filter_cons_False by assumption. rewrite decide_False by congruence. reflexivity.
Qed.

Lemma filter_key_NoDup {A : Type} (f : A -> cell) (k : cell) (l : list A) :
  NoDup (f <$> l) -> length (filter (fun x => f x = k) l) <= 1.
Proof.
  induction l as [|x l IH]; intros Hnd; [simpl; lia |].
  rewrite fmap_cons in Hnd. apply NoDup_cons in Hnd. destruct Hnd as [Hx Hnd].
  destruct (decide (f x = k)) as [Heq|Hne].
  - rewrite filter_cons_True by assumption. simpl.
    rewrite filter_drop; [simpl; lia |].
    apply Forall_forall. intros y Hy Hfy. apply Hx. rewrite Heq, <- Hfy.
    apply list_elem_of_fmap. eauto.
  - rewrite filter_cons_False by assumption. auto.
Qed.

Lemma filter_key_present {A : Type} (f : A -> cell) (k : cell) (l : list A) :
  k ∈ f <$> l -> 1 <= length (filter (fun x => f x = k) l).
Proof.
  intros Hk. apply list_elem_of_fmap in Hk. destruct Hk as (x & -> & Hx).
  assert (Hin : x ∈ filter (fun y => f y = f x) l)
    by (apply list_elem_of_filter; auto).
  destruct (filter (fun y => f y = f x) l); [apply elem_of_nil in Hin; contradiction |].
  simpl. lia.
Qed.

Lemma sum_list_at_least_Forall {A : Type} (f : A -> nat) (l : list A) :
  Forall (fun x => 1 <= f x) l -> length l <= sum_list (f <$> l).
Proof.
  induction 1 as [|x l Hx _ IH]; [reflexivity |].
  rewrite fmap_cons. simpl. lia.
Qed.

(** After the assertions have passed, the join has at least one row for
    every sample, and exactly one when no two drug rows carry the same
    name: the consolidated table then has as many rows as the sample
    table. *)
Theorem joined_row_count (drug_df sample_df joined : DataFrame) :
  check_pert_iname drug_df sample_df = Ok tt ->
  joined_df drug_df sample_df = Ok joined ->
  length (data sample_df) <= length (data joined) /\
  (forall dnames,
     get_column "pert_iname" drug_df = Some dnames -> NoDup dnames ->
     length (data joined) = length (data sample_df)).
Proof.
  intros Hc Hj. apply check_pert_iname_Ok in Hc.
  destruct Hc as (dnames & snames & Hd & Hs & Hsame).
  unfold joined_df, merge_inner in Hj. ok_step Hj. ok_step Hj.
  rename a into lk, a0 into rk. inversion Hj; subst; clear Hj. cbn [data].
  unfold get_column in Hd, Hs |- *. rewrite Ha in Hd |- *. rewrite Ha0 in Hs.
  cbn [mbind option_bind] in Hd, Hs |- *. inversion Hd; subst; clear Hd.
  inversion Hs; subst; clear Hs.
  assert (Hlen : length (data drug_df ≫= fun l =>
                   (fun r => l ++ delete rk r)
                     <$> filter (fun r => key_at rk r = key_at lk l) (data sample_df))
                 = sum_list ((fun r => length (filter (fun l => key_at lk l = key_at rk r)
                                                 (data drug_df)))
                               <$> data sample_df)).
  { rewrite length_bind, <- count_pairs_either_way. f_equal.
    apply list_fmap_ext. intros i l _. apply length_fmap. }
  rewrite Hlen.
  assert (Hpresent : Forall (fun r => 1 <= length (filter (fun l => key_at lk l = key_at rk r)
                                                     (data drug_df)))
                            (data sample_df)).
  { apply Forall_forall. intros r Hr. apply (filter_key_present (key_at lk)).
    apply Hsame. apply list_elem_of_fmap. eauto. }
  split; [apply sum_list_at_least_Forall; exact Hpresent |].
  intros dnames [= <-] Hnd.
  rewrite (sum_list_fmap_same 1); [lia |].
  eapply Forall_impl; [exact Hpresent |]. intros r Hr. simpl in *.
  pose proof (filter_key_NoDup (key_at lk) (key_at rk r) (data drug_df) Hnd). lia.
Qed.

Lemma joined_row_count_witness :
  check_pert_iname Sample.drug_df Sample.sample_df = Ok tt /\
  joined_df Sample.drug_df Sample.sample_df = Ok Sample.joined /\
  length (data Sample.sample_df) <= length (data Sample.joined) /\
  (forall dnames,
     get_column "pert_iname" Sample.drug_df = Some dnames -> NoDup dnames ->
     length (data Sample.joined) = length (data Sample.sample_df)).
Proof.
  split; [vm_compute; reflexivity |].
  split; [vm_compute; reflexivity |].
  apply (joined_row_count Sample.drug_df Sample.sample_df Sample.joined);
    vm_compute; reflexivity.
Defined.

(** A label the two tables share besides the key is kept under neither
    name: when both carry a [broad_id] column (labels distinct within each
    table and within the join) the join has [broad_id_x] and [broad_id_y]
    and no [broad_id], and line 76 raises a [ValueError]. *)
Theorem shared_broad_id_fails conv (drug_df sample_df joined : DataFrame) :
  NoDup (columns drug_df) -> NoDup (columns sample_df) -> NoDup (columns joined) ->
  "broad_id" ∈ columns drug_df -> "broad_id" ∈ columns sample_df ->
  joined_df drug_df sample_df = Ok joined ->
  "broad_id_x" ∈ columns joined /\ "broad_id_y" ∈ columns joined /\
  ("broad_id" ∉ columns joined) /\
  reorder_and_assign conv joined = Raise ValueError.
Proof.
  intros _ _ _ Hd Hs H. unfold joined_df, merge_inner in H.
  ok_step H. ok_step H. rename a into lk, a0 into rk. inversion H; subst; clear H.
  cbn [columns].
  assert (Hs' : "broad_id" ∈ delete rk (columns sample_df)).
  { eapply elem_of_delete_other; [apply index_of_Some; eassumption | assumption |].
    discriminate. }
  assert (Hnot : "broad_id"
                 ∉ merged_columns (columns drug_df) (delete rk (columns sample_df))).
  { intros Hin. apply elem_of_merged_columns in Hin.
    destruct Hin as [[_ Hn] | [(c & _ & _ & Hc) | [[_ Hn] | (c & _ & _ & Hc)]]];
      try contradiction.
    - symmetry in Hc. revert Hc. apply broad_id_is_no_suffixed_label. auto.
    - symmetry in Hc. revert Hc. apply broad_id_is_no_suffixed_label. auto. }
  split; [| split; [| split; [exact Hnot |]]].
  - unfold merged_columns. apply elem_of_app. left. apply list_elem_of_fmap.
    exists "broad_id". split; [| assumption].
    unfold add_suffix. rewrite decide_True by assumption. reflexivity.
  - unfold merged_columns. apply elem_of_app. right. apply list_elem_of_fmap.
    exists "broad_id". split; [| assumption].
    unfold add_suffix. rewrite decide_True by assumption. reflexivity.
  - unfold reorder_and_assign, col_order. cbn [columns].
    apply index_of_None in Hnot. rewrite Hnot. reflexivity.
Qed.

Lemma shared_broad_id_fails_witness :
  NoDup (columns Overlap.both_drug_df) /\
  NoDup (columns Overlap.both_sample_df) /\
  NoDup (columns Overlap.both_joined) /\
  "broad_id" ∈ columns Overlap.both_drug_df /\
  "broad_id" ∈ columns Overlap.both_sample_df /\
  joined_df Overlap.both_drug_df Overlap.both_sample_df = Ok Overlap.both_joined /\
  "broad_id_x" ∈ columns Overlap.both_joined /\
  "broad_id_y" ∈ columns Overlap.both_joined /\
  ("broad_id" ∉ columns Overlap.both_joined) /\
  reorder_and_assign Sample.InchiToInchiKey Overlap.both_joined = Raise ValueError.
Proof.
  assert (Hd : "broad_id" ∈ columns Overlap.both_drug_df)
    by (apply (bool_decide_unpack ("broad_id" ∈ columns Overlap.both_drug_df));
        vm_compute; exact I).
  assert (Hs : "broad_id" ∈ columns Overlap.both_sample_df)
    by (apply (bool_decide_unpack ("broad_id" ∈ columns Overlap.both_sample_df));
        vm_compute; exact I).
  assert (Hnd1 : NoDup (columns Overlap.both_drug_df))
    by (apply (bool_decide_unpack (NoDup (columns Overlap.both_drug_df)));
        vm_compute; exact I).
  assert (Hnd2 : NoDup (columns Overlap.both_sample_df))
    by (apply (bool_decide_unpack (NoDup (columns Overlap.both_sample_df)));
        vm_compute; exact I).
  assert (Hnd3 : NoDup (columns Overlap.both_joined))
    by (apply (bool_decide_unpack (NoDup (columns Overlap.both_joined)));
        vm_compute; exact I).
  split; [exact Hnd1 |]. split; [exact Hnd2 |]. split; [exact Hnd3 |].
  split; [exact Hd |]. split; [exact Hs |].
  split; [vm_compute; reflexivity |].
  apply (shared_broad_id_fails Sample.InchiToInchiKey
           Overlap.both_drug_df Overlap.both_sample_df Overlap.both_joined).
  - exact Hnd1.
  - exact Hnd2.
  - exact Hnd3.
  - exact Hd.
  - exact Hs.
  - vm_compute. reflexivity.
Defined.

(** ** The whole run on well-formed tables *)

Lemma index_of_first (x : string) (l : list string) (i : nat) :
  NoDup l -> l !! i = Some x -> index_of x l = Some i.
Proof.
  intros Hnd Hi. destruct (index_of_elem x l) as [j Hj].
  { eapply list_elem_of_lookup_2; eassumption. }
  rewrite Hj. f_equal. apply index_of_Some in Hj.
  eapply NoDup_lookup; eassumption.
Qed.

(** Dropping the same position from the labels and from a row keeps every
    other cell under its label. *)
Lemma key_at_delete_aligned (cols : list string) (rk q' : nat) (c : string)
    (row : list cell) :
  NoDup cols ->
  index_of c (delete rk cols) = Some q' ->
  exists q, index_of c cols = Some q /\ key_at q' (delete rk row) = key_at q row.
Proof.
  intros Hnd Hq'. apply index_of_Some in Hq'. rewrite list_lookup_delete in Hq'.
  unfold key_at. rewrite list_lookup_delete.
  destruct (decide (q' < rk)); eexists; (split; [apply index_of_first; eassumption |]);
    reflexivity.
Qed.

Section JoinedFields.

Variables (drug_df sample_df joined : DataFrame).
Hypothesis Hdnd : NoDup (columns drug_df).
Hypothesis Hsnd : NoDup (columns sample_df).
Hypothesis Hdrect : rectangular drug_df.
Hypothesis Hshare :
  forall c, c ∈ columns drug_df -> c ∈ columns sample_df -> c = "pert_iname".
Hypothesis Hjoined : joined_df drug_df sample_df = Ok joined.

Lemma joined_columns_plain :
  exists rk,
    index_of "pert_iname" (columns sample_df) = Some rk /\
    columns joined = columns drug_df ++ delete rk (columns sample_df).
Proof using Hsnd Hshare Hjoined.
  unfold joined_df, merge_inner in Hjoined.
  ok_step Hjoined. ok_step Hjoined. rename a0 into rk. exists rk.
  split; [assumption |]. inversion Hjoined; subst. cbn [columns].
  apply merged_columns_disjoint. intros c Hc Hin.
  pose proof (list_elem_of_delete_inv _ _ _ Hin) as Hin'.
  rewrite (Hshare c Hc Hin') in Hin.
  exact (not_elem_of_delete_NoDup _ _ _ Hsnd (index_of_Some _ _ _ Ha0) Hin).
Qed.

Lemma field_joined_drug (c : string) (d extra : list cell) :
  c ∈ columns drug_df -> d ∈ data drug_df ->
  field joined c (d ++ extra) = field drug_df c d.
Proof using Hsnd Hdrect Hshare Hjoined.
  intros Hc Hd. destruct joined_columns_plain as (rk & _ & Hcols).
  destruct (index_of_elem _ _ Hc) as [p Hp].
  unfold field. rewrite Hcols, (index_of_app_l _ _ _ _ Hp), Hp.
  apply key_at_app_l. unfold rectangular in Hdrect. rewrite Forall_forall in Hdrect.
  rewrite (Hdrect d Hd). eapply index_of_lt. eassumption.
Qed.

Lemma field_joined_sample (c : string) (d s : list cell) :
  c ∈ columns sample_df -> c <> "pert_iname" -> d ∈ data drug_df ->
  field joined c (d ++ without sample_df "pert_iname" s) = field sample_df c s.
Proof using Hsnd Hdrect Hshare Hjoined.
  intros Hc Hne Hd. destruct joined_columns_plain as (rk & Hrk & Hcols).
  assert (Hnot : c ∉ columns drug_df).
  { intros Hin. apply Hne. apply Hshare; assumption. }
  assert (Hin : c ∈ delete rk (columns sample_df)).
  { eapply elem_of_delete_other; [apply index_of_Some; eassumption | assumption..]. }
  destruct (index_of_elem _ _ Hin) as [q' Hq'].
  destruct (key_at_delete_aligned _ _ _ _ s Hsnd Hq') as (q & Hq & Hkey).
  unfold field, without. rewrite Hcols, (index_of_app_r _ _ _ Hnot), Hq', Hrk, Hq.
  cbn [fmap option_fmap option_map]. rewrite <- Hkey.
  apply key_at_app_r. unfold rectangular in Hdrect. rewrite Forall_forall in Hdrect.
  auto.
Qed.

End JoinedFields.

(** The consolidated table of a join with distinct labels and no
    [InChIKey14] yet: its labels, and where its cells come from. *)
Lemma reorder_and_assign_shape conv (joined combined : DataFrame) :
  NoDup (columns joined) -> "InChIKey14" ∉ columns joined ->
  reorder_and_assign conv joined = Ok combined ->
  exists i,
    index_of "broad_id" (columns joined) = Some i /\
    columns combined = ("broad_id" :: delete i (columns joined)) ++ ["InChIKey14"] /\
    (forall c, c ∈ columns joined -> c ∈ columns combined) /\
    forall row', row' ∈ data combined ->
      exists row, row ∈ data joined /\
        forall c, c ∈ columns joined -> field combined c row' = field joined c row.
Proof.
  intros Hnd Hfresh H. unfold reorder_and_assign in H.
  ok_step H. ok_step H. ok_step H. ok_step H. inversion H; subst; clear H.
  rename a into order, a0 into ordered, a1 into keys, a2 into keys14.
  destruct (col_order_Ok _ _ Ha) as (i & Hi & ->). exists i.
  pose proof (index_of_Some _ _ _ Hi) as Hbroad.
  assert (Hsub : "broad_id" :: delete i (columns joined) ⊆ columns joined).
  { intros c Hc. apply elem_of_cons in Hc. destruct Hc as [-> | Hc].
    - eapply list_elem_of_lookup_2. eassumption.
    - eapply delete_subseteq. eassumption. }
  assert (Hsup : forall c, c ∈ columns joined ->
                   c ∈ "broad_id" :: delete i (columns joined)).
  { intros c Hc. destruct (decide (c = "broad_id")) as [->|Hne]; [left |].
    right. eapply elem_of_delete_other; eassumption. }
  rewrite (loc_columns_NoDup _ _ Hnd Hsub) in Ha0. inversion Ha0; subst; clear Ha0.
  set (order := "broad_id" :: delete i (columns joined)) in *.
  set (ordered := mkFrame order _).
  assert (Hcols : columns (assign "InChIKey14" keys14 ordered) = order ++ ["InChIKey14"]).
  { rewrite assign_columns. cbn [columns]. rewrite decide_False; [reflexivity |].
    intros Hin. apply Hfresh, Hsub, Hin. }
  split; [assumption |]. split; [exact Hcols |]. split.
  - intros c Hc. rewrite Hcols. apply elem_of_app. left. apply Hsup. assumption.
  - intros row' Hrow'. apply list_elem_of_lookup in Hrow'. destruct Hrow' as [n Hn].
    destruct (assign_data _ _ _ _ _ Hn) as (row0 & v & Hrow0 & _ & _).
    cbn [data] in Hrow0. unfold ordered in Hrow0. cbn [data] in Hrow0.
    rewrite list_lookup_fmap in Hrow0.
    destruct (data joined !! n) as [row|] eqn:Hrow; [| discriminate].
    inversion Hrow0; subst row0; clear Hrow0.
    exists row. split; [eapply list_elem_of_lookup_2; eassumption |].
    intros c Hc.
    assert (Hne : c <> "InChIKey14") by (intros ->; contradiction).
    rewrite (field_assign_other c "InChIKey14" keys14 ordered n
               ((fun c => field joined c row) <$> order) row' Hne).
    + apply field_fmap_labels. apply Hsup. assumption.
    + apply Hsup. assumption.
    + rewrite length_fmap. reflexivity.
    + unfold ordered. cbn [data]. rewrite list_lookup_fmap, Hrow. reflexivity.
    + exact Hn.
Qed.

(** On tables of the expected kind whose compound names agree, every step
    succeeds: the run raises nothing and writes the consolidated table and
    then the long table. *)
Theorem script_succeeds conv (drug_df sample_df : DataFrame) :
  clue_tables drug_df sample_df ->
  check_pert_iname drug_df sample_df = Ok tt ->
  exists combined long,
    script conv drug_df sample_df
    = ([("repurposing_info.tsv", combined); ("repurposing_info_long.tsv", long)], Ok tt).
Proof.
  intros (Hdnd & Hsnd & Hdrect & Hshare & Hmoa & Htarget & Hbroad & Hkey
          & Hfresh & Hkeys & Htext & _ & _ & _) Hcheck.
  (* the join *)
  pose proof Hcheck as Hnames. apply check_pert_iname_Ok in Hnames.
  destruct Hnames as (dnames & snames & Hd & Hs & _).
  assert (Hjoin : exists joined, joined_df drug_df sample_df = Ok joined).
  { unfold joined_df, merge_inner. unfold get_column in Hd, Hs.
    destruct (index_of "pert_iname" (columns drug_df)); [| discriminate].
    destruct (index_of "pert_iname" (columns sample_df)); [| discriminate].
    cbn. eauto. }
  destruct Hjoin as [joined Hjoined].
  pose proof (merge_inner_rows _ _ _ _ Hjoined) as Hrows.
  destruct (joined_columns_plain drug_df sample_df joined Hsnd Hshare Hjoined)
    as (rk & Hrk & Hjcols).
  pose proof (joined_columns_NoDup _ _ _ Hdnd Hsnd Hshare Hjoined) as Hjnd.
  assert (Hjin : forall c, c ∈ columns joined ->
                   c ∈ columns drug_df \/ c ∈ columns sample_df).
  { intros c Hc. rewrite Hjcols in Hc. apply elem_of_app in Hc.
    destruct Hc as [Hc | Hc]; [auto | right; eapply list_elem_of_delete_inv; eassumption]. }
  assert (Hdin : forall c, c ∈ columns drug_df -> c ∈ columns joined).
  { intros c Hc. rewrite Hjcols. apply elem_of_app. auto. }
  assert (Hsin : forall c, c ∈ columns sample_df -> c <> "pert_iname" ->
                   c ∈ columns joined).
  { intros c Hc Hne. rewrite Hjcols. apply elem_of_app. right.
    eapply elem_of_delete_other; [apply index_of_Some; eassumption | assumption..]. }
  assert (Hjfresh : forall c, c ∈ added_labels -> c ∉ columns joined).
  { intros c Hc Hin. destruct (Hfresh c Hc) as [H1 H2].
    destruct (Hjin c Hin); contradiction. }
  (* lines 75-81 *)
  assert (Hjkey : "InChIKey" ∈ columns joined) by (apply Hsin; [assumption | discriminate]).
  destruct (index_of_elem _ _ Hjkey) as [pk Hpk].
  assert (Hcomb : exists combined, reorder_and_assign conv joined = Ok combined).
  { apply (reorder_and_assign_succeeds conv joined
             ((fun row => key_at pk row) <$> data joined)).
    - apply Hsin; [assumption | discriminate].
    - unfold get_column. rewrite Hpk. reflexivity.
    - apply Forall_fmap, Forall_forall. intros out Hout. simpl.
      apply Hrows in Hout. destruct Hout as (d & s & Hdd & Hss & _ & ->).
      rewrite Forall_forall in Hkeys. destruct (Hkeys s Hss) as [t Ht].
      exists t. rewrite <- Ht.
      rewrite <- (field_joined_sample drug_df sample_df joined Hsnd Hdrect Hshare Hjoined
                    "InChIKey" d s Hkey ltac:(discriminate) Hdd).
      unfold field. rewrite Hpk. reflexivity. }
  destruct Hcomb as [combined Hcombined].
  pose proof (combined_rectangular _ _ _ Hcombined) as Hcrect.
  destruct (reorder_and_assign_shape conv joined combined Hjnd
              (Hjfresh "InChIKey14" ltac:(right; right; right; left)) Hcombined)
    as (i & Hi & Hccols & Hcin & Hcrows).
  (* lines 104-170 *)
  assert (Hlong : exists long, long_combined_df combined = Ok long).
  { assert (Hn : forall c, c ∈ added_labels -> c <> "InChIKey14" -> c ∉ columns combined).
    { intros c Hc Hne Hin. rewrite Hccols in Hin. apply elem_of_app in Hin.
      destruct Hin as [Hin | Hin].
      - apply elem_of_cons in Hin. destruct Hin as [-> | Hin].
        + apply (Hjfresh "broad_id" Hc). apply Hsin; [assumption | discriminate].
        + apply (Hjfresh c Hc). eapply list_elem_of_delete_inv. eassumption.
      - apply list_elem_of_singleton in Hin. contradiction. }
    apply long_combined_df_succeeds.
    - assumption.
    - apply Hcin, Hdin, Hmoa.
    - apply Hcin, Hdin, Htarget.
    - apply Hn; [right; left | discriminate].
    - apply Hn; [right; right; left | discriminate].
    - apply Forall_forall. intros row' Hrow'.
      destruct (Hcrows row' Hrow') as (out & Hout & Hfields).
      apply Hrows in Hout. destruct Hout as (d & s & Hdd & _ & _ & ->).
      rewrite (Hfields "moa") by (apply Hdin; assumption).
      rewrite (Hfields "target") by (apply Hdin; assumption).
      rewrite !(field_joined_drug drug_df sample_df joined Hsnd Hdrect Hshare Hjoined)
        by assumption.
      rewrite Forall_forall in Htext. auto. }
  destruct Hlong as [long Hlong]. exists combined, long.
  unfold script, combined_df. rewrite Hcheck. cbn [mbind result_bind].
  rewrite Hjoined. cbn [mbind result_bind]. rewrite Hcombined, Hlong. reflexivity.
Qed.

Lemma script_succeeds_witness :
  clue_tables Sample.drug_df Sample.sample_df /\
  check_pert_iname Sample.drug_df Sample.sample_df = Ok tt /\
  exists combined long,
    script Sample.InchiToInchiKey Sample.drug_df Sample.sample_df
    = ([("repurposing_info.tsv", combined); ("repurposing_info_long.tsv", long)], Ok tt).
Proof.
  assert (Hclue : clue_tables Sample.drug_df Sample.sample_df).
  { unfold clue_tables.
    split; [apply (bool_decide_unpack (NoDup (columns Sample.drug_df)));
            vm_compute; exact I |].
    split; [apply (bool_decide_unpack (NoDup (columns Sample.sample_df)));
            vm_compute; exact I |].
    split; [unfold rectangular; repeat constructor |].
    split.
    { intros c Hd Hs.
      repeat (apply elem_of_cons in Hd; destruct Hd as [-> | Hd]);
        [reflexivity | exfalso .. | apply elem_of_nil in Hd; contradiction];
        repeat (apply elem_of_cons in Hs; destruct Hs as [Hs | Hs];
                [discriminate Hs |]);
        apply elem_of_nil in Hs; contradiction. }
    split; [apply (bool_decide_unpack ("moa" ∈ columns Sample.drug_df));
            vm_compute; exact I |].
    split; [apply (bool_decide_unpack ("target" ∈ columns Sample.drug_df));
            vm_compute; exact I |].
    split; [apply (bool_decide_unpack ("broad_id" ∈ columns Sample.sample_df));
            vm_compute; exact I |].
    split; [apply (bool_decide_unpack ("InChIKey" ∈ columns Sample.sample_df));
            vm_compute; exact I |].
    split.
    { intros c Hc.
      repeat (apply elem_of_cons in Hc; destruct Hc as [-> | Hc]);
        [| | | | apply elem_of_nil in Hc; contradiction];
        (split; intros Hin;
         repeat (apply elem_of_cons in Hin; destruct Hin as [Hin | Hin];
                 [vm_compute in Hin; discriminate Hin |]);
         apply elem_of_nil in Hin; contradiction). }
    split; [repeat (constructor; [eexists; vm_compute; reflexivity |]); constructor |].
    split; [repeat (constructor; [vm_compute; split; exact I |]); constructor |].
    split; [discriminate |].
    split; repeat (constructor; [eexists; vm_compute; reflexivity |]); constructor. }
  split; [exact Hclue |].
  split; [vm_compute; reflexivity |].
  apply (script_succeeds Sample.InchiToInchiKey Sample.drug_df Sample.sample_df).
  - exact Hclue.
  - vm_compute. reflexivity.
Defined.

(** The consolidated table, read against the two input tables: its labels
    are distinct, they are the labels of the two tables and [InChIKey14],
    [broad_id] comes first, and every row is a drug row and a sample row of
    the same name side by side, cell for cell. *)
Theorem consolidated_rows_come_from_both_tables conv
    (drug_df sample_df combined : DataFrame) :
  NoDup (columns drug_df) -> NoDup (columns sample_df) ->
  rectangular drug_df ->
  (forall c, c ∈ columns drug_df -> c ∈ columns sample_df -> c = "pert_iname") ->
  "InChIKey14" ∉ columns drug_df -> "InChIKey14" ∉ columns sample_df ->
  combined_df conv drug_df sample_df = Ok combined ->
  NoDup (columns combined) /\
  columns combined !! 0 = Some "broad_id" /\
  (forall c, c ∈ columns combined <->
             c = "InChIKey14" \/ c ∈ columns drug_df \/ c ∈ columns sample_df) /\
  forall row, row ∈ data combined ->
    exists d s,
      d ∈ data drug_df /\ s ∈ data sample_df /\
      field drug_df "pert_iname" d = field sample_df "pert_iname" s /\
      (forall c, c ∈ columns drug_df -> field combined c row = field drug_df c d) /\
      (forall c, c ∈ columns sample_df -> field combined c row = field sample_df c s).
Proof.
  intros Hdnd Hsnd Hdrect Hshare Hfd Hfs H. unfold combined_df in H.
  ok_step H. destruct a. rename Ha into Hcheck.
  ok_step H. rename a into joined, Ha into Hjoined, H into Hcombined.
  pose proof (merge_inner_rows _ _ _ _ Hjoined) as Hrows.
  destruct (joined_columns_plain drug_df sample_df joined Hsnd Hshare Hjoined)
    as (rk & Hrk & Hjcols).
  pose proof (joined_columns_NoDup _ _ _ Hdnd Hsnd Hshare Hjoined) as Hjnd.
  assert (Hkeyd : "pert_iname" ∈ columns drug_df).
  { apply check_pert_iname_Ok in Hcheck. destruct Hcheck as (dn & sn & Hd & _).
    unfold get_column in Hd.
    destruct (index_of "pert_iname" (columns drug_df)) as [p|] eqn:Hp; [| discriminate].
    eapply list_elem_of_lookup_2, index_of_Some, Hp. }
  assert (Hjiff : forall c, c ∈ columns joined <->
                    c ∈ columns drug_df \/ c ∈ columns sample_df).
  { intros c. rewrite Hjcols, elem_of_app. split.
    - intros [Hc | Hc]; [auto | right; eapply list_elem_of_delete_inv; eassumption].
    - intros [Hc | Hc]; [auto |].
      destruct (decide (c = "pert_iname")) as [->|Hne]; [auto | right].
      eapply elem_of_delete_other; [apply index_of_Some; eassumption | assumption..]. }
  assert (Hjfresh : "InChIKey14" ∉ columns joined).
  { intros Hin. apply Hjiff in Hin. destruct Hin; contradiction. }
  destruct (reorder_and_assign_shape conv joined combined Hjnd Hjfresh Hcombined)
    as (i & Hi & Hccols & Hcin & Hcrows).
  pose proof (index_of_Some _ _ _ Hi) as Hbroad.
  assert (Horder : forall c, c ∈ "broad_id" :: delete i (columns joined) <->
                     c ∈ columns joined).
  { intros c. rewrite <- (delete_Permutation (columns joined) i "broad_id" Hbroad).
    reflexivity. }
  split; [| split; [| split]].
  - rewrite Hccols. apply NoDup_app. split; [| split].
    + rewrite <- (delete_Permutation (columns joined) i "broad_id" Hbroad). assumption.
    + intros c Hc Hin. apply list_elem_of_singleton in Hin. subst c.
      apply Hjfresh, Horder, Hc.
    + apply NoDup_singleton.
  - rewrite Hccols. reflexivity.
  - intros c. rewrite Hccols, elem_of_app, Horder, Hjiff, list_elem_of_singleton. tauto.
  - intros row Hrow. destruct (Hcrows row Hrow) as (out & Hout & Hfields).
    apply Hrows in Hout. destruct Hout as (d & s & Hdd & Hss & Hsame & ->).
    exists d, s. repeat (split; [assumption |]). split.
    + intros c Hc. rewrite Hfields by (apply Hjiff; auto).
      apply (field_joined_drug drug_df sample_df joined Hsnd Hdrect Hshare Hjoined);
        assumption.
    + intros c Hc. rewrite Hfields by (apply Hjiff; auto).
      destruct (decide (c = "pert_iname")) as [->|Hne].
      * rewrite <- Hsame.
        apply (field_joined_drug drug_df sample_df joined Hsnd Hdrect Hshare Hjoined);
          assumption.
      * apply (field_joined_sample drug_df sample_df joined Hsnd Hdrect Hshare Hjoined);
          assumption.
Qed.

Lemma consolidated_rows_come_from_both_tables_witness :
  NoDup (columns Sample.drug_df) /\ NoDup (columns Sample.sample_df) /\
  rectangular Sample.drug_df /\
  (forall c, c ∈ columns Sample.drug_df -> c ∈ columns Sample.sample_df ->
     c = "pert_iname") /\
  ("InChIKey14" ∉ columns Sample.drug_df) /\
  ("InChIKey14" ∉ columns Sample.sample_df) /\
  combined_df Sample.InchiToInchiKey Sample.drug_df Sample.sample_df
    = Ok Sample.combined /\
  NoDup (columns Sample.combined) /\
  columns Sample.combined !! 0 = Some "broad_id" /\
  (forall c, c ∈ columns Sample.combined <->
             c = "InChIKey14" \/ c ∈ columns Sample.drug_df
             \/ c ∈ columns Sample.sample_df) /\
  forall row, row ∈ data Sample.combined ->
    exists d s,
      d ∈ data Sample.drug_df /\ s ∈ data Sample.sample_df /\
      field Sample.drug_df "pert_iname" d = field Sample.sample_df "pert_iname" s /\
      (forall c, c ∈ columns Sample.drug_df ->
         field Sample.combined c row = field Sample.drug_df c d) /\
      (forall c, c ∈ columns Sample.sample_df ->
         field Sample.combined c row = field Sample.sample_df c s).
Proof.
  assert (Hdnd : NoDup (columns Sample.drug_df))
    by (apply (bool_decide_unpack (NoDup (columns Sample.drug_df))); vm_compute; exact I).
  assert (Hsnd : NoDup (columns Sample.sample_df))
    by (apply (bool_decide_unpack (NoDup (columns Sample.sample_df))); vm_compute; exact I).
  assert (Hshare : forall c, c ∈ columns Sample.drug_df ->
                     c ∈ columns Sample.sample_df -> c = "pert_iname").
  { intros c Hd Hs.
    repeat (apply elem_of_cons in Hd; destruct Hd as [-> | Hd]);
      [reflexivity | exfalso .. | apply elem_of_nil in Hd; contradiction];
      repeat (apply elem_of_cons in Hs; destruct Hs as [Hs | Hs];
              [discriminate Hs |]);
      apply elem_of_nil in Hs; contradiction. }
  assert (Hfd : "InChIKey14" ∉ columns Sample.drug_df)
    by (apply (bool_decide_unpack ("InChIKey14" ∉ columns Sample.drug_df));
        vm_compute; exact I).
  assert (Hfs : "InChIKey14" ∉ columns Sample.sample_df)
    by (apply (bool_decide_unpack ("InChIKey14" ∉ columns Sample.sample_df));
        vm_compute; exact I).
  split; [exact Hdnd |]. split; [exact Hsnd |].
  split; [unfold rectangular; repeat constructor |].
  split; [exact Hshare |]. split; [exact Hfd |]. split; [exact Hfs |].
  split; [vm_compute; reflexivity |].
  apply (consolidated_rows_come_from_both_tables Sample.InchiToInchiKey
           Sample.drug_df Sample.sample_df Sample.combined).
  - exact Hdnd.
  - exact Hsnd.
  - unfold rectangular. repeat constructor.
  - exact Hshare.
  - exact Hfd.
  - exact Hfs.
  - vm_compute. reflexivity.
Defined.

(** ** A run that stops half way *)

(** When the consolidated table is made but has no [moa] column, or no
    [target] column, lines 104-105 raise an [AttributeError]: the run ends
    in that error with the consolidated file written and the long file
    not. *)
Theorem missing_annotation_column_stops_after_first_file conv
    (drug_df sample_df combined : DataFrame) :
  NoDup (columns drug_df) -> NoDup (columns sample_df) -> NoDup (columns combined) ->
  combined_df conv drug_df sample_df = Ok combined ->
  "moa" ∉ columns combined \/ "target" ∉ columns combined ->
  script conv drug_df sample_df
  = ([("repurposing_info.tsv", combined)], Raise AttributeError).
Proof.
  intros _ _ _ Hc Hmissing. unfold script. rewrite Hc.
  assert (Hlong : long_combined_df combined = Raise AttributeError).
  { unfold long_combined_df, filled_df.
    destruct (index_of "moa" (columns combined)) as [pm|] eqn:Hpm.
    - destruct Hmissing as [Hm | Ht];
        [exfalso; apply Hm; eapply list_elem_of_lookup_2, index_of_Some, Hpm |].
      destruct (fill_missing_succeeds "moa" combined) as [df Hdf];
        [eapply list_elem_of_lookup_2, index_of_Some, Hpm |].
      rewrite Hdf. cbn [mbind result_bind].
      apply fill_missing_Ok in Hdf. destruct Hdf as (p & _ & ->).
      apply index_of_None in Ht.
      unfold fill_missing, get_column. cbn [columns]. rewrite Ht. reflexivity.
    - unfold fill_missing, get_column. rewrite Hpm. reflexivity. }
  rewrite Hlong. reflexivity.
Qed.

Lemma missing_annotation_column_stops_after_first_file_witness :
  NoDup (columns Bare.bare_drug_df) /\ NoDup (columns Bare.bare_sample_df) /\
  NoDup (columns Bare.bare_combined) /\
  combined_df Sample.InchiToInchiKey Bare.bare_drug_df Bare.bare_sample_df
  = Ok Bare.bare_combined /\
  ("moa" ∉ columns Bare.bare_combined \/ "target" ∉ columns Bare.bare_combined) /\
  script Sample.InchiToInchiKey Bare.bare_drug_df Bare.bare_sample_df
  = ([("repurposing_info.tsv", Bare.bare_combined)], Raise AttributeError).
Proof.
  assert (Hnd1 : NoDup (columns Bare.bare_drug_df))
    by (apply (bool_decide_unpack (NoDup (columns Bare.bare_drug_df)));
        vm_compute; exact I).
  assert (Hnd2 : NoDup (columns Bare.bare_sample_df))
    by (apply (bool_decide_unpack (NoDup (columns Bare.bare_sample_df)));
        vm_compute; exact I).
  assert (Hnd3 : NoDup (columns Bare.bare_combined))
    by (apply (bool_decide_unpack (NoDup (columns Bare.bare_combined)));
        vm_compute; exact I).
  assert (Hmoa : "moa" ∉ columns Bare.bare_combined
                 \/ "target" ∉ columns Bare.bare_combined).
  { left. intros Hin.
    repeat (apply elem_of_cons in Hin; destruct Hin as [Hin | Hin];
            [discriminate Hin |]).
    apply elem_of_nil in Hin. contradiction. }
  split; [exact Hnd1 |]. split; [exact Hnd2 |]. split; [exact Hnd3 |].
  split; [vm_compute; reflexivity |]. split; [exact Hmoa |].
  apply (missing_annotation_column_stops_after_first_file Sample.InchiToInchiKey
           Bare.bare_drug_df Bare.bare_sample_df Bare.bare_combined).
  - exact Hnd1.
  - exact Hnd2.
  - exact Hnd3.
  - vm_compute. reflexivity.
  - exact Hmoa.
Defined.

(** ** Missing names *)

Lemma holds_text_false (values : list cell) :
  Forall (fun v => forall t, v <> Str t) values -> holds_text values = false.
Proof.
  unfold holds_text. induction 1 as [|v values Hv _ IH]; [reflexivity |].
  cbn [existsb]. rewrite IH.
  destruct v as [|t|n]; [reflexivity | exfalso; exact (Hv t eq_refl) | reflexivity].
Qed.

(** A name column that holds no text and at least one missing entry, in
    either table, makes the run end in an [AssertionError] with no file
    written, whatever the other table holds: the missing entries of such a
    column are never found in the other set, not even when the other table
    has the same names. *)
Theorem missing_names_fail_the_assertion conv (drug_df sample_df : DataFrame)
    (d s : list cell) :
  get_column "pert_iname" drug_df = Some d ->
  get_column "pert_iname" sample_df = Some s ->
  (Forall (fun v => forall t, v <> Str t) d /\ NaN ∈ d) \/
  (Forall (fun v => forall t, v <> Str t) s /\ NaN ∈ s) ->
  script conv drug_df sample_df = ([], Raise AssertionError).
Proof.
  intros Hd Hs Hnan.
  assert (Hfresh : forall a b, Forall (fun v => forall t, v <> Str t) a -> NaN ∈ a ->
                     no_difference a b = false).
  { intros a b Ha Hin. unfold no_difference.
    rewrite (holds_text_false a Ha).
    rewrite (bool_decide_eq_false_2 (NaN ∉ a)) by auto. apply andb_false_r. }
  unfold script, combined_df, check_pert_iname. rewrite Hd, Hs.
  cbn [lift mbind result_bind].
  destruct Hnan as [[Hall Hin] | [Hall Hin]].
  - rewrite (Hfresh d s Hall Hin). reflexivity.
  - rewrite (Hfresh s d Hall Hin).
    destruct (no_difference d s); reflexivity.
Qed.

Lemma missing_names_fail_the_assertion_witness :
  get_column "pert_iname" Nameless.nameless_drug_df = Some [NaN] /\
  get_column "pert_iname" Nameless.nameless_sample_df = Some [NaN] /\
  ((Forall (fun v => forall t, v <> Str t) [NaN] /\ NaN ∈ [NaN]) \/
   (Forall (fun v => forall t, v <> Str t) [NaN] /\ NaN ∈ [NaN])) /\
  script Sample.InchiToInchiKey Nameless.nameless_drug_df Nameless.nameless_sample_df
  = ([], Raise AssertionError).
Proof.
  assert (Hnan : Forall (fun v => forall t, v <> Str t) [NaN] /\ NaN ∈ [NaN]).
  { split; [repeat constructor; discriminate | left]. }
  split; [vm_compute; reflexivity |]. split; [vm_compute; reflexivity |].
  split; [left; exact Hnan |].
  apply (missing_names_fail_the_assertion Sample.InchiToInchiKey
           Nameless.nameless_drug_df Nameless.nameless_sample_df [NaN] [NaN]).
  - vm_compute. reflexivity.
  - vm_compute. reflexivity.
  - left. exact Hnan.
Defined.

(** ** A combined table with a key column of its own *)

Lemma index_of_renamed_key (cols : list string) :
  split_col_index +:+ "_x" ∉ cols ->
  index_of (split_col_index +:+ "_x") (renamed cols) = index_of split_col_index cols.
Proof.
  unfold renamed. induction cols as [|y cols IH]; intros Hfree; [reflexivity |].
  apply not_elem_of_cons in Hfree. destruct Hfree as [Hy Hfree].
  rewrite fmap_cons. cbn [index_of].
  destruct (decide (y = split_col_index)) as [->|Hne].
  - rewrite !decide_True by reflexivity. reflexivity.
  - rewrite decide_False by congruence.
    rewrite (decide_False (P := split_col_index = y)) by congruence.
    rewrite (IH Hfree). reflexivity.
Qed.

(** When the combined table has a column [repurposing_info_index] of its
    own (and none with that name and a suffix), the run goes through with
    that column renamed: the long table starts with a new column
    [repurposing_info_index], the table's own column follows among the
    others as [repurposing_info_index_x], and the key column of the split
    frame comes as [repurposing_info_index_y].  Every long row carries the
    label of the row it comes from in the new column and in the [_y]
    column, and under [_x] what that row had in its own column. *)
Theorem own_key_column_is_renamed (combined long : DataFrame) :
  NoDup (columns combined) ->
  rectangular combined ->
  split_col_index ∈ columns combined ->
  split_col_index +:+ "_x" ∉ columns combined ->
  split_col_index +:+ "_y" ∉ columns combined ->
  long_combined_df combined = Ok long ->
  columns long
  = split_col_index
      :: ((fun c => if decide (c = split_col_index) then c +:+ "_x" else c)
            <$> columns combined)
      ++ [split_col_index +:+ "_y"; "moa_unique"; "target_unique"] /\
  forall r, r ∈ data long ->
    exists i row,
      data combined !! i = Some row /\
      field long split_col_index r = Int (Z.of_nat i) /\
      field long (split_col_index +:+ "_y") r = Int (Z.of_nat i) /\
      field long (split_col_index +:+ "_x") r = field combined split_col_index row.
Proof.
  intros _ Hrect Hin Hx Hy H.
  destruct (long_combined_df_Ok _ _ Hrect H)
    as (pm & pt & filled & merged & Hpm & Hpt & Hne & Hmu & Htu
        & Hf & Hm & Hl & Hfilled & Hstr & Hmerged & Hlong).
  assert (Hcl : columns long = long_labels (columns combined))
    by (rewrite Hlong; reflexivity).
  assert (Hlabels : long_labels (columns combined)
                    = split_col_index :: renamed (columns combined)
                        ++ [split_col_index +:+ "_y"; "moa_unique"; "target_unique"]).
  { unfold long_labels, key_labels, key_tag.
    rewrite !bool_decide_eq_true_2 by assumption. reflexivity. }
  split; [rewrite Hcl, Hlabels; reflexivity |].
  intros r Hr.
  apply (long_rows_inv combined long pm pt) in Hr; [| rewrite Hlong; reflexivity].
  destruct Hr as (i & row & m & t & Hrow & _ & _ & ->).
  pose proof (rectangular_lookup _ _ _ Hrect Hrow) as Hlen.
  pose proof (index_of_lt _ _ _ Hpm) as Hpmn.
  pose proof (index_of_lt _ _ _ Hpt) as Hptn.
  destruct (index_of_elem _ _ Hin) as [p Hp].
  pose proof (index_of_lt _ _ _ Hp) as Hpn.
  exists i, row. split; [assumption |].
  split; [apply (field_long_index _ _ Hcl); rewrite !length_update_at; assumption |].
  assert (Hcells : key_cells (columns combined) i = [Int (Z.of_nat i)])
    by (unfold key_cells; rewrite bool_decide_eq_true_2 by assumption; reflexivity).
  assert (Hshift : forall q X,
            key_at (S q) ([Int (Z.of_nat i)] ++ X) = key_at q X) by reflexivity.
  unfold field. rewrite Hcl, Hlabels, Hcells. split.
  - rewrite index_of_later by discriminate.
    rewrite index_of_app_r
      by (intros Hin'; apply elem_of_renamed in Hin';
          destruct Hin' as [[Hin' _] | Hin'];
          [contradiction | vm_compute in Hin'; discriminate Hin']).
    rewrite index_of_here, length_renamed. cbn [fmap option_fmap option_map].
    rewrite Hshift.
    rewrite (key_at_app_r _ _ (length (columns combined)) 0)
      by (rewrite !length_update_at; assumption).
    reflexivity.
  - rewrite index_of_later by discriminate.
    rewrite (index_of_app_l _ (renamed (columns combined)) _ p)
      by (rewrite index_of_renamed_key; assumption).
    cbn [fmap option_fmap option_map]. rewrite Hshift.
    rewrite key_at_app_l by (rewrite !length_update_at; lia).
    rewrite Hp. rewrite key_at_two_updates by lia.
    rewrite decide_False; [reflexivity |].
    intros [-> | ->];
      [assert (Heq : split_col_index = "moa")
         by (eapply same_position_same_label; eassumption)
      | assert (Heq : split_col_index = "target")
         by (eapply same_position_same_label; eassumption)];
      discriminate Heq.
Qed.

Lemma own_key_column_is_renamed_witness :
  NoDup (columns Keyed.keyed_combined) /\
  rectangular Keyed.keyed_combined /\
  split_col_index ∈ columns Keyed.keyed_combined /\
  (split_col_index +:+ "_x" ∉ columns Keyed.keyed_combined) /\
  (split_col_index +:+ "_y" ∉ columns Keyed.keyed_combined) /\
  long_combined_df Keyed.keyed_combined = Ok Keyed.keyed_long /\
  columns Keyed.keyed_long
  = split_col_index
      :: ((fun c => if decide (c = split_col_index) then c +:+ "_x" else c)
            <$> columns Keyed.keyed_combined)
      ++ [split_col_index +:+ "_y"; "moa_unique"; "target_unique"] /\
  forall r, r ∈ data Keyed.keyed_long ->
    exists i row,
      data Keyed.keyed_combined !! i = Some row /\
      field Keyed.keyed_long split_col_index r = Int (Z.of_nat i) /\
      field Keyed.keyed_long (split_col_index +:+ "_y") r = Int (Z.of_nat i) /\
      field Keyed.keyed_long (split_col_index +:+ "_x") r
      = field Keyed.keyed_combined split_col_index row.
Proof.
  assert (Hnd : NoDup (columns Keyed.keyed_combined))
    by (apply (bool_decide_unpack (NoDup (columns Keyed.keyed_combined)));
        vm_compute; exact I).
  assert (Hin : split_col_index ∈ columns Keyed.keyed_combined)
    by (apply (bool_decide_unpack (split_col_index ∈ columns Keyed.keyed_combined));
        vm_compute; exact I).
  assert (Hx : split_col_index +:+ "_x" ∉ columns Keyed.keyed_combined)
    by (apply (bool_decide_unpack
                 (split_col_index +:+ "_x" ∉ columns Keyed.keyed_combined));
        vm_compute; exact I).
  assert (Hy : split_col_index +:+ "_y" ∉ columns Keyed.keyed_combined)
    by (apply (bool_decide_unpack
                 (split_col_index +:+ "_y" ∉ columns Keyed.keyed_combined));
        vm_compute; exact I).
  split; [exact Hnd |].
  split; [unfold rectangular; repeat constructor |].
  split; [exact Hin |]. split; [exact Hx |]. split; [exact Hy |].
  split; [vm_compute; reflexivity |].
  apply (own_key_column_is_renamed Keyed.keyed_combined Keyed.keyed_long).
  - exact Hnd.
  - unfold rectangular. repeat constructor.
  - exact Hin.
  - exact Hx.
  - exact Hy.
  - vm_compute. reflexivity.
Defined.
